(** * Media ingestion and storage engine: a shallow embedding

    The development follows [internal/media/model/media.go],
    [internal/media/repository] and [internal/media/service/{upload,processor}.go].
    Go strings are byte strings ([string]); uploaded content is a [list byte];
    Go [int] and [int64] values (keys, sizes, pixel dimensions) are [Z], all
    far below the 64-bit range, so no wrap-around is written.  The registry
    tables, the usage table and the file system form an explicit [World] that
    every service call threads.  [UploadFile] is given in its two halves,
    before and after the lookup by fingerprint, so that a concurrent upload
    can be placed between them. *)

From Stdlib Require Import ZArith String Ascii Bool List Lia Floats.
From Stdlib.Strings Require Import Byte.
From stdpp Require Import base option list gmap strings.

Local Open Scope string_scope.
Local Open Scope Z_scope.

(** ** Go's [strings] package *)

Module strings.

(** [strings.HasPrefix(s, prefix)] *)
Definition HasPrefix (s p : string) : bool := String.prefix p s.

(** [s] without the leading [p], when [s] starts with [p]. *)
Fixpoint drop_prefix (s p : string) : option string :=
  match p, s with
  | EmptyString, _ => Some s
  | String a p', String b s' =>
      if Ascii.eqb a b then drop_prefix s' p' else None
  | String _ _, EmptyString => None
  end.

(** [strings.TrimPrefix(s, prefix)]: [s] without the leading [prefix], or [s]
    itself when it does not start with it. *)
Definition TrimPrefix (s p : string) : string :=
  match drop_prefix s p with
  | Some t => t
  | None => s
  end.

(** [strings.Contains(s, substr)] *)
Fixpoint Contains (s sub : string) : bool :=
  HasPrefix s sub ||
  match s with
  | EmptyString => false
  | String _ s' => Contains s' sub
  end.

(** [strings.HasSuffix] and [strings.TrimSuffix] *)
Definition HasSuffix (s suf : string) : bool :=
  let n := String.length s in
  let k := String.length suf in
  (k <=? n)%nat && String.eqb (substring (n - k) k s) suf.

Definition TrimSuffix (s suf : string) : string :=
  if HasSuffix s suf
  then substring 0 (String.length s - String.length suf) s
  else s.

(** [strings.Join(elems, sep)] *)
Fixpoint Join (elems : list string) (sep : string) : string :=
  match elems with
  | [] => ""
  | [e] => e
  | e :: rest => e ++ sep ++ Join rest sep
  end.

End strings.

(** ** Go's [path/filepath] package (Unix separator) *)

Module filepath.

Definition sep : ascii := "/"%char.

(** The elements of a path between separators; a string without separator is
    its own single element. *)
Fixpoint elements (s : string) : list string :=
  match s with
  | EmptyString => [""]
  | String c s' =>
      if Ascii.eqb c sep then "" :: elements s'
      else match elements s' with
           | e :: es => String c e :: es
           | [] => [String c ""]
           end
  end.

(** [(path[:i+1], path[i+1:])] for [i] the index of the last separator
    ([("", path)] when there is none). *)
Fixpoint cut_last_sep (s : string) : string * string :=
  match s with
  | EmptyString => ("", "")
  | String c s' =>
      match cut_last_sep s' with
      | (EmptyString, b) =>
          if Ascii.eqb c sep then ("/", b) else ("", String c b)
      | (d, b) => (String c d, b)
      end
  end.

(** The suffix starting at the last dot, [""] when there is no dot. *)
Fixpoint from_last_dot (s : string) : string :=
  match s with
  | EmptyString => ""
  | String c s' =>
      match from_last_dot s' with
      | EmptyString => if Ascii.eqb c "."%char then s else ""
      | r => r
      end
  end.

(** [filepath.Ext(path)]: the suffix beginning at the final dot in the final
    element of [path]; empty if there is no dot. *)
Definition Ext (path : string) : string :=
  from_last_dot (snd (cut_last_sep path)).

(** One step of [Clean]'s scan; [out] holds the kept elements, last first. *)
Definition clean_step (rooted : bool) (out : list string) (e : string)
  : list string :=
  if String.eqb e "" then out
  else if String.eqb e "." then out
  else if String.eqb e ".." then
    match out with
    | top :: rest =>
        if String.eqb top ".." then e :: out else rest
    | [] => if rooted then out else [e]
    end
  else e :: out.

Definition clean_elements (rooted : bool) (es : list string) : list string :=
  fold_left (clean_step rooted) es [].

Definition is_rooted (path : string) : bool :=
  match path with
  | String c _ => Ascii.eqb c sep
  | EmptyString => false
  end.

(** [filepath.Clean(path)]: drops empty and [.] elements, resolves inner [..]
    elements, keeps a leading separator, and returns ["."] for an empty
    result. *)
Definition Clean (path : string) : string :=
  let rooted := is_rooted path in
  let out := rev (clean_elements rooted (elements path)) in
  let body := strings.Join out "/" in
  if rooted then "/" ++ body
  else if String.eqb body "" then "." else body.

(** [filepath.Join(elem...)]: empty elements are ignored, the rest is joined
    with the separator and cleaned; [""] when nothing is left. *)
Definition Join (elems : list string) : string :=
  match List.filter (fun e => negb (String.eqb e "")) elems with
  | [] => ""
  | es => Clean (strings.Join es "/")
  end.

(** No separator occurs in [s]. *)
Fixpoint no_sep (s : string) : bool :=
  match s with
  | EmptyString => true
  | String c s' => negb (Ascii.eqb c sep) && no_sep s'
  end.



(** [filepath.Dir(path)] *)
Definition Dir (path : string) : string := Clean (fst (cut_last_sep path)).

Fixpoint trim_trailing_seps (s : string) : string :=
  match s with
  | EmptyString => ""
  | String c s' =>
      match trim_trailing_seps s' with
      | EmptyString => if Ascii.eqb c sep then "" else String c ""
      | r => String c r
      end
  end.

(** [filepath.Base(path)] *)
Definition Base (path : string) : string :=
  if String.eqb path "" then "."
  else
    let p := snd (cut_last_sep (trim_trailing_seps path)) in
    if String.eqb p "" then "/" else p.

End filepath.

(** ** Go's [fmt] verbs and [time] layout used by the services *)

Module fmt.

Definition digit (n : nat) : ascii := ascii_of_nat (48 + n mod 10).

(** A lower-case hexadecimal digit, as [%x] prints it. *)
Definition hexdigit (n : nat) : ascii :=
  let d := (n mod 16)%nat in
  if (d <? 10)%nat then ascii_of_nat (48 + d) else ascii_of_nat (87 + d).

(** [%x] on one byte of a byte array: two digits. *)
Definition hex_byte (b : byte) : string :=
  let n := Byte.to_nat b in
  String (hexdigit (n / 16)) (String (hexdigit n) "").

(** [fmt.Sprintf("%x", bytes)] *)
Fixpoint hex_bytes (bs : list byte) : string :=
  match bs with
  | [] => ""
  | b :: rest => hex_byte b ++ hex_bytes rest
  end.

Fixpoint hex_nat_aux (fuel n : nat) (acc : string) : string :=
  match fuel with
  | O => acc
  | S fuel' =>
      let acc' := String (hexdigit n) acc in
      if (n / 16 =? 0)%nat then acc' else hex_nat_aux fuel' (n / 16) acc'
  end.

(** [fmt.Sprintf("%x", n)] for a non-negative [int]. *)
Definition hex_nat (n : nat) : string := hex_nat_aux (S n) n "".

End fmt.

Module time.

(** The calendar date of a [time.Time]; the services format nothing else. *)
Record Time := { Year : nat; Month : nat; Day : nat }.

Definition dec2 (n : nat) : string :=
  String (fmt.digit (n / 10)) (String (fmt.digit n) "").

Definition dec4 (n : nat) : string :=
  String (fmt.digit (n / 1000)) (String (fmt.digit (n / 100)) (dec2 n)).

(** [t.Format("2006/01/02")], for years below 10000. *)
Definition Format_date (t : Time) : string :=
  dec4 (Year t) ++ "/" ++ dec2 (Month t) ++ "/" ++ dec2 (Day t).

End time.

(** ** internal/media/model *)

Module User.
(** The fields of [model.User] that the media model reads. *)
Record t := { ID : Z; Role : string }.

Definition IsAdmin (u : t) : bool := String.eqb (Role u) "admin".
End User.

Module MediaFile.

Record t := {
  ID : Z;
  Filename : string;
  StoragePath : string;
  FileSize : Z;
  MimeType : string;
  FileType : string;
  Width : option Z;
  Height : option Z;
  Duration : option Z;
  Hash : string;
  Alt : string;
  Caption : string;
  UploaderID : option Z;
  Status : string;
  IsPublic : bool;
  CreatedAt : time.Time;
  UpdatedAt : time.Time
}.

Definition set_ID (m : t) (v : Z) : t :=
  {| ID := v; Filename := Filename m; StoragePath := StoragePath m;
     FileSize := FileSize m; MimeType := MimeType m; FileType := FileType m;
     Width := Width m; Height := Height m; Duration := Duration m;
     Hash := Hash m; Alt := Alt m; Caption := Caption m;
     UploaderID := UploaderID m; Status := Status m; IsPublic := IsPublic m;
     CreatedAt := CreatedAt m; UpdatedAt := UpdatedAt m |}.

Definition set_Alt (m : t) (v : string) : t :=
  {| ID := ID m; Filename := Filename m; StoragePath := StoragePath m;
     FileSize := FileSize m; MimeType := MimeType m; FileType := FileType m;
     Width := Width m; Height := Height m; Duration := Duration m;
     Hash := Hash m; Alt := v; Caption := Caption m;
     UploaderID := UploaderID m; Status := Status m; IsPublic := IsPublic m;
     CreatedAt := CreatedAt m; UpdatedAt := UpdatedAt m |}.

Definition set_Caption (m : t) (v : string) : t :=
  {| ID := ID m; Filename := Filename m; StoragePath := StoragePath m;
     FileSize := FileSize m; MimeType := MimeType m; FileType := FileType m;
     Width := Width m; Height := Height m; Duration := Duration m;
     Hash := Hash m; Alt := Alt m; Caption := v;
     UploaderID := UploaderID m; Status := Status m; IsPublic := IsPublic m;
     CreatedAt := CreatedAt m; UpdatedAt := UpdatedAt m |}.

Definition set_IsPublic (m : t) (v : bool) : t :=
  {| ID := ID m; Filename := Filename m; StoragePath := StoragePath m;
     FileSize := FileSize m; MimeType := MimeType m; FileType := FileType m;
     Width := Width m; Height := Height m; Duration := Duration m;
     Hash := Hash m; Alt := Alt m; Caption := Caption m;
     UploaderID := UploaderID m; Status := Status m; IsPublic := v;
     CreatedAt := CreatedAt m; UpdatedAt := UpdatedAt m |}.

Definition set_Status (m : t) (v : string) : t :=
  {| ID := ID m; Filename := Filename m; StoragePath := StoragePath m;
     FileSize := FileSize m; MimeType := MimeType m; FileType := FileType m;
     Width := Width m; Height := Height m; Duration := Duration m;
     Hash := Hash m; Alt := Alt m; Caption := Caption m;
     UploaderID := UploaderID m; Status := v; IsPublic := IsPublic m;
     CreatedAt := CreatedAt m; UpdatedAt := UpdatedAt m |}.

Definition set_UpdatedAt (m : t) (v : time.Time) : t :=
  {| ID := ID m; Filename := Filename m; StoragePath := StoragePath m;
     FileSize := FileSize m; MimeType := MimeType m; FileType := FileType m;
     Width := Width m; Height := Height m; Duration := Duration m;
     Hash := Hash m; Alt := Alt m; Caption := Caption m;
     UploaderID := UploaderID m; Status := Status m; IsPublic := IsPublic m;
     CreatedAt := CreatedAt m; UpdatedAt := v |}.

(** [SetDimensions(width, height)] *)
Definition SetDimensions (m : t) (width height : Z) : t :=
  {| ID := ID m; Filename := Filename m; StoragePath := StoragePath m;
     FileSize := FileSize m; MimeType := MimeType m; FileType := FileType m;
     Width := Some width; Height := Some height; Duration := Duration m;
     Hash := Hash m; Alt := Alt m; Caption := Caption m;
     UploaderID := UploaderID m; Status := Status m; IsPublic := IsPublic m;
     CreatedAt := CreatedAt m; UpdatedAt := UpdatedAt m |}.

Definition IsImage (m : t) : bool := String.eqb (FileType m) "image".

(** [CanEdit(user *User)]: a nil user may edit nothing; an admin everything;
    an uploader their own files. *)
Definition CanEdit (m : t) (user : option User.t) : bool :=
  match user with
  | None => false
  | Some u =>
      if User.IsAdmin u then true
      else match UploaderID m with
           | Some up => Z.eqb up (User.ID u)
           | None => false
           end
  end.

Definition CanDelete (m : t) (user : option User.t) : bool := CanEdit m user.

(** [SetPublic(isPublic)] also stamps [UpdatedAt]. *)
Definition SetPublic (m : t) (isPublic : bool) (now : time.Time) : t :=
  set_UpdatedAt (set_IsPublic m isPublic) now.

(** [NewMediaFile(...)]: status active, public, no ID yet. *)
Definition NewMediaFile (filename storagePath mimeType fileType hash : string)
    (fileSize : Z) (uploaderID : option Z) (now : time.Time) : t :=
  {| ID := 0; Filename := filename; StoragePath := storagePath;
     FileSize := fileSize; MimeType := mimeType; FileType := fileType;
     Width := None; Height := None; Duration := None;
     Hash := hash; Alt := ""; Caption := "";
     UploaderID := uploaderID; Status := "active"; IsPublic := true;
     CreatedAt := now; UpdatedAt := now |}.

(** The remainder after the last dot of [s], when [s] has a dot. *)
Fixpoint after_last_dot (s : string) : option string :=
  match s with
  | EmptyString => None
  | String c s' =>
      match after_last_dot s' with
      | Some r => Some r
      | None => if Ascii.eqb c "."%char then Some s' else None
      end
  end.

(** [GetFileExtension()]: what follows the last dot of the filename, [""]
    when it has none. *)
Definition GetFileExtension (m : t) : string :=
  match after_last_dot (Filename m) with
  | Some ext => ext
  | None => ""
  end.

(** [IsActive()] *)
Definition IsActive (m : t) : bool := String.eqb (Status m) "active".

End MediaFile.

Module MediaUsage.

Record t := {
  ID : Z;
  MediaID : Z;
  UsageType : string;
  TargetID : option Z;
  UploaderID : Z;
  CreatedAt : time.Time
}.

Definition set_ID (u : t) (v : Z) : t :=
  {| ID := v; MediaID := MediaID u; UsageType := UsageType u;
     TargetID := TargetID u; UploaderID := UploaderID u;
     CreatedAt := CreatedAt u |}.

(** [NewMediaUsage(mediaID, usageType, targetID, uploaderID)] *)
Definition NewMediaUsage (mediaID : Z) (usageType : string)
    (targetID : option Z) (uploaderID : Z) (now : time.Time) : t :=
  {| ID := 0; MediaID := mediaID; UsageType := usageType;
     TargetID := targetID; UploaderID := uploaderID; CreatedAt := now |}.

End MediaUsage.

(** ** Errors, the world and the service monad *)

(** The failures the services and repositories report.  Go builds them with
    [fmt.Errorf]; each constructor stands for one message (given in English),
    and [Wrapped] for the message a caller puts in front of a cause with
    [%w]. *)
Inductive error : Type :=
  | ValidationFailed          (* request validation failed *)
  | ReadFailed                (* reading the file content failed *)
  | FileTooLarge (limit : Z)  (* file size exceeds the limit (%d bytes) *)
  | UnsupportedType (mime : string) (* unsupported file type: %s *)
  | MkdirFailed               (* creating the directory failed *)
  | WriteFailed               (* writing / creating the file failed *)
  | UniqueViolation           (* the table's unique index rejected the row *)
  | MediaNotFound             (* the media file does not exist *)
  | NoPermissionToAccess      (* no permission to access this media file *)
  | NoPermissionToEdit        (* no permission to edit this media file *)
  | NoPermissionToDelete      (* no permission to delete this media file *)
  | NotAnImage                (* only image files can be processed *)
  | OpenFailed                (* opening the original file failed *)
  | DecodeFailed              (* decoding the image failed *)
  | UnsupportedProcessType (t : string)
  | MissingDimensions         (* width or height must be given *)
  | EmptyWatermarkText        (* the watermark text must not be empty *)
  | EncodeFailed
  | UnsupportedOutputFormat (f : string)
  | Wrapped (context : string) (cause : error).

Inductive result (A : Type) : Type :=
  | Ok (a : A)
  | Err (e : error).
Arguments Ok {A} a.
Arguments Err {A} e.

Definition is_ok {A} (r : result A) : bool :=
  match r with Ok _ => true | Err _ => false end.

(** The persisted state: both tables with their auto-increment counters, the
    files under the storage root, the log of completed file writes, and the
    wall clock read by [time.Now()]. *)
Record World := {
  media_files : list MediaFile.t;
  media_files_seq : Z;
  media_usages : list MediaUsage.t;
  media_usages_seq : Z;
  disk : gmap string (list byte);
  disk_writes : list string;
  clock : time.Time
}.

Definition with_media_files (w : World) (rows : list MediaFile.t) (seq : Z)
  : World :=
  {| media_files := rows; media_files_seq := seq;
     media_usages := media_usages w; media_usages_seq := media_usages_seq w;
     disk := disk w; disk_writes := disk_writes w; clock := clock w |}.

Definition with_media_usages (w : World) (rows : list MediaUsage.t) (seq : Z)
  : World :=
  {| media_files := media_files w; media_files_seq := media_files_seq w;
     media_usages := rows; media_usages_seq := seq;
     disk := disk w; disk_writes := disk_writes w; clock := clock w |}.

Definition with_disk (w : World) (d : gmap string (list byte))
    (log : list string) : World :=
  {| media_files := media_files w; media_files_seq := media_files_seq w;
     media_usages := media_usages w; media_usages_seq := media_usages_seq w;
     disk := d; disk_writes := log; clock := clock w |}.

(** State and error together: a failed call still returns the world it left. *)
Definition M (A : Type) : Type := World -> result A * World.

Definition ret {A} (a : A) : M A := fun w => (Ok a, w).
Definition fail {A} (e : error) : M A := fun w => (Err e, w).
Definition bind {A B} (m : M A) (k : A -> M B) : M B :=
  fun w => match m w with
           | (Ok a, w') => k a w'
           | (Err e, w') => (Err e, w')
           end.
(** Runs [m] and hands its outcome, failure included, to the caller. *)
Definition try {A} (m : M A) : M (result A) :=
  fun w => let (r, w') := m w in (Ok r, w').

Notation "'let*' x ':=' m 'in' k" := (bind m (fun x => k))
  (at level 10, x name, m at level 100, k at level 200).
Notation "m ';;' k" := (bind m (fun _ => k))
  (at level 100, k at level 200, right associativity).

Definition now : M time.Time := fun w => (Ok (clock w), w).

(** ** Collaborators outside the repository

    Library functions and the environment, fixed for a run: the MD5 digest
    (a [[16]byte] array), the MIME tables of [mime] and [net/http], the struct
    validator of [internal/core/validator], whether the file system accepts a
    write at a path, and the image codecs. *)

Module image.

Record Rectangle := { MinX : Z; MinY : Z; MaxX : Z; MaxY : Z }.

(** [image.Rect(x0, y0, x1, y1)]: the corners are put in order. *)
Definition Rect (x0 y0 x1 y1 : Z) : Rectangle :=
  {| MinX := Z.min x0 x1; MinY := Z.min y0 y1;
     MaxX := Z.max x0 x1; MaxY := Z.max y0 y1 |}.

Definition Dx (r : Rectangle) : Z := MaxX r - MinX r.
Definition Dy (r : Rectangle) : Z := MaxY r - MinY r.

Definition inside (r : Rectangle) (x y : Z) : bool :=
  (MinX r <=? x) && (x <? MaxX r) && (MinY r <=? y) && (y <? MaxY r).

(** A pixel value in the RGBA model. *)
Definition Color := Z.

(** An [image.Image]: its bounds and its pixels. *)
Record Image := { Bounds : Rectangle; At : Z -> Z -> Color }.



End image.

Module FileUploadRequest.
Record t := {
  Alt : string;
  Caption : string;
  IsPublic : option bool;
  UsageType : string;
  TargetID : option Z
}.
End FileUploadRequest.

Record Env := {
  md5_Sum : list byte -> list byte;
  md5_Sum_size : forall content, length (md5_Sum content) = 16%nat;
  mime_TypeByExtension : string -> string;
  http_DetectContentType : list byte -> string;
  validator_Validate : FileUploadRequest.t -> bool;
  fs_writable : string -> bool;
  image_Decode : list byte -> option (image.Image * string);
  jpeg_Encode : image.Image -> Z -> option (list byte);
  png_Encode : image.Image -> option (list byte)
}.

(** ** internal/media/repository, over the in-memory tables

    The tables are kept in primary-key order.  Only the constraint the schema
    declares on [media_files] ([uniqueIndex] on [hash]) can make a statement
    fail; connection failures are not modelled. *)

Module mediaRepository.

Definition has_hash (h : string) (m : MediaFile.t) : bool :=
  String.eqb (MediaFile.Hash m) h.

Definition has_id (id : Z) (m : MediaFile.t) : bool :=
  Z.eqb (MediaFile.ID m) id.

(** [Create(media)]: the insert is refused when the hash is already in the
    table; otherwise the row gets the next key, which is written back into
    the caller's record.  Callers pass records fresh from [NewMediaFile]. *)
Definition Create (media : MediaFile.t) : M MediaFile.t :=
  fun w =>
    if existsb (has_hash (MediaFile.Hash media)) (media_files w)
    then (Err (Wrapped "创建媒体文件失败" UniqueViolation), w)
    else
      let id := media_files_seq w + 1 in
      let row := MediaFile.set_ID media id in
      (Ok row, with_media_files w (media_files w ++ [row]) id).

(** [GetByID(id)] *)
Definition GetByID (id : Z) : M MediaFile.t :=
  fun w =>
    match find (has_id id) (media_files w) with
    | Some m => (Ok m, w)
    | None => (Err MediaNotFound, w)
    end.

(** [GetByHash(hash)]: a miss is [nil, nil], not an error. *)
Definition GetByHash (hash : string) : M (option MediaFile.t) :=
  fun w => (Ok (find (has_hash hash) (media_files w)), w).

Definition replace_row (media : MediaFile.t) (rows : list MediaFile.t)
  : list MediaFile.t :=
  map (fun r => if has_id (MediaFile.ID media) r then media else r) rows.

(** [Update(media)]: [db.Save] rewrites every column of the row with the
    record's key (and inserts the record when no row has it). *)
Definition Update (media : MediaFile.t) : M unit :=
  fun w =>
    let others :=
      List.filter (fun r => negb (has_id (MediaFile.ID media) r)) (media_files w) in
    if existsb (has_hash (MediaFile.Hash media)) others
    then (Err (Wrapped "更新媒体文件失败" UniqueViolation), w)
    else
      let stamped := MediaFile.set_UpdatedAt media (clock w) in
      if existsb (has_id (MediaFile.ID media)) (media_files w)
      then (Ok tt, with_media_files w (replace_row stamped (media_files w))
                     (media_files_seq w))
      else (Ok tt, with_media_files w (media_files w ++ [stamped])
                     (Z.max (media_files_seq w) (MediaFile.ID media))).

(** [Delete(id)]: removes the row. *)
Definition Delete (id : Z) : M unit :=
  fun w =>
    (Ok tt, with_media_files w
              (List.filter (fun r => negb (has_id id r)) (media_files w))
              (media_files_seq w)).

Definition set_status (id : Z) (status : string) : M unit :=
  fun w =>
    (Ok tt, with_media_files w
              (map (fun r =>
                      if has_id id r
                      then MediaFile.set_UpdatedAt
                             (MediaFile.set_Status r status) (clock w)
                      else r) (media_files w))
              (media_files_seq w)).

(** [SoftDelete(id)]: only the status column changes. *)
Definition SoftDelete (id : Z) : M unit := set_status id "deleted".

(** [Restore(id)] *)
Definition Restore (id : Z) : M unit := set_status id "active".

(** [MediaStats]: the counters of [GetStats]. *)
Record MediaStats := {
  TotalCount : Z;
  TotalSize : Z;
  ImageCount : Z;
  VideoCount : Z;
  DocumentCount : Z;
  OtherCount : Z
}.

(** One more row of file type [ft] in the result of a [GROUP BY file_type]
    with a row count. *)
Fixpoint count_in_group (ft : string) (groups : list (string * Z))
  : list (string * Z) :=
  match groups with
  | [] => [(ft, 1)]
  | (k, n) :: rest =>
      if String.eqb k ft then (k, n + 1) :: rest
      else (k, n) :: count_in_group ft rest
  end.

(** The file types of [rows], each with the number of its rows. *)
Definition group_by_file_type (rows : list MediaFile.t) : list (string * Z) :=
  fold_left (fun groups m => count_in_group (MediaFile.FileType m) groups)
    rows [].

(** The loop over the grouped counts: image, video and document are
    assigned, every other type is added to [OtherCount]. *)
Definition tally (stats : MediaStats) (ts : string * Z) : MediaStats :=
  let (fileType, count) := ts in
  if String.eqb fileType "image" then
    {| TotalCount := TotalCount stats; TotalSize := TotalSize stats;
       ImageCount := count; VideoCount := VideoCount stats;
       DocumentCount := DocumentCount stats; OtherCount := OtherCount stats |}
  else if String.eqb fileType "video" then
    {| TotalCount := TotalCount stats; TotalSize := TotalSize stats;
       ImageCount := ImageCount stats; VideoCount := count;
       DocumentCount := DocumentCount stats; OtherCount := OtherCount stats |}
  else if String.eqb fileType "document" then
    {| TotalCount := TotalCount stats; TotalSize := TotalSize stats;
       ImageCount := ImageCount stats; VideoCount := VideoCount stats;
       DocumentCount := count; OtherCount := OtherCount stats |}
  else
    {| TotalCount := TotalCount stats; TotalSize := TotalSize stats;
       ImageCount := ImageCount stats; VideoCount := VideoCount stats;
       DocumentCount := DocumentCount stats;
       OtherCount := OtherCount stats + count |}.

(** The statistics over the rows a query selected: the count, the sum of the
    sizes, and the counts by file type. *)
Definition stats_of (rows : list MediaFile.t) : MediaStats :=
  fold_left tally (group_by_file_type rows)
    {| TotalCount := Z.of_nat (length rows);
       TotalSize := fold_right Z.add 0 (map MediaFile.FileSize rows);
       ImageCount := 0; VideoCount := 0; DocumentCount := 0;
       OtherCount := 0 |}.

(** [GetStats()]: over the active rows. *)
Definition GetStats : M MediaStats :=
  fun w => (Ok (stats_of (List.filter MediaFile.IsActive (media_files w))), w).

(** [GetUploaderStats(uploaderID)]: over the active rows of one uploader. *)
Definition GetUploaderStats (uploaderID : Z) : M MediaStats :=
  fun w =>
    (Ok (stats_of
           (List.filter
              (fun m =>
                 match MediaFile.UploaderID m with
                 | Some up => Z.eqb up uploaderID
                 | None => false
                 end && MediaFile.IsActive m)
              (media_files w))), w).

End mediaRepository.

Module mediaUsageRepository.

(** [Create(usage)] *)
Definition Create (usage : MediaUsage.t) : M MediaUsage.t :=
  fun w =>
    let id := media_usages_seq w + 1 in
    let row := MediaUsage.set_ID usage id in
    (Ok row, with_media_usages w (media_usages w ++ [row]) id).

(** [GetByMediaID(mediaID)], newest first. *)
Definition GetByMediaID (mediaID : Z) : M (list MediaUsage.t) :=
  fun w =>
    (Ok (rev (List.filter (fun u => Z.eqb (MediaUsage.MediaID u) mediaID)
                (media_usages w))), w).

(** [Delete(id)] *)
Definition Delete (id : Z) : M unit :=
  fun w =>
    (Ok tt, with_media_usages w
              (List.filter (fun u => negb (Z.eqb (MediaUsage.ID u) id))
                 (media_usages w))
              (media_usages_seq w)).

(** [DeleteByMediaID(mediaID)] *)
Definition DeleteByMediaID (mediaID : Z) : M unit :=
  fun w =>
    (Ok tt, with_media_usages w
              (List.filter (fun u => negb (Z.eqb (MediaUsage.MediaID u) mediaID))
                 (media_usages w))
              (media_usages_seq w)).

(** [GetUsageCountByMedia(mediaID)] *)
Definition GetUsageCountByMedia (mediaID : Z) : M Z :=
  fun w =>
    (Ok (Z.of_nat
           (length (List.filter (fun u => Z.eqb (MediaUsage.MediaID u) mediaID)
                      (media_usages w)))), w).

(** The rows with [usage_type = usageType AND target_id = targetID]; a row
    without target matches no ID. *)
Definition on_target (usageType : string) (targetID : Z) (u : MediaUsage.t)
  : bool :=
  String.eqb (MediaUsage.UsageType u) usageType
  && match MediaUsage.TargetID u with
     | Some t => Z.eqb t targetID
     | None => false
     end.

(** [GetByTarget(usageType, targetID)], newest first. *)
Definition GetByTarget (usageType : string) (targetID : Z)
  : M (list MediaUsage.t) :=
  fun w =>
    (Ok (rev (List.filter (on_target usageType targetID) (media_usages w))), w).

(** [DeleteByTarget(usageType, targetID)] *)
Definition DeleteByTarget (usageType : string) (targetID : Z) : M unit :=
  fun w =>
    (Ok tt, with_media_usages w
              (List.filter (fun u => negb (on_target usageType targetID u))
                 (media_usages w))
              (media_usages_seq w)).

End mediaUsageRepository.

(** ** The file system calls of package [os] *)

Module os.

(** [os.MkdirAll(dir)] followed by [os.WriteFile(path, content)]. *)
Definition WriteFile (E : Env) (path : string) (content : list byte)
  : M unit :=
  fun w =>
    if fs_writable E path
    then (Ok tt, with_disk w (<[path := content]> (disk w))
                   (disk_writes w ++ [path]))
    else (Err WriteFailed, w).

(** [os.Remove(path)]; the services ignore its error. *)
Definition Remove (path : string) : M unit :=
  fun w => (Ok tt, with_disk w (delete path (disk w)) (disk_writes w)).

(** [os.Open(path)] and reading the file. *)
Definition ReadFile (path : string) : M (list byte) :=
  fun w =>
    match disk w !! path with
    | Some content => (Ok content, w)
    | None => (Err OpenFailed, w)
    end.

End os.

(** ** internal/media/service/upload.go *)

Module UploadConfig.
(** The [config.Upload] fields the services read. *)
Record t := {
  MaxFileSize : Z;
  AllowedTypes : list string;
  StoragePath : string;
  BaseURL : string
}.
End UploadConfig.

Module UploadResult.
Record t := {
  MediaFile : MediaFile.t;
  URL : string;
  Message : string
}.
End UploadResult.

(** The two success messages of [UploadFile]. *)
Definition msg_uploaded : string := "文件上传成功".
Definition msg_already_exists : string := "文件已存在，返回现有文件".

Section UploadService.

Variable E : Env.
Variable config : UploadConfig.t.

(** [detectMimeType]: by extension first, by content when that fails. *)
Definition detectMimeType (filename : string) (content : list byte) : string :=
  let mimeType := mime_TypeByExtension E (filepath.Ext filename) in
  if String.eqb mimeType "" then http_DetectContentType E content
  else mimeType.

(** [getFileType] *)
Definition getFileType (mimeType : string) : string :=
  if strings.HasPrefix mimeType "image/" then "image"
  else if strings.HasPrefix mimeType "video/" then "video"
  else if strings.HasPrefix mimeType "audio/" then "video"
  else if strings.Contains mimeType "document"
          || strings.Contains mimeType "pdf"
          || strings.Contains mimeType "text"
          || strings.Contains mimeType "spreadsheet"
          || strings.Contains mimeType "presentation" then "document"
  else "other".

(** [isAllowedFileType]: some configured entry is a prefix of the type. *)
Definition isAllowedFileType (mimeType : string) : bool :=
  existsb (fun allowedType => strings.HasPrefix mimeType allowedType)
    (UploadConfig.AllowedTypes config).

(** [calculateHash]: the MD5 digest in lower-case hexadecimal. *)
Definition calculateHash (content : list byte) : string :=
  fmt.hex_bytes (md5_Sum E content).

(** [generateStoragePath(filename, hash)] at date [t]. *)
Definition generateStoragePath (filename hash : string) (t : time.Time)
  : string :=
  let date := time.Format_date t in
  let prefix := substring 0 2 hash in
  let ext := filepath.Ext filename in
  let ext := if String.eqb ext "" then ".bin" else ext in
  let uniqueFilename := substring 2 (String.length hash - 2) hash ++ ext in
  filepath.Join [UploadConfig.StoragePath config; date; prefix; uniqueFilename].

(** [saveFileToDisk] *)
Definition saveFileToDisk (path : string) (content : list byte) : M unit :=
  os.WriteFile E path content.

(** [generateFileURL] *)
Definition generateFileURL (storagePath : string) : string :=
  let relativePath :=
    strings.TrimPrefix storagePath (UploadConfig.StoragePath config) in
  let relativePath := strings.TrimPrefix relativePath "/" in
  UploadConfig.BaseURL config ++ "/" ++ relativePath.

(** [getImageDimensions]: not implemented, always an error. *)
Definition getImageDimensions (content : list byte) : option (Z * Z) := None.

(** Records a usage when the request names a usage type; a failure to do so
    is logged and dropped. *)
Definition recordUsage (mediaID : Z) (req : FileUploadRequest.t)
    (uploaderID : Z) : M unit :=
  if String.eqb (FileUploadRequest.UsageType req) "" then ret tt
  else
    let* t := now in
    let* _ := try (mediaUsageRepository.Create
                     (MediaUsage.NewMediaUsage mediaID
                        (FileUploadRequest.UsageType req)
                        (FileUploadRequest.TargetID req) uploaderID t)) in
    ret tt.

(** What the first half of [UploadFile] hands to the second. *)
Record Ingest := {
  content : list byte;
  mimeType : string;
  fileType : string;
  hash : string
}.

Inductive Lookup :=
  | Existing (r : UploadResult.t)
  | Missing (i : Ingest).

(** [UploadFile], up to and including the lookup by hash: validation, the
    size and type checks, the fingerprint, and the return of an existing
    record.  [file] is the reader's content, [None] when reading fails. *)
Definition UploadFile_lookup (file : option (list byte)) (filename : string)
    (uploaderID : Z) (req : FileUploadRequest.t) : M Lookup :=
  if negb (validator_Validate E req) then
    fail (Wrapped "请求参数验证失败" ValidationFailed)
  else
    match file with
    | None => fail (Wrapped "读取文件内容失败" ReadFailed)
    | Some content =>
        if Z.of_nat (length content) >? UploadConfig.MaxFileSize config then
          fail (FileTooLarge (UploadConfig.MaxFileSize config))
        else
          let mimeType := detectMimeType filename content in
          let fileType := getFileType mimeType in
          if negb (isAllowedFileType mimeType) then
            fail (UnsupportedType mimeType)
          else
            let hash := calculateHash content in
            let* existingMedia := mediaRepository.GetByHash hash in
            match existingMedia with
            | Some existing =>
                recordUsage (MediaFile.ID existing) req uploaderID ;;
                ret (Existing
                       {| UploadResult.MediaFile := existing;
                          UploadResult.URL :=
                            generateFileURL (MediaFile.StoragePath existing);
                          UploadResult.Message := msg_already_exists |})
            | None =>
                ret (Missing {| content := content; mimeType := mimeType;
                                fileType := fileType; hash := hash |})
            end
    end.

Definition setMetadata (m : MediaFile.t) (req : FileUploadRequest.t)
  : MediaFile.t :=
  let m := if String.eqb (FileUploadRequest.Alt req) "" then m
           else MediaFile.set_Alt m (FileUploadRequest.Alt req) in
  let m := if String.eqb (FileUploadRequest.Caption req) "" then m
           else MediaFile.set_Caption m (FileUploadRequest.Caption req) in
  match FileUploadRequest.IsPublic req with
  | Some p => MediaFile.set_IsPublic m p
  | None => m
  end.

(** [UploadFile], after a lookup that found nothing: the path, the write to
    disk, the new record, its insert (with removal of the written file when
    the insert fails), the usage record and the result. *)
Definition UploadFile_store (filename : string) (uploaderID : Z)
    (req : FileUploadRequest.t) (i : Ingest) : M UploadResult.t :=
  let* t := now in
  let storagePath := generateStoragePath filename (hash i) t in
  let* saved := try (saveFileToDisk storagePath (content i)) in
  match saved with
  | Err e => fail (Wrapped "保存文件到磁盘失败" e)
  | Ok _ =>
      let mediaFile :=
        MediaFile.NewMediaFile filename storagePath (mimeType i) (fileType i)
          (hash i) (Z.of_nat (length (content i))) (Some uploaderID) t in
      let mediaFile := setMetadata mediaFile req in
      let mediaFile :=
        if String.eqb (fileType i) "image" then
          match getImageDimensions (content i) with
          | Some (width, height) =>
              MediaFile.SetDimensions mediaFile width height
          | None => mediaFile
          end
        else mediaFile in
      let* created := try (mediaRepository.Create mediaFile) in
      match created with
      | Err e =>
          os.Remove storagePath ;;
          fail (Wrapped "创建媒体文件记录失败" e)
      | Ok mediaFile =>
          recordUsage (MediaFile.ID mediaFile) req uploaderID ;;
          ret {| UploadResult.MediaFile := mediaFile;
                 UploadResult.URL := generateFileURL storagePath;
                 UploadResult.Message := msg_uploaded |}
      end
  end.

(** The record [UploadFile_store] builds and hands to the registry. *)
Definition newRecord (filename : string) (uploaderID : Z)
    (req : FileUploadRequest.t) (i : Ingest) (t : time.Time) : MediaFile.t :=
  let storagePath := generateStoragePath filename (hash i) t in
  let mediaFile :=
    setMetadata
      (MediaFile.NewMediaFile filename storagePath (mimeType i) (fileType i)
         (hash i) (Z.of_nat (length (content i))) (Some uploaderID) t) req in
  if String.eqb (fileType i) "image" then
    match getImageDimensions (content i) with
    | Some (width, height) => MediaFile.SetDimensions mediaFile width height
    | None => mediaFile
    end
  else mediaFile.

(** [UploadFile(ctx, file, filename, uploaderID, req)] *)
Definition UploadFile (file : option (list byte)) (filename : string)
    (uploaderID : Z) (req : FileUploadRequest.t) : M UploadResult.t :=
  let* found := UploadFile_lookup file filename uploaderID req in
  match found with
  | Existing r => ret r
  | Missing i => UploadFile_store filename uploaderID req i
  end.

(** [UpdateMedia(ctx, id, req, userID)]: the permission check receives a nil
    user. *)
Definition UpdateMedia (id : Z) (req : FileUploadRequest.t)
    (userID : option Z) : M MediaFile.t :=
  let* media0 := try (mediaRepository.GetByID id) in
  match media0 with
  | Err e => fail (Wrapped "媒体文件不存在" e)
  | Ok media =>
      if negb (MediaFile.CanEdit media None) then fail NoPermissionToEdit
      else
        let* t := now in
        let media :=
          if String.eqb (FileUploadRequest.Alt req) "" then media
          else MediaFile.set_Alt media (FileUploadRequest.Alt req) in
        let media :=
          if String.eqb (FileUploadRequest.Caption req) "" then media
          else MediaFile.set_Caption media (FileUploadRequest.Caption req) in
        let media :=
          match FileUploadRequest.IsPublic req with
          | Some p => MediaFile.SetPublic media p t
          | None => media
          end in
        let* updated := try (mediaRepository.Update media) in
        match updated with
        | Err e => fail (Wrapped "更新媒体文件失败" e)
        | Ok _ => ret media
        end
  end.

(** [DeleteMedia(ctx, id, userID)]: the permission check receives a nil
    user; behind it, a soft delete when usage records exist, otherwise the
    removal of the file and of the row. *)
Definition DeleteMedia (id : Z) (userID : option Z) : M unit :=
  let* media0 := try (mediaRepository.GetByID id) in
  match media0 with
  | Err e => fail (Wrapped "媒体文件不存在" e)
  | Ok media =>
      if negb (MediaFile.CanDelete media None) then fail NoPermissionToDelete
      else
        let* usages := try (mediaUsageRepository.GetByMediaID id) in
        let hard :=
          os.Remove (MediaFile.StoragePath media) ;;
          let* deleted := try (mediaRepository.Delete id) in
          match deleted with
          | Err e => fail (Wrapped "删除媒体文件记录失败" e)
          | Ok _ => ret tt
          end in
        match usages with
        | Err _ => hard
        | Ok us =>
            if (0 <? length us)%nat then
              let* soft := try (mediaRepository.SoftDelete id) in
              match soft with
              | Err e => fail (Wrapped "软删除媒体文件失败" e)
              | Ok _ => ret tt
              end
            else hard
        end
  end.

(** [GetMediaByID(ctx, id, userID)] *)
Definition GetMediaByID (id : Z) (userID : option Z) : M MediaFile.t :=
  let* media0 := try (mediaRepository.GetByID id) in
  match media0 with
  | Err e => fail (Wrapped "获取媒体文件失败" e)
  | Ok media =>
      let own :=
        match userID, MediaFile.UploaderID media with
        | Some u, Some up => Z.eqb u up
        | _, _ => false
        end in
      if negb (MediaFile.IsPublic media) && negb own
      then fail NoPermissionToAccess
      else ret media
  end.

End UploadService.

(** *** Batch upload and statistics *)

Module FileData.
Record t := { Reader : option (list byte); Filename : string }.
End FileData.

(** How a batch call ends without results: nothing to do, more than ten
    items, or every item failed (each with what it was and its error). *)
Inductive batch_error (K : Type) : Type :=
  | BatchEmpty
  | BatchTooLarge
  | BatchAllFailed (errors : list (K * error)).
Arguments BatchEmpty {K}.
Arguments BatchTooLarge {K}.
Arguments BatchAllFailed {K} errors.

Section UploadBatch.

Variable E : Env.
Variable config : UploadConfig.t.



(** [GetMediaStats(ctx, uploaderID)] *)
Definition GetMediaStats (uploaderID : option Z)
  : M mediaRepository.MediaStats :=
  let* stats :=
    try (match uploaderID with
         | Some id => mediaRepository.GetUploaderStats id
         | None => mediaRepository.GetStats
         end) in
  match stats with
  | Err e => fail (Wrapped "获取媒体文件统计失败" e)
  | Ok s => ret s
  end.

End UploadBatch.

(** ** internal/media/service/processor.go *)

Module ProcessRequest.
Record t := {
  MediaID : Z;
  ProcessType : string;
  Width : option Z;
  Height : option Z;
  Quality : option Z;
  WatermarkText : string;
  OutputFormat : string
}.
End ProcessRequest.

Module ProcessResult.
Record t := {
  MediaFile : MediaFile.t;
  URL : string;
  Message : string
}.
End ProcessResult.

(** The success message of [ProcessImage]. *)
Definition msg_processed : string := "图片处理成功".

(** [int(float64(a) * float64(b) / float64(c))]: the quotient cut towards zero.
    The product and the quotient are taken exactly; binary64 agrees with that
    on pixel dimensions (see [f64_scale_agrees]). *)
Definition scale (a b c : Z) : Z := Z.quot (a * b) c.


(** [resizeImage(img, width, height)]: the target size, then a nearest
    neighbour copy onto a new RGBA canvas with bounds [(0,0)-(tw,th)]. *)
Definition resizeImage (img : image.Image) (width height : option Z)
  : result image.Image :=
  match width, height with
  | None, None => Err MissingDimensions
  | _, _ =>
      let originalWidth := image.Dx (image.Bounds img) in
      let originalHeight := image.Dy (image.Bounds img) in
      let targetWidth := originalWidth in
      let targetHeight := originalHeight in
      let '(targetWidth, targetHeight) :=
        match width with
        | Some w =>
            (w, match height with
                | None => scale originalHeight w originalWidth
                | Some _ => targetHeight
                end)
        | None => (targetWidth, targetHeight)
        end in
      let '(targetWidth, targetHeight) :=
        match height with
        | Some h =>
            (match width with
             | None => scale originalWidth h originalHeight
             | Some _ => targetWidth
             end, h)
        | None => (targetWidth, targetHeight)
        end in
      Ok {| image.Bounds := image.Rect 0 0 targetWidth targetHeight;
            image.At := fun x y =>
              if (0 <=? x) && (x <? targetWidth)
                 && (0 <=? y) && (y <? targetHeight)
              then image.At img (Z.quot (x * originalWidth) targetWidth)
                               (Z.quot (y * originalHeight) targetHeight)
              else 0 |}
  end.

(** [compressImage]: the image itself; the quality applies when saving. *)
Definition compressImage (img : image.Image) (quality : option Z)
  : result image.Image := Ok img.

(** [addWatermark]: a pixel copy onto a new canvas with the same bounds; no
    text is drawn. *)
Definition addWatermark (img : image.Image) (watermarkText : string)
  : result image.Image :=
  if String.eqb watermarkText "" then Err EmptyWatermarkText
  else
    let bounds := image.Bounds img in
    let width := image.Dx bounds in
    let height := image.Dy bounds in
    Ok {| image.Bounds := bounds;
          image.At := fun x y =>
            if (0 <=? x) && (x <? width) && (0 <=? y) && (y <? height)
               && image.inside bounds x y
            then image.At img x y
            else 0 |}.

(** [generateThumbnail]: 200 by 200 unless a dimension is given. *)
Definition generateThumbnail (img : image.Image) (width height : option Z)
  : result image.Image :=
  let defaultSize := 200 in
  match width, height with
  | None, None => resizeImage img (Some defaultSize) (Some defaultSize)
  | _, _ => resizeImage img width height
  end.

(** [generateProcessedImagePath] *)
Definition generateProcessedImagePath (originalPath processType format : string)
  : string :=
  let dir := filepath.Dir originalPath in
  let filename := filepath.Base originalPath in
  let nameWithoutExt := strings.TrimSuffix filename (filepath.Ext filename) in
  filepath.Join [dir; nameWithoutExt ++ "_" ++ processType ++ "." ++ format].

(** [generateProcessedFilename] *)
Definition generateProcessedFilename (originalFilename processType : string)
  : string :=
  let ext := filepath.Ext originalFilename in
  let nameWithoutExt := strings.TrimSuffix originalFilename ext in
  nameWithoutExt ++ "_" ++ processType ++ ext.

(** [getMimeTypeByFormat] *)
Definition getMimeTypeByFormat (format : string) : string :=
  if String.eqb format "jpeg" || String.eqb format "jpg" then "image/jpeg"
  else if String.eqb format "png" then "image/png"
  else if String.eqb format "gif" then "image/gif"
  else "image/jpeg".

(** [calculateFileHash(filePath)]: ["processed_"] and the length of the path in
    hexadecimal. *)
Definition calculateFileHash (filePath : string) : string :=
  "processed_" ++ fmt.hex_nat (String.length filePath).

Section ProcessorService.

Variable E : Env.
Variable config : UploadConfig.t.

(** [saveProcessedImage]: the file is created first, then the encoder for the
    format writes into it. *)
Definition saveProcessedImage (img : image.Image) (path format : string)
    (quality : option Z) : M unit :=
  let* created := try (os.WriteFile E path []) in
  match created with
  | Err _ => fail (Wrapped "创建文件失败" WriteFailed)
  | Ok _ =>
      let encoded :=
        if String.eqb format "jpeg" || String.eqb format "jpg" then
          let q := match quality with Some q => q | None => 85 end in
          match jpeg_Encode E img q with
          | Some bytes => Ok bytes
          | None => Err EncodeFailed
          end
        else if String.eqb format "png" then
          match png_Encode E img with
          | Some bytes => Ok bytes
          | None => Err EncodeFailed
          end
        else Err (UnsupportedOutputFormat format) in
      match encoded with
      | Ok bytes =>
          fun w => (Ok tt, with_disk w (<[path := bytes]> (disk w))
                             (disk_writes w))
      | Err e => fail e
      end
  end.

(** The [switch] of [ProcessImage] on the process type: the processed image
    (or the failure of the step) and the output format; an unknown type is
    an error of its own. *)
Definition applyProcess (req : ProcessRequest.t) (img : image.Image)
    (format : string) : result (result image.Image * string) :=
  let processType := ProcessRequest.ProcessType req in
  if String.eqb processType "resize" then
    Ok (resizeImage img (ProcessRequest.Width req)
          (ProcessRequest.Height req), format)
  else if String.eqb processType "compress" then
    Ok (compressImage img (ProcessRequest.Quality req), format)
  else if String.eqb processType "watermark" then
    Ok (addWatermark img (ProcessRequest.WatermarkText req), format)
  else if String.eqb processType "thumbnail" then
    Ok (generateThumbnail img (ProcessRequest.Width req)
          (ProcessRequest.Height req), "jpeg")
  else Err (UnsupportedProcessType processType).

(** The record [ProcessImage] builds for the processed image. *)
Definition processedRecord (media : MediaFile.t) (req : ProcessRequest.t)
    (processedImg : image.Image) (processedPath outputFormat : string)
    (t : time.Time) : MediaFile.t :=
  let processType := ProcessRequest.ProcessType req in
  let processedMedia :=
    MediaFile.NewMediaFile
      (generateProcessedFilename (MediaFile.Filename media) processType)
      processedPath
      (getMimeTypeByFormat outputFormat)
      "image"
      (calculateFileHash processedPath)
      (MediaFile.FileSize media)
      (MediaFile.UploaderID media) t in
  let bounds := image.Bounds processedImg in
  let processedMedia :=
    MediaFile.SetDimensions processedMedia
      (image.Dx bounds) (image.Dy bounds) in
  let processedMedia :=
    MediaFile.set_Alt processedMedia (MediaFile.Alt media) in
  let processedMedia :=
    MediaFile.set_Caption processedMedia
      (MediaFile.Caption media ++ " (" ++ processType ++ ")") in
  MediaFile.set_IsPublic processedMedia (MediaFile.IsPublic media).

(** [ProcessImage(ctx, req)] *)
Definition ProcessImage (req : ProcessRequest.t) : M ProcessResult.t :=
  let* media0 := try (mediaRepository.GetByID (ProcessRequest.MediaID req)) in
  match media0 with
  | Err e => fail (Wrapped "获取媒体文件失败" e)
  | Ok media =>
      if negb (MediaFile.IsImage media) then fail NotAnImage
      else
        let* file := try (os.ReadFile (MediaFile.StoragePath media)) in
        match file with
        | Err e => fail (Wrapped "打开原始文件失败" e)
        | Ok bytes =>
            match image_Decode E bytes with
            | None => fail (Wrapped "解码图片失败" DecodeFailed)
            | Some (img, format) =>
                match applyProcess req img format with
                | Err e => fail e
                | Ok (Err e, _) => fail (Wrapped "图片处理失败" e)
                | Ok (Ok processedImg, outputFormat) =>
                    let outputFormat :=
                      if String.eqb (ProcessRequest.OutputFormat req) ""
                      then outputFormat
                      else ProcessRequest.OutputFormat req in
                    let processedPath :=
                      generateProcessedImagePath (MediaFile.StoragePath media)
                        (ProcessRequest.ProcessType req) outputFormat in
                    let* saved :=
                      try (saveProcessedImage processedImg processedPath
                             outputFormat (ProcessRequest.Quality req)) in
                    match saved with
                    | Err e => fail (Wrapped "保存处理后图片失败" e)
                    | Ok _ =>
                        let* t := now in
                        let processedMedia :=
                          processedRecord media req processedImg
                            processedPath outputFormat t in
                        let* created :=
                          try (mediaRepository.Create processedMedia) in
                        match created with
                        | Err e =>
                            os.Remove processedPath ;;
                            fail (Wrapped "创建处理后媒体文件记录失败" e)
                        | Ok processedMedia =>
                            ret {| ProcessResult.MediaFile := processedMedia;
                                   ProcessResult.URL :=
                                     generateFileURL config processedPath;
                                   ProcessResult.Message := msg_processed |}
                        end
                    end
                end
            end
        end
  end.

End ProcessorService.

(** *** Batch processing and optimizing *)

(** How [OptimizeImage] ends without a result. *)
Inductive optimize_error : Type :=
  | OptimizeLookupFailed (e : error)  (* getting the media file failed: e *)
  | OptimizeNotAnImage                (* only image files can be optimized *)
  | OptimizeProcessFailed (e : error).

Section ProcessorBatch.

Variable E : Env.
Variable config : UploadConfig.t.

Definition with_MediaID (req : ProcessRequest.t) (mediaID : Z)
  : ProcessRequest.t :=
  {| ProcessRequest.MediaID := mediaID;
     ProcessRequest.ProcessType := ProcessRequest.ProcessType req;
     ProcessRequest.Width := ProcessRequest.Width req;
     ProcessRequest.Height := ProcessRequest.Height req;
     ProcessRequest.Quality := ProcessRequest.Quality req;
     ProcessRequest.WatermarkText := ProcessRequest.WatermarkText req;
     ProcessRequest.OutputFormat := ProcessRequest.OutputFormat req |}.

(** The loop of [BatchProcessImages]: the request is copied for each media
    ID. *)
Fixpoint processEach (mediaIDs : list Z) (req : ProcessRequest.t)
    (results : list ProcessResult.t) (errors : list (Z * error)) (w : World)
  : list ProcessResult.t * list (Z * error) * World :=
  match mediaIDs with
  | [] => (results, errors, w)
  | mediaID :: rest =>
      match ProcessImage E config (with_MediaID req mediaID) w with
      | (Ok r, w') => processEach rest req (results ++ [r])%list errors w'
      | (Err e, w') =>
          processEach rest req results (errors ++ [(mediaID, e)])%list w'
      end
  end.

(** [BatchProcessImages(ctx, mediaIDs, req)] *)
Definition BatchProcessImages (mediaIDs : list Z) (req : ProcessRequest.t)
    (w : World) : (batch_error Z + list ProcessResult.t) * World :=
  if (length mediaIDs =? 0)%nat then (inl BatchEmpty, w)
  else if (10 <? length mediaIDs)%nat then (inl BatchTooLarge, w)
  else
    let '(results, errors, w') := processEach mediaIDs req [] [] w in
    if (0 <? length errors)%nat && (length results =? 0)%nat
    then (inl (BatchAllFailed errors), w')
    else (inr results, w').

(** The request [OptimizeImage] builds from the record: compression at 75 for
    more than 5 MB, a resize to width 2048 for a known width above that,
    compression at 85 otherwise; always with JPEG output. *)
Definition optimizeRequest (mediaID : Z) (media : MediaFile.t)
  : ProcessRequest.t :=
  let wide :=
    match MediaFile.Width media with
    | Some width => 2048 <? width
    | None => false
    end in
  if 5 * 1024 * 1024 <? MediaFile.FileSize media then
    {| ProcessRequest.MediaID := mediaID;
       ProcessRequest.ProcessType := "compress";
       ProcessRequest.Width := None; ProcessRequest.Height := None;
       ProcessRequest.Quality := Some 75;
       ProcessRequest.WatermarkText := "";
       ProcessRequest.OutputFormat := "jpeg" |}
  else if wide then
    {| ProcessRequest.MediaID := mediaID;
       ProcessRequest.ProcessType := "resize";
       ProcessRequest.Width := Some 2048; ProcessRequest.Height := None;
       ProcessRequest.Quality := None;
       ProcessRequest.WatermarkText := "";
       ProcessRequest.OutputFormat := "jpeg" |}
  else
    {| ProcessRequest.MediaID := mediaID;
       ProcessRequest.ProcessType := "compress";
       ProcessRequest.Width := None; ProcessRequest.Height := None;
       ProcessRequest.Quality := Some 85;
       ProcessRequest.WatermarkText := "";
       ProcessRequest.OutputFormat := "jpeg" |}.

(** [OptimizeImage(ctx, mediaID)] *)
Definition OptimizeImage (mediaID : Z) (w : World)
  : (optimize_error + ProcessResult.t) * World :=
  match mediaRepository.GetByID mediaID w with
  | (Err e, w') => (inl (OptimizeLookupFailed e), w')
  | (Ok media, w') =>
      if negb (MediaFile.IsImage media) then (inl OptimizeNotAnImage, w')
      else
        match ProcessImage E config (optimizeRequest mediaID media) w' with
        | (Ok r, w'') => (inr r, w'')
        | (Err e, w'') => (inl (OptimizeProcessFailed e), w'')
        end
  end.

End ProcessorBatch.

(** ** Well-formed registries *)

(** The keys of the rows are distinct, positive and at most the counter
    (which never is negative), and no two rows have the same fingerprint. *)
Definition registry_ok (w : World) : Prop :=
  NoDup (map MediaFile.ID (media_files w))
  /\ 0 <= media_files_seq w
  /\ Forall (fun m => 0 < MediaFile.ID m <= media_files_seq w) (media_files w)
  /\ NoDup (map MediaFile.Hash (media_files w)).

(** How one call of a service changes the registry: not at all, or by one
    new row with the next key whose fingerprint no row had. *)
Definition grows_by_at_most_one (w w' : World) : Prop :=
  (media_files w' = media_files w /\ media_files_seq w' = media_files_seq w)
  \/ exists row,
       media_files w' = (media_files w ++ [row])%list
       /\ media_files_seq w' = media_files_seq w + 1
       /\ MediaFile.ID row = media_files_seq w + 1
       /\ existsb (mediaRepository.has_hash (MediaFile.Hash row))
            (media_files w) = false.


(** ** The storage layout in the specification's words *)

Definition is_hex_char (c : ascii) : bool :=
  let n := nat_of_ascii c in
  ((48 <=? n) && (n <=? 57) || (97 <=? n) && (n <=? 102))%nat.


Fixpoint all_hex (s : string) : bool :=
  match s with
  | EmptyString => true
  | String c s' => is_hex_char c && all_hex s'
  end.

(** A fingerprint: 32 lower-case hexadecimal characters. *)
Definition is_fingerprint (h : string) : bool :=
  (String.length h =? 32)%nat && all_hex h.




(** ** Binary64 arithmetic, as Go's [float64] computes it *)

Module f64.

(** [float64(n)] *)
Definition of_int (n : Z) : float :=
  if n <? 0 then PrimFloat.opp (PrimFloat.of_uint63 (Uint63.of_Z (- n)))
  else PrimFloat.of_uint63 (Uint63.of_Z n).

(** [int(f)]: the fraction is discarded.  For an infinity or a NaN the
    result depends on the platform; amd64 gives the smallest [int64]. *)
Definition to_int (f : float) : Z :=
  match Prim2SF f with
  | S754_zero _ => 0
  | S754_finite s m e =>
      let v := if 0 <=? e then Z.pos m * 2 ^ e
               else Z.quot (Z.pos m) (2 ^ (- e)) in
      if s then - v else v
  | S754_infinity _ | S754_nan => - 2 ^ 63
  end.

(** [int(float64(a) * float64(b) / float64(c))] *)
Definition scale (a b c : Z) : Z :=
  to_int (PrimFloat.div (PrimFloat.mul (of_int a) (of_int b)) (of_int c)).

(** The integers [1 .. n]. *)
Definition upto (n : nat) : list Z := map (fun i => Z.of_nat (S i)) (seq 0 n).

Definition agree_upto (n : nat) : bool :=
  forallb (fun a =>
    forallb (fun b =>
      forallb (fun c => Z.eqb (scale a b c) (Z.quot (a * b) c)) (upto n))
      (upto n)) (upto n).

End f64.

(** ** A small installation used to run the services *)

Module Sample.

Definition pad (content : list byte) (i : nat) : byte := nth i content x00.

(** A stand-in digest: the first sixteen bytes, padded with zeros. *)
Definition digest (c : list byte) : list byte :=
  [pad c 0; pad c 1; pad c 2; pad c 3; pad c 4; pad c 5; pad c 6; pad c 7;
   pad c 8; pad c 9; pad c 10; pad c 11; pad c 12; pad c 13; pad c 14;
   pad c 15].

Definition TypeByExtension (ext : string) : string :=
  if String.eqb ext ".png" then "image/png"
  else if String.eqb ext ".txt" then "text/plain; charset=utf-8"
  else "".

Definition DetectContentType (content : list byte) : string :=
  "application/octet-stream".

Definition usage_types : list string :=
  ["post_avatar"; "post_cover"; "post_content"; "moment_content";
   "user_avatar"].

(** The struct tags of [FileUploadRequest]: [max=200], [max=500],
    [required,oneof=...]. *)
Definition Validate (req : FileUploadRequest.t) : bool :=
  (String.length (FileUploadRequest.Alt req) <=? 200)%nat
  && (String.length (FileUploadRequest.Caption req) <=? 500)%nat
  && existsb (String.eqb (FileUploadRequest.UsageType req)) usage_types.

(** A two-byte picture format: width, height; the pixel at [(x, y)] of a
    decoded picture is [x + 10 * y]. *)
Definition Decode (bytes : list byte) : option (image.Image * string) :=
  match bytes with
  | [bw; bh] =>
      let iw := Z.of_nat (Byte.to_nat bw) in
      let ih := Z.of_nat (Byte.to_nat bh) in
      Some ({| image.Bounds := image.Rect 0 0 iw ih;
               image.At := fun x y =>
                 if image.inside (image.Rect 0 0 iw ih) x y
                 then x + 10 * y else 0 |}, "png")
  | _ => None
  end.

Definition dim_byte (n : Z) : byte :=
  match Byte.of_nat (Z.to_nat n) with
  | Some b => b
  | None => xff
  end.

(** The encoders write a marker byte in front of the two dimensions. *)
Definition Encode (img : image.Image) : option (list byte) :=
  Some [x89; dim_byte (image.Dx (image.Bounds img));
        dim_byte (image.Dy (image.Bounds img))].

Definition env : Env :=
  {| md5_Sum := digest;
     md5_Sum_size := fun _ => eq_refl;
     mime_TypeByExtension := TypeByExtension;
     http_DetectContentType := DetectContentType;
     validator_Validate := Validate;
     fs_writable := fun _ => true;
     image_Decode := Decode;
     jpeg_Encode := fun img _ => Encode img;
     png_Encode := Encode |}.

Definition config (root : string) : UploadConfig.t :=
  {| UploadConfig.MaxFileSize := 4;
     UploadConfig.AllowedTypes := ["image/"; "text/"];
     UploadConfig.StoragePath := root;
     UploadConfig.BaseURL := "http://localhost:8080/uploads" |}.

Definition today : time.Time :=
  {| time.Year := 2024; time.Month := 11; time.Day := 2 |}.

Definition empty : World :=
  {| media_files := []; media_files_seq := 0;
     media_usages := []; media_usages_seq := 0;
     disk := ∅; disk_writes := []; clock := today |}.

Definition request (usage : string) : FileUploadRequest.t :=
  {| FileUploadRequest.Alt := ""; FileUploadRequest.Caption := "";
     FileUploadRequest.IsPublic := None;
     FileUploadRequest.UsageType := usage;
     FileUploadRequest.TargetID := Some 5 |}.

(** A 3 by 4 picture. *)
Definition picture : list byte := [x03; x04].

(** The world after user 7 uploaded [picture] as a post cover. *)
Definition uploaded : World :=
  snd (UploadFile env (config "/srv/media") (Some picture) "cat.png" 7
         (request "post_cover") empty).

(** What a lookup for [picture] hands over when the registry is empty. *)
Definition ingest : Ingest :=
  {| content := picture; mimeType := "image/png"; fileType := "image";
     hash := "03040000000000000000000000000000" |}.

Definition picture_path : string :=
  "/srv/media/2024/11/02/03/040000000000000000000000000000.png".

(** The row of [picture] in [uploaded]. *)
Definition cat_row : MediaFile.t :=
  MediaFile.set_ID
    (MediaFile.NewMediaFile "cat.png" picture_path "image/png" "image"
       "03040000000000000000000000000000" 2 (Some 7) today) 1.

(** A second picture, 5 by 6, uploaded by user 8 after the first. *)
Definition picture2 : list byte := [x05; x06].

Definition uploaded2 : World :=
  snd (UploadFile env (config "/srv/media") (Some picture2) "dog.png" 8
         (request "post_content") uploaded).

(** [uploaded] once the post that used the picture dropped its usage
    record. *)
Definition unused : World := with_media_usages uploaded [] 1.

(** The decoded [picture]. *)
Definition decoded : image.Image :=
  {| image.Bounds := image.Rect 0 0 3 4;
     image.At := fun x y =>
       if image.inside (image.Rect 0 0 3 4) x y then x + 10 * y else 0 |}.

Definition process (processType text : string) (width : option Z)
  : ProcessRequest.t :=
  {| ProcessRequest.MediaID := 1;
     ProcessRequest.ProcessType := processType;
     ProcessRequest.Width := width;
     ProcessRequest.Height := None;
     ProcessRequest.Quality := None;
     ProcessRequest.WatermarkText := text;
     ProcessRequest.OutputFormat := "" |}.

End Sample.

(** ** Vocabulary of the statements about statistics and encoders *)

(** The rows of one file type, and the rows whose type is none of the three
    that [MediaStats] names. *)
Definition of_type (ft : string) (m : MediaFile.t) : bool :=
  String.eqb (MediaFile.FileType m) ft.

Definition of_other_type (m : MediaFile.t) : bool :=
  negb (of_type "image" m) && negb (of_type "video" m)
  && negb (of_type "document" m).

(** The count a grouped result holds for one file type, 0 when it has no
    group for it. *)
Definition group_count (ft : string) (groups : list (string * Z)) : Z :=
  match find (fun kv => String.eqb (fst kv) ft) groups with
  | Some kv => snd kv
  | None => 0
  end.

Definition other_name (k : string) : bool :=
  negb (String.eqb k "image") && negb (String.eqb k "video")
  && negb (String.eqb k "document").

Definition other_key (kv : string * Z) : bool := other_name (fst kv).

Definition sum_counts (groups : list (string * Z)) : Z :=
  fold_right Z.add 0 (map snd groups).

(** The formats [saveProcessedImage] has an encoder for. *)
Definition encodable (format : string) : bool :=
  String.eqb format "jpeg" || String.eqb format "jpg"
  || String.eqb format "png".

(** * Properties *)

(** Unfolds the monad so that a service call reduces on a given world. *)
Ltac run :=
  cbv beta iota delta
    [bind ret fail try now
     mediaRepository.GetByID mediaRepository.GetByHash
     mediaRepository.Create mediaRepository.Delete
     mediaRepository.SoftDelete mediaRepository.set_status
     mediaUsageRepository.Create mediaUsageRepository.GetByMediaID
     os.WriteFile os.Remove os.ReadFile saveFileToDisk].

(** ** Rejection at the door of the ingestion pipeline *)

Section Rejection.

Variable E : Env.
Variable config : UploadConfig.t.

Lemma UploadFile_lookup_world file filename uploaderID req w i w' :
  UploadFile_lookup E config file filename uploaderID req w
    = (Ok (Missing i), w') -> w' = w.
Proof.
  unfold UploadFile_lookup.
  destruct (negb (validator_Validate E req)); [discriminate |].
  destruct file as [content |]; [| discriminate].
  destruct (_ >? _); [discriminate |].
  destruct (negb (isAllowedFileType _ _)); [discriminate |].
  run.
  destruct (find _ _); [| congruence].
  unfold recordUsage.
  destruct (String.eqb _ ""); run; discriminate.
Qed.

Lemma UploadFile_store_not_too_large filename uploaderID req i w n :
  fst (UploadFile_store E config filename uploaderID req i w)
    <> Err (FileTooLarge n).
Proof.
  unfold UploadFile_store. run.
  destruct (fs_writable E _); [| discriminate].
  destruct (existsb _ _); [discriminate |].
  unfold recordUsage.
  destruct (String.eqb _ ""); run; discriminate.
Qed.

(** C7. With a valid request, content longer than the configured maximum is
    rejected with [FileTooLarge]; content of at most that length is never
    rejected for its size; and content within the limit whose detected MIME
    type has no allowed prefix is rejected with [UnsupportedType].  Each
    rejection returns the world as it was: nothing is written to disk and
    no row is inserted. *)
Theorem UploadFile_rejection_boundaries
    (content : list byte) (filename : string) (uploaderID : Z)
    (req : FileUploadRequest.t) (w : World) :
  validator_Validate E req = true ->
  let len := Z.of_nat (length content) in
  let limit := UploadConfig.MaxFileSize config in
  let mime := detectMimeType E filename content in
  let outcome :=
    UploadFile E config (Some content) filename uploaderID req w in
  (limit < len -> outcome = (Err (FileTooLarge limit), w)) /\
  (len <= limit -> forall n, fst outcome <> Err (FileTooLarge n)) /\
  (len <= limit -> isAllowedFileType config mime = false ->
     outcome = (Err (UnsupportedType mime), w)).
Proof.
  intros Hvalid len limit mime outcome.
  subst outcome. unfold UploadFile, UploadFile_lookup.
  rewrite Hvalid. cbn [negb]. fold len limit mime.
  repeat split.
  - intros Hlt. apply Z.gtb_lt in Hlt as ->. reflexivity.
  - intros Hle n.
    destruct (len >? limit) eqn:Hgt; [apply Z.gtb_lt in Hgt; lia |].
    destruct (isAllowedFileType config mime); cbn [negb].
    + run.
      destruct (find _ _).
      * unfold recordUsage.
        destruct (String.eqb _ ""); run; discriminate.
      * apply UploadFile_store_not_too_large.
    + discriminate.
  - intros Hle Hno.
    destruct (len >? limit) eqn:Hgt; [apply Z.gtb_lt in Hgt; lia |].
    rewrite Hno. reflexivity.
Qed.

End Rejection.

(** With a limit of four bytes and the allow-list [image/], [text/]: five bytes
    are too large, and a two-byte [tool.exe] has an unsupported type. *)
Lemma UploadFile_rejection_boundaries_witness :
  UploadFile Sample.env (Sample.config "/srv/media")
    (Some [x01; x02; x03; x04; x05]) "cat.png" 7
    (Sample.request "post_cover") Sample.empty
  = (Err (FileTooLarge 4), Sample.empty)
  /\ UploadFile Sample.env (Sample.config "/srv/media")
       (Some [x01; x02]) "tool.exe" 7
       (Sample.request "post_cover") Sample.empty
     = (Err (UnsupportedType "application/octet-stream"), Sample.empty).
Proof.
  split.
  - apply (UploadFile_rejection_boundaries Sample.env
             (Sample.config "/srv/media") [x01; x02; x03; x04; x05] "cat.png" 7
             (Sample.request "post_cover") Sample.empty eq_refl).
    reflexivity.
  - apply (UploadFile_rejection_boundaries Sample.env
             (Sample.config "/srv/media") [x01; x02] "tool.exe" 7
             (Sample.request "post_cover") Sample.empty eq_refl).
    + vm_compute. discriminate.
    + reflexivity.
Defined.

(** ** The permission gate of update and delete *)

Section PermissionGate.

Lemma CanEdit_nil (media : MediaFile.t) : MediaFile.CanEdit media None = false.
Proof. reflexivity. Qed.

Lemma GetByID_world id w : snd (mediaRepository.GetByID id w) = w.
Proof. unfold mediaRepository.GetByID. destruct (find _ _); reflexivity. Qed.

(** Whatever the ID, neither entry point changes the world. *)
Lemma UpdateMedia_world id req userID w : snd (UpdateMedia id req userID w) = w.
Proof.
  unfold UpdateMedia. run. destruct (find _ _); reflexivity.
Qed.

Lemma DeleteMedia_world id userID w : snd (DeleteMedia id userID w) = w.
Proof.
  unfold DeleteMedia. run. destruct (find _ _); reflexivity.
Qed.

(** C4. For an existing media ID and any caller, [UpdateMedia] and
    [DeleteMedia] fail with their permission error and return the world
    unchanged (same rows, same usage records, same files), because the
    check is made with a nil user, for which [CanEdit] and [CanDelete] are
    false. *)
Theorem UpdateMedia_DeleteMedia_always_denied
    (id : Z) (req : FileUploadRequest.t) (userID : option Z) (w : World)
    (media : MediaFile.t) :
  mediaRepository.GetByID id w = (Ok media, w) ->
  MediaFile.CanEdit media None = false /\
  MediaFile.CanDelete media None = false /\
  UpdateMedia id req userID w = (Err NoPermissionToEdit, w) /\
  DeleteMedia id userID w = (Err NoPermissionToDelete, w).
Proof.
  intros Hget. repeat split.
  - unfold UpdateMedia, bind, try. rewrite Hget. reflexivity.
  - unfold DeleteMedia, bind, try. rewrite Hget. reflexivity.
Qed.

End PermissionGate.

(** User 7 uploaded the picture and is refused when updating or deleting it;
    so is everybody else. *)
Lemma UpdateMedia_DeleteMedia_always_denied_witness :
  UpdateMedia 1 (Sample.request "post_cover") (Some 7) Sample.uploaded
    = (Err NoPermissionToEdit, Sample.uploaded)
  /\ DeleteMedia 1 (Some 7) Sample.uploaded
     = (Err NoPermissionToDelete, Sample.uploaded).
Proof.
  destruct (UpdateMedia_DeleteMedia_always_denied 1
              (Sample.request "post_cover") (Some 7) Sample.uploaded
              Sample.cat_row)
    as (_ & _ & Hupdate & Hdelete).
  - vm_compute. reflexivity.
  - split; assumption.
Defined.

(** ** Deduplication by fingerprint *)

Section Deduplication.

Variable E : Env.
Variable config : UploadConfig.t.

Lemma find_none_existsb {A} (f : A -> bool) (l : list A) :
  find f l = None -> existsb f l = false.
Proof.
  induction l as [| a l IH]; cbn; [reflexivity |].
  destruct (f a); [discriminate | exact IH].
Qed.

Lemma find_some_existsb {A} (f : A -> bool) (l : list A) (x : A) :
  find f l = Some x -> existsb f l = true.
Proof.
  induction l as [| a l IH]; cbn; [discriminate |].
  destruct (f a); [reflexivity | exact IH].
Qed.

Lemma find_snoc_fresh {A} (f : A -> bool) (l : list A) (x : A) :
  find f l = None -> f x = true -> find f (l ++ [x]) = Some x.
Proof.
  intros Hnone Hx. induction l as [| a l IH]; cbn in *.
  - rewrite Hx. reflexivity.
  - destruct (f a); [discriminate | auto].
Qed.

(** Recording a usage always succeeds and touches the usage table only. *)
Lemma recordUsage_spec mediaID req uploaderID w :
  exists w',
    recordUsage mediaID req uploaderID w = (Ok tt, w')
    /\ media_files w' = media_files w
    /\ media_files_seq w' = media_files_seq w
    /\ disk w' = disk w
    /\ disk_writes w' = disk_writes w
    /\ clock w' = clock w.
Proof.
  unfold recordUsage.
  destruct (String.eqb _ ""); run; eexists; repeat split.
Qed.

Lemma setMetadata_Hash m req :
  MediaFile.Hash (setMetadata m req) = MediaFile.Hash m.
Proof.
  unfold setMetadata.
  destruct (String.eqb (FileUploadRequest.Alt req) "");
    destruct (String.eqb (FileUploadRequest.Caption req) "");
    destruct (FileUploadRequest.IsPublic req); reflexivity.
Qed.

Lemma newRecord_Hash filename uploaderID req i t :
  MediaFile.Hash (newRecord config filename uploaderID req i t) = hash i.
Proof.
  unfold newRecord. destruct (String.eqb (fileType i) "image"); cbn;
    apply setMetadata_Hash.
Qed.

(** A first upload of content the registry does not hold: one write, one
    new row with the next key. *)
Lemma UploadFile_store_fresh filename uploaderID req i w :
  find (mediaRepository.has_hash (hash i)) (media_files w) = None ->
  fs_writable E (generateStoragePath config filename (hash i) (clock w))
    = true ->
  let path := generateStoragePath config filename (hash i) (clock w) in
  let row :=
    MediaFile.set_ID (newRecord config filename uploaderID req i (clock w))
      (media_files_seq w + 1) in
  exists w1,
    UploadFile_store E config filename uploaderID req i w
      = (Ok {| UploadResult.MediaFile := row;
               UploadResult.URL := generateFileURL config path;
               UploadResult.Message := msg_uploaded |}, w1)
    /\ media_files w1 = (media_files w ++ [row])%list
    /\ disk w1 = <[path := content i]> (disk w)
    /\ disk_writes w1 = (disk_writes w ++ [path])%list.
Proof.
  intros Hnone Hfs path row.
  unfold UploadFile_store. run. rewrite Hfs. fold path.
  cbn [media_files with_disk].
  change (if String.eqb (fileType i) "image" then _ else _)
    with (newRecord config filename uploaderID req i (clock w)).
  rewrite newRecord_Hash, (find_none_existsb _ _ Hnone).
  cbn [clock with_disk media_files_seq]. fold row.
  match goal with
  | |- context [recordUsage ?a ?b ?c ?d] =>
      destruct (recordUsage_spec a b c d) as (w1 & -> & Hrows & _ & Hd & Hl & _)
  end.
  exists w1. repeat split; assumption.
Qed.

(** C1. Ingesting content the registry does not hold yet, and then the same
    bytes again (under any accepted filename and valid metadata): both calls
    succeed and return the same MediaFile ID; the first answers with the
    "uploaded" message, the second with the different "already exists"
    message; the first call writes the bytes to disk once, the second
    writes nothing and inserts no row. *)
Theorem UploadFile_idempotent
    (data : list byte)
    (filename : string) (uploaderID : Z) (req : FileUploadRequest.t)
    (filename2 : string) (uploaderID2 : Z) (req2 : FileUploadRequest.t)
    (w : World) :
  validator_Validate E req = true ->
  validator_Validate E req2 = true ->
  Z.of_nat (length data) <= UploadConfig.MaxFileSize config ->
  isAllowedFileType config (detectMimeType E filename data) = true ->
  isAllowedFileType config (detectMimeType E filename2 data) = true ->
  find (mediaRepository.has_hash (calculateHash E data)) (media_files w)
    = None ->
  fs_writable E
    (generateStoragePath config filename (calculateHash E data) (clock w))
    = true ->
  let path :=
    generateStoragePath config filename (calculateHash E data) (clock w) in
  exists r1 w1 r2 w2,
    UploadFile E config (Some data) filename uploaderID req w
      = (Ok r1, w1)
    /\ UploadFile E config (Some data) filename2 uploaderID2 req2 w1
       = (Ok r2, w2)
    /\ MediaFile.ID (UploadResult.MediaFile r2)
       = MediaFile.ID (UploadResult.MediaFile r1)
    /\ UploadResult.Message r1 = msg_uploaded
    /\ UploadResult.Message r2 = msg_already_exists
    /\ UploadResult.Message r1 <> UploadResult.Message r2
    /\ disk_writes w1 = (disk_writes w ++ [path])%list
    /\ disk w1 !! path = Some data
    /\ disk_writes w2 = disk_writes w1
    /\ disk w2 = disk w1
    /\ media_files w2 = media_files w1.
Proof.
  intros Hvalid Hvalid2 Hsize Hallowed Hallowed2 Hnone Hfs path.
  assert (Hle : (Z.of_nat (length data)
                 >? UploadConfig.MaxFileSize config) = false)
    by (destruct (_ >? _) eqn:Hgt; [apply Z.gtb_lt in Hgt; lia | reflexivity]).
  pose (i := {| content := data;
                mimeType := detectMimeType E filename data;
                fileType := getFileType (detectMimeType E filename data);
                hash := calculateHash E data |}).
  destruct (UploadFile_store_fresh filename uploaderID req i w Hnone Hfs)
    as (w1 & Hstore & Hrows & Hdisk & Hlog).
  change (hash i) with (calculateHash E data) in *.
  change (content i) with data in *.
  set (row := MediaFile.set_ID (newRecord config filename uploaderID req i (clock w))
                (media_files_seq w + 1)) in *.
  assert (Hfound : find (mediaRepository.has_hash (calculateHash E data))
                     (media_files w1) = Some row).
  { rewrite Hrows. apply find_snoc_fresh; [exact Hnone |].
    unfold mediaRepository.has_hash, row. cbn [MediaFile.Hash MediaFile.set_ID].
    rewrite newRecord_Hash. apply String.eqb_refl. }
  destruct (recordUsage_spec (MediaFile.ID row) req2 uploaderID2 w1)
    as (w2 & Husage & Hrows2 & _ & Hdisk2 & Hlog2 & _).
  eexists _, w1, _, w2.
  split; [| split].
  - unfold UploadFile, UploadFile_lookup.
    rewrite Hvalid, Hle, Hallowed. cbn [negb]. run. rewrite Hnone.
    exact Hstore.
  - unfold UploadFile, UploadFile_lookup.
    rewrite Hvalid2, Hle, Hallowed2. cbn [negb]. run. rewrite Hfound.
    rewrite Husage. reflexivity.
  - cbn [UploadResult.MediaFile UploadResult.Message].
    repeat split; try assumption.
    + discriminate.
    + rewrite Hdisk. apply lookup_insert_eq.
Qed.

(** C3, as the code has it.  When the insert of the new row fails because
    the fingerprint is already in the registry (the content was registered
    between this call's lookup and its insert), [UploadFile] removes the
    file it has just written and returns the insert failure, wrapped, as an
    error; the registry is left as it was and the existing record is not
    read again. *)
Theorem UploadFile_store_duplicate_fails
    (filename : string) (uploaderID : Z) (req : FileUploadRequest.t)
    (i : Ingest) (w : World) (existing : MediaFile.t) :
  find (mediaRepository.has_hash (hash i)) (media_files w) = Some existing ->
  fs_writable E (generateStoragePath config filename (hash i) (clock w))
    = true ->
  let path := generateStoragePath config filename (hash i) (clock w) in
  exists w',
    UploadFile_store E config filename uploaderID req i w
      = (Err (Wrapped "创建媒体文件记录失败"
                (Wrapped "创建媒体文件失败" UniqueViolation)), w')
    /\ media_files w' = media_files w
    /\ media_usages w' = media_usages w
    /\ disk w' !! path = None
    /\ disk_writes w' = (disk_writes w ++ [path])%list.
Proof.
  intros Hsome Hfs path.
  unfold UploadFile_store. run. rewrite Hfs. fold path.
  cbn [media_files with_disk].
  change (if String.eqb (fileType i) "image" then _ else _)
    with (newRecord config filename uploaderID req i (clock w)).
  rewrite newRecord_Hash, (find_some_existsb _ _ _ Hsome).
  eexists. split; [reflexivity |].
  cbn [media_files media_usages disk disk_writes with_disk].
  repeat split. apply lookup_delete_eq.
Qed.

End Deduplication.

(** The picture is uploaded as [cat.png] by user 7, then again as [copy.png]
    by user 8. *)
Lemma UploadFile_idempotent_witness :
  exists r1 w1 r2 w2,
    UploadFile Sample.env (Sample.config "/srv/media") (Some Sample.picture)
      "cat.png" 7 (Sample.request "post_cover") Sample.empty = (Ok r1, w1)
    /\ UploadFile Sample.env (Sample.config "/srv/media") (Some Sample.picture)
         "copy.png" 8 (Sample.request "post_content") w1 = (Ok r2, w2)
    /\ MediaFile.ID (UploadResult.MediaFile r2)
       = MediaFile.ID (UploadResult.MediaFile r1)
    /\ UploadResult.Message r1 = msg_uploaded
    /\ UploadResult.Message r2 = msg_already_exists
    /\ UploadResult.Message r1 <> UploadResult.Message r2
    /\ disk_writes w1 = [Sample.picture_path]
    /\ disk w1 !! Sample.picture_path = Some Sample.picture
    /\ disk_writes w2 = disk_writes w1
    /\ disk w2 = disk w1
    /\ media_files w2 = media_files w1.
Proof.
  apply (UploadFile_idempotent Sample.env (Sample.config "/srv/media")
           Sample.picture "cat.png" 7 (Sample.request "post_cover")
           "copy.png" 8 (Sample.request "post_content") Sample.empty);
    vm_compute; first [reflexivity | discriminate].
Defined.

(** The same upload by user 8, whose lookup ran before user 7's insert and
    whose insert runs after it. *)
Lemma UploadFile_store_duplicate_fails_witness :
  exists w',
    UploadFile_store Sample.env (Sample.config "/srv/media") "cat.png" 8
      (Sample.request "post_cover") Sample.ingest Sample.uploaded
    = (Err (Wrapped "创建媒体文件记录失败"
              (Wrapped "创建媒体文件失败" UniqueViolation)), w')
    /\ media_files w' = media_files Sample.uploaded
    /\ media_usages w' = media_usages Sample.uploaded
    /\ disk w' !! Sample.picture_path = None
    /\ disk_writes w' = [Sample.picture_path; Sample.picture_path].
Proof.
  apply (UploadFile_store_duplicate_fails Sample.env
           (Sample.config "/srv/media") "cat.png" 8
           (Sample.request "post_cover") Sample.ingest Sample.uploaded
           Sample.cat_row);
    vm_compute; reflexivity.
Defined.

(** C3 as stated fails.  Users 7 and 8 ingest the same picture concurrently:
    8's lookup runs on the empty registry and misses; 7's whole upload
    completes; 8's insert then meets the unique index.  User 8 gets the
    insert failure instead of the record that now exists, and the removal of
    "its" file leaves the registered row without bytes. *)
Lemma UploadFile_race_loser_gets_error :
  UploadFile_lookup Sample.env (Sample.config "/srv/media")
    (Some Sample.picture) "cat.png" 8 (Sample.request "post_cover")
    Sample.empty
  = (Ok (Missing Sample.ingest), Sample.empty)
  /\ is_ok (fst (UploadFile Sample.env (Sample.config "/srv/media")
                   (Some Sample.picture) "cat.png" 7
                   (Sample.request "post_cover") Sample.empty)) = true
  /\ fst (UploadFile_store Sample.env (Sample.config "/srv/media") "cat.png" 8
            (Sample.request "post_cover") Sample.ingest Sample.uploaded)
     = Err (Wrapped "创建媒体文件记录失败"
              (Wrapped "创建媒体文件失败" UniqueViolation))
  /\ map MediaFile.StoragePath
       (media_files
          (snd (UploadFile_store Sample.env (Sample.config "/srv/media")
                  "cat.png" 8 (Sample.request "post_cover") Sample.ingest
                  Sample.uploaded)))
     = [Sample.picture_path]
  /\ disk (snd (UploadFile_store Sample.env (Sample.config "/srv/media")
                  "cat.png" 8 (Sample.request "post_cover") Sample.ingest
                  Sample.uploaded)) !! Sample.picture_path
     = None.
Proof. vm_compute. repeat split. Qed.

(** C2 on the code.  Media 1 has one usage record in [Sample.uploaded] and
    none in [Sample.unused].  In both worlds [DeleteMedia] answers with the
    permission error and changes nothing: where the claim has a soft delete
    the status is still active, and where it has a hard delete [GetByID]
    still finds the row and the bytes are still on disk. *)
Lemma DeleteMedia_neither_soft_nor_hard :
  (length (media_usages Sample.uploaded) = 1%nat
   /\ DeleteMedia 1 (Some 7) Sample.uploaded
      = (Err NoPermissionToDelete, Sample.uploaded)
   /\ map MediaFile.Status (media_files Sample.uploaded) = ["active"])
  /\ (media_usages Sample.unused = []
      /\ DeleteMedia 1 (Some 7) Sample.unused
         = (Err NoPermissionToDelete, Sample.unused)
      /\ is_ok (fst (mediaRepository.GetByID 1 Sample.unused)) = true
      /\ disk Sample.unused !! Sample.picture_path = Some Sample.picture).
Proof. vm_compute. repeat split. Qed.

(** ** Resizing *)

Section Resize.

Lemma Rect_origin_Dx (tw th : Z) :
  0 <= tw -> image.Dx (image.Rect 0 0 tw th) = tw.
Proof. intros H. unfold image.Dx, image.Rect. cbn. lia. Qed.

Lemma Rect_origin_Dy (tw th : Z) :
  0 <= th -> image.Dy (image.Rect 0 0 tw th) = th.
Proof. intros H. unfold image.Dy, image.Rect. cbn. lia. Qed.




End Resize.



Lemma f64_upto_In (n : nat) (x : Z) :
  1 <= x <= Z.of_nat n -> In x (f64.upto n).
Proof.
  intros Hx. unfold f64.upto. apply in_map_iff.
  exists (Z.to_nat (x - 1)). split; [lia |]. apply in_seq. lia.
Qed.

Lemma f64_agree_upto_sound (n : nat) (a b c : Z) :
  f64.agree_upto n = true ->
  1 <= a <= Z.of_nat n -> 1 <= b <= Z.of_nat n -> 1 <= c <= Z.of_nat n ->
  f64.scale a b c = scale a b c.
Proof.
  unfold f64.agree_upto. intros Hall Ha Hb Hc.
  rewrite forallb_forall in Hall. specialize (Hall a (f64_upto_In n a Ha)).
  rewrite forallb_forall in Hall. specialize (Hall b (f64_upto_In n b Hb)).
  rewrite forallb_forall in Hall. specialize (Hall c (f64_upto_In n c Hc)).
  apply Z.eqb_eq in Hall. exact Hall.
Qed.

Lemma f64_agree_upto_40 : f64.agree_upto 40 = true.
Proof. vm_compute. reflexivity. Qed.

(** Binary64 computes the truncated quotient of the exact product on every
    triple of dimensions from 1 to 40, and on some common picture sizes. *)
Lemma f64_scale_agrees (a b c : Z) :
  1 <= a <= 40 -> 1 <= b <= 40 -> 1 <= c <= 40 ->
  f64.scale a b c = scale a b c.
Proof. exact (f64_agree_upto_sound 40 a b c f64_agree_upto_40). Qed.

Example f64_scale_common_sizes :
  f64.scale 1080 800 1920 = scale 1080 800 1920
  /\ f64.scale 3000 2048 4000 = scale 3000 2048 4000
  /\ f64.scale 4032 333 3024 = scale 4032 333 3024
  /\ f64.scale 1920 1001 1080 = scale 1920 1001 1080.
Proof. vm_compute. repeat split. Qed.

(** ** The transform engine *)

Section Transform.

Variable E : Env.
Variable config : UploadConfig.t.

(** What a successful [ProcessImage] went through, and the result it
    returns. *)
Lemma ProcessImage_ok_inv (req : ProcessRequest.t) (w w' : World)
    (r : ProcessResult.t) :
  ProcessImage E config req w = (Ok r, w') ->
  exists media bytes img format processedImg format',
    mediaRepository.GetByID (ProcessRequest.MediaID req) w = (Ok media, w)
    /\ MediaFile.IsImage media = true
    /\ disk w !! MediaFile.StoragePath media = Some bytes
    /\ image_Decode E bytes = Some (img, format)
    /\ applyProcess req img format = Ok (Ok processedImg, format')
    /\ let outputFormat :=
         if String.eqb (ProcessRequest.OutputFormat req) "" then format'
         else ProcessRequest.OutputFormat req in
       let processedPath :=
         generateProcessedImagePath (MediaFile.StoragePath media)
           (ProcessRequest.ProcessType req) outputFormat in
       r = {| ProcessResult.MediaFile :=
                MediaFile.set_ID
                  (processedRecord media req processedImg processedPath
                     outputFormat (clock w))
                  (media_files_seq w + 1);
              ProcessResult.URL := generateFileURL config processedPath;
              ProcessResult.Message := msg_processed |}.
Proof.
  unfold ProcessImage. run.
  destruct (find _ _) as [media |] eqn:Hfind; [| discriminate].
  destruct (MediaFile.IsImage media) eqn:Himage; [| discriminate].
  cbn [negb].
  destruct (disk w !! MediaFile.StoragePath media) as [bytes |] eqn:Hfile;
    [| discriminate].
  destruct (image_Decode E bytes) as [[img format] |] eqn:Hdecode;
    [| discriminate].
  destruct (applyProcess req img format) as [[[processedImg | e] format'] | e]
    eqn:Hstep; try discriminate.
  unfold saveProcessedImage. run.
  destruct (fs_writable E _); [| discriminate].
  match goal with
  | |- context [match ?enc with Ok _ => _ | Err _ => _ end] =>
      destruct enc as [encoded | e]; [| discriminate]
  end.
  cbn [media_files media_files_seq clock with_disk].
  destruct (existsb _ _); [discriminate |].
  intros [= <- _].
  exists media, bytes, img, format, processedImg, format'.
  repeat split; assumption.
Qed.

(** C10. The record of a successful transform carries the source record's
    [FileSize]; the size of the encoded output plays no part. *)
Theorem ProcessImage_copies_FileSize (req : ProcessRequest.t) (w w' : World)
    (r : ProcessResult.t) (media : MediaFile.t) :
  mediaRepository.GetByID (ProcessRequest.MediaID req) w = (Ok media, w) ->
  ProcessImage E config req w = (Ok r, w') ->
  MediaFile.FileSize (ProcessResult.MediaFile r) = MediaFile.FileSize media.
Proof.
  intros Hget Hok.
  apply ProcessImage_ok_inv in Hok
    as (media' & bytes & img & format & processedImg & format'
        & Hget' & _ & _ & _ & _ & ->).
  rewrite Hget in Hget'. injection Hget' as <-. reflexivity.
Qed.


End Transform.

(** Resizing the uploaded 3 by 4 picture to width 2: the new record says 2
    bytes, the size of the source, while the file written has 3. *)
Lemma ProcessImage_copies_FileSize_witness :
  match ProcessImage Sample.env (Sample.config "/srv/media")
          (Sample.process "resize" "" (Some 2)) Sample.uploaded with
  | (Ok r, w') =>
      MediaFile.FileSize (ProcessResult.MediaFile r) = 2
      /\ length <$> disk w' !! MediaFile.StoragePath (ProcessResult.MediaFile r)
         = Some 3%nat
  | (Err _, _) => False
  end.
Proof.
  destruct (ProcessImage Sample.env (Sample.config "/srv/media")
              (Sample.process "resize" "" (Some 2)) Sample.uploaded)
    as [[r | e] w'] eqn:Hrun.
  - split.
    + exact (ProcessImage_copies_FileSize Sample.env
               (Sample.config "/srv/media")
               (Sample.process "resize" "" (Some 2)) Sample.uploaded w' r
               Sample.cat_row ltac:(vm_compute; reflexivity) Hrun).
    + vm_compute in Hrun. injection Hrun as <- <-. vm_compute. reflexivity.
  - vm_compute in Hrun. discriminate.
Defined.



(** ** Fingerprints of derived images *)

Lemma hexdigit_not_p (n : nat) : fmt.hexdigit n <> "p"%char.
Proof.
  unfold fmt.hexdigit.
  pose proof (Nat.mod_upper_bound n 16 ltac:(lia)) as Hlt.
  destruct (n mod 16)%nat as [| d]; [cbn; discriminate |].
  do 15 (destruct d as [| d]; [cbn; discriminate |]).
  lia.
Qed.

Lemma calculateFileHash_not_hex (path : string) (bs : list byte) :
  calculateFileHash path <> fmt.hex_bytes bs.
Proof.
  unfold calculateFileHash. destruct bs as [| b bs]; cbn; [discriminate |].
  intros [= Hp _]. symmetry in Hp. exact (hexdigit_not_p _ Hp).
Qed.

(** The registry never admits a second row with a fingerprint it holds. *)
Lemma Create_keeps_hashes_unique (media row : MediaFile.t) (w w' : World) :
  NoDup (map MediaFile.Hash (media_files w)) ->
  mediaRepository.Create media w = (Ok row, w') ->
  NoDup (map MediaFile.Hash (media_files w')).
Proof.
  intros Hnodup. unfold mediaRepository.Create.
  destruct (existsb _ _) eqn:Hex; [discriminate |].
  intros [= _ <-]. cbn [media_files with_media_files].
  rewrite map_app. cbn [map MediaFile.Hash MediaFile.set_ID].
  apply NoDup_app. repeat split.
  - exact Hnodup.
  - intros h Hin Hin'. apply list_elem_of_singleton in Hin'. subst h.
    apply list_elem_of_fmap in Hin as (other & Heq & Hother).
    assert (existsb (mediaRepository.has_hash (MediaFile.Hash media))
              (media_files w) = true) as Htrue.
    { apply existsb_exists. exists other. split.
      - apply list_elem_of_In. exact Hother.
      - unfold mediaRepository.has_hash. rewrite <- Heq. apply String.eqb_refl. }
    congruence.
  - apply NoDup_singleton.
Qed.

(** C6 on the code.  The fingerprint [ProcessImage] gives a derived image is
    ["processed_"] followed by the length of its path: it is the content hash
    of no bytes at all.  After resizing the first uploaded picture (the new
    row gets [processed_42], whatever was encoded), resizing the second,
    different picture computes the same fingerprint, because the two paths
    are equally long, and its insert is refused. *)
Theorem derived_fingerprint_ignores_content :
  (forall (E : Env) (path : string) (content : list byte),
      calculateFileHash path <> calculateHash E content)
  /\ (match ProcessImage Sample.env (Sample.config "/srv/media")
              (Sample.process "resize" "" (Some 2)) Sample.uploaded2 with
      | (Ok r, w') =>
          MediaFile.Hash (ProcessResult.MediaFile r) = "processed_42"
          /\ disk w' !! MediaFile.StoragePath (ProcessResult.MediaFile r)
             = Some [x89; x02; x02]
          /\ calculateHash Sample.env [x89; x02; x02]
             = "89020200000000000000000000000000"
          /\ fst (ProcessImage Sample.env (Sample.config "/srv/media")
                    {| ProcessRequest.MediaID := 2;
                       ProcessRequest.ProcessType := "resize";
                       ProcessRequest.Width := Some 2;
                       ProcessRequest.Height := None;
                       ProcessRequest.Quality := None;
                       ProcessRequest.WatermarkText := "";
                       ProcessRequest.OutputFormat := "" |} w')
             = Err (Wrapped "创建处理后媒体文件记录失败"
                      (Wrapped "创建媒体文件失败" UniqueViolation))
      | (Err _, _) => False
      end).
Proof.
  split.
  - intros E path content. apply calculateFileHash_not_hex.
  - vm_compute. repeat split.
Qed.

(** ** The storage layout *)

Section PathLemmas.

Lemma append_cons (x : ascii) (a b : string) :
  String x a ++ b = String x (a ++ b).
Proof. reflexivity. Qed.












End PathLemmas.

Section LayoutLemmas.

















End LayoutLemmas.

Section StorageLayout.

Variable config : UploadConfig.t.

Lemma hexdigit_is_hex (n : nat) : is_hex_char (fmt.hexdigit n) = true.
Proof.
  unfold fmt.hexdigit.
  pose proof (Nat.mod_upper_bound n 16 ltac:(lia)) as Hlt.
  destruct (n mod 16)%nat as [| d]; [reflexivity |].
  do 15 (destruct d as [| d]; [reflexivity |]).
  lia.
Qed.

Lemma hex_bytes_fingerprint (bs : list byte) :
  String.length (fmt.hex_bytes bs) = (2 * length bs)%nat
  /\ all_hex (fmt.hex_bytes bs) = true.
Proof.
  induction bs as [| b bs [IHlen IHhex]]; [split; reflexivity |].
  cbn [fmt.hex_bytes]. unfold fmt.hex_byte. rewrite !append_cons.
  cbn [String.length all_hex length]. change ("" ++ fmt.hex_bytes bs)
    with (fmt.hex_bytes bs).
  rewrite IHlen, IHhex, !hexdigit_is_hex. split; [lia | reflexivity].
Qed.

(** What [UploadFile] computes for any content is a fingerprint. *)
Lemma calculateHash_is_fingerprint (E : Env) (content : list byte) :
  is_fingerprint (calculateHash E content) = true.
Proof.
  unfold is_fingerprint, calculateHash.
  destruct (hex_bytes_fingerprint (md5_Sum E content)) as [-> ->].
  rewrite md5_Sum_size. reflexivity.
Qed.


End StorageLayout.



(** * Further properties of the code *)

(** * Further properties of the code *)

(** ** What ingestion leaves behind *)

Section IngestionEffects.

Variable E : Env.
Variable config : UploadConfig.t.





(** X2. When the registry already holds the fingerprint of the content, in a
    row of any status, a valid upload within the limits returns that row
    exactly as stored (the alt text, caption and public flag of the request
    are not applied, a deleted row stays deleted), writes nothing, and
    records one usage of the row for the caller when the request names a
    usage type. *)
Theorem UploadFile_existing_returned_as_stored
    (data : list byte) (filename : string) (uploaderID : Z)
    (req : FileUploadRequest.t) (w : World) (existing : MediaFile.t) :
  validator_Validate E req = true ->
  Z.of_nat (length data) <= UploadConfig.MaxFileSize config ->
  isAllowedFileType config (detectMimeType E filename data) = true ->
  find (mediaRepository.has_hash (calculateHash E data)) (media_files w)
    = Some existing ->
  exists w',
    UploadFile E config (Some data) filename uploaderID req w
      = (Ok {| UploadResult.MediaFile := existing;
               UploadResult.URL :=
                 generateFileURL config (MediaFile.StoragePath existing);
               UploadResult.Message := msg_already_exists |}, w')
    /\ media_files w' = media_files w
    /\ disk w' = disk w
    /\ disk_writes w' = disk_writes w
    /\ media_usages w'
       = if String.eqb (FileUploadRequest.UsageType req) "" then media_usages w
         else (media_usages w
               ++ [MediaUsage.set_ID
                     (MediaUsage.NewMediaUsage (MediaFile.ID existing)
                        (FileUploadRequest.UsageType req)
                        (FileUploadRequest.TargetID req) uploaderID (clock w))
                     (media_usages_seq w + 1)])%list.
Proof.
  intros Hvalid Hsize Hallowed Hfound.
  assert (Hle : (Z.of_nat (length data)
                 >? UploadConfig.MaxFileSize config) = false)
    by (destruct (_ >? _) eqn:Hgt; [apply Z.gtb_lt in Hgt; lia | reflexivity]).
  unfold UploadFile, UploadFile_lookup.
  rewrite Hvalid, Hle, Hallowed. cbn [negb]. run. rewrite Hfound.
  unfold recordUsage.
  destruct (String.eqb (FileUploadRequest.UsageType req) ""); run;
    eexists; repeat split.
Qed.

End IngestionEffects.

(** ** The registry under the services *)

Section RegistryEffects.

Variable E : Env.
Variable config : UploadConfig.t.

Lemma setMetadata_fields m req :
  MediaFile.StoragePath (setMetadata m req) = MediaFile.StoragePath m
  /\ MediaFile.FileSize (setMetadata m req) = MediaFile.FileSize m
  /\ MediaFile.Width (setMetadata m req) = MediaFile.Width m
  /\ MediaFile.Height (setMetadata m req) = MediaFile.Height m
  /\ MediaFile.Status (setMetadata m req) = MediaFile.Status m
  /\ MediaFile.FileType (setMetadata m req) = MediaFile.FileType m
  /\ MediaFile.UploaderID (setMetadata m req) = MediaFile.UploaderID m.
Proof.
  unfold setMetadata.
  destruct (String.eqb (FileUploadRequest.Alt req) "");
    destruct (String.eqb (FileUploadRequest.Caption req) "");
    destruct (FileUploadRequest.IsPublic req); repeat split.
Qed.

Lemma newRecord_fields filename uploaderID req i t :
  let m := newRecord config filename uploaderID req i t in
  MediaFile.StoragePath m = generateStoragePath config filename (hash i) t
  /\ MediaFile.FileSize m = Z.of_nat (length (content i))
  /\ MediaFile.Width m = None
  /\ MediaFile.Height m = None
  /\ MediaFile.Status m = "active"
  /\ MediaFile.FileType m = fileType i
  /\ MediaFile.UploaderID m = Some uploaderID.
Proof.
  unfold newRecord.
  destruct (String.eqb (fileType i) "image"); cbn [getImageDimensions];
    apply setMetadata_fields.
Qed.

(** Recording a usage always succeeds; it appends one usage row for the
    media, unless the request names no usage type, and touches nothing
    else. *)
Lemma recordUsage_full mediaID req uploaderID w :
  exists w',
    recordUsage mediaID req uploaderID w = (Ok tt, w')
    /\ media_files w' = media_files w
    /\ media_files_seq w' = media_files_seq w
    /\ disk w' = disk w
    /\ disk_writes w' = disk_writes w
    /\ media_usages w'
       = if String.eqb (FileUploadRequest.UsageType req) ""
         then media_usages w
         else (media_usages w
               ++ [MediaUsage.set_ID
                     (MediaUsage.NewMediaUsage mediaID
                        (FileUploadRequest.UsageType req)
                        (FileUploadRequest.TargetID req) uploaderID (clock w))
                     (media_usages_seq w + 1)])%list.
Proof.
  unfold recordUsage.
  destruct (String.eqb _ ""); run; eexists; repeat split.
Qed.

(** Every way a call of [UploadFile] can end. *)
Lemma UploadFile_cases file filename uploaderID req w :
  (exists e,
      UploadFile E config file filename uploaderID req w = (Err e, w))
  \/ (exists res w',
         UploadFile E config file filename uploaderID req w = (Ok res, w')
         /\ UploadResult.Message res = msg_already_exists
         /\ In (UploadResult.MediaFile res) (media_files w)
         /\ media_files w' = media_files w
         /\ media_files_seq w' = media_files_seq w
         /\ disk w' = disk w
         /\ disk_writes w' = disk_writes w
         /\ media_usages w'
            = (if String.eqb (FileUploadRequest.UsageType req) ""
               then media_usages w
               else (media_usages w
                     ++ [MediaUsage.set_ID
                           (MediaUsage.NewMediaUsage
                              (MediaFile.ID (UploadResult.MediaFile res))
                              (FileUploadRequest.UsageType req)
                              (FileUploadRequest.TargetID req) uploaderID
                              (clock w))
                           (media_usages_seq w + 1)])%list)
         /\ exists data,
              file = Some data
              /\ MediaFile.Hash (UploadResult.MediaFile res)
                 = calculateHash E data)
  \/ (exists res w' data,
         UploadFile E config file filename uploaderID req w = (Ok res, w')
         /\ file = Some data
         /\ UploadResult.Message res = msg_uploaded
         /\ media_files w' = (media_files w ++ [UploadResult.MediaFile res])%list
         /\ media_files_seq w' = media_files_seq w + 1
         /\ MediaFile.ID (UploadResult.MediaFile res) = media_files_seq w + 1
         /\ existsb (mediaRepository.has_hash
                       (MediaFile.Hash (UploadResult.MediaFile res)))
              (media_files w) = false
         /\ MediaFile.Hash (UploadResult.MediaFile res) = calculateHash E data
         /\ MediaFile.FileSize (UploadResult.MediaFile res)
            = Z.of_nat (length data)
         /\ MediaFile.Width (UploadResult.MediaFile res) = None
         /\ MediaFile.Height (UploadResult.MediaFile res) = None
         /\ MediaFile.Status (UploadResult.MediaFile res) = "active"
         /\ disk w'
            = <[MediaFile.StoragePath (UploadResult.MediaFile res) := data]>
                (disk w)
         /\ media_usages w'
            = (if String.eqb (FileUploadRequest.UsageType req) ""
               then media_usages w
               else (media_usages w
                     ++ [MediaUsage.set_ID
                           (MediaUsage.NewMediaUsage
                              (MediaFile.ID (UploadResult.MediaFile res))
                              (FileUploadRequest.UsageType req)
                              (FileUploadRequest.TargetID req) uploaderID
                              (clock w))
                           (media_usages_seq w + 1)])%list)).
Proof.
  unfold UploadFile, UploadFile_lookup.
  destruct (negb (validator_Validate E req)); [left; eexists; reflexivity |].
  destruct file as [data |]; [| left; eexists; reflexivity].
  destruct (_ >? _); [left; eexists; reflexivity |].
  destruct (negb (isAllowedFileType _ _)); [left; eexists; reflexivity |].
  run.
  destruct (find _ _) as [existing |] eqn:Hfind.
  - right; left.
    match goal with
    | |- context [recordUsage ?a ?b ?c ?d] =>
        destruct (recordUsage_full a b c d)
          as (w1 & -> & Hrows & Hseq & Hdisk & Hlog & Husage)
    end.
    eexists _, w1. split; [reflexivity |].
    cbn [UploadResult.MediaFile UploadResult.Message].
    apply find_some in Hfind as [Hin Hhash].
    unfold mediaRepository.has_hash in Hhash. apply String.eqb_eq in Hhash.
    repeat split; try assumption.
    exists data. split; [reflexivity | exact Hhash].
  - set (i := {| content := data;
                 mimeType := detectMimeType E filename data;
                 fileType := getFileType (detectMimeType E filename data);
                 hash := calculateHash E data |}).
    change (calculateHash E data) with (hash i) in Hfind.
    unfold UploadFile_store. run.
    destruct (fs_writable E _); [| left; eexists; reflexivity].
    right; right.
    cbn [media_files with_disk].
    change (if String.eqb (fileType i) "image" then _ else _)
      with (newRecord config filename uploaderID req i (clock w)).
    rewrite newRecord_Hash, (find_none_existsb _ _ Hfind).
    match goal with
    | |- context [recordUsage ?a ?b ?c ?d] =>
        destruct (recordUsage_full a b c d)
          as (w1 & -> & Hrows & Hseq & Hdisk & Hlog & Husage)
    end.
    destruct (newRecord_fields filename uploaderID req i (clock w))
      as (Hpath & Hsize & Hwidth & Hheight & Hstatus & _ & _).
    eexists _, w1, data. split; [reflexivity |].
    cbn [UploadResult.MediaFile UploadResult.Message MediaFile.set_ID
         MediaFile.ID MediaFile.Hash MediaFile.FileSize MediaFile.Width
         MediaFile.Height MediaFile.Status MediaFile.StoragePath].
    rewrite newRecord_Hash, Hsize, Hwidth, Hheight, Hstatus, Hpath.
    rewrite (find_none_existsb _ _ Hfind).
    repeat split; assumption.
Qed.


(** Every way a call of [ProcessImage] can end, as far as the tables go. *)
Lemma ProcessImage_effect req w :
  (exists e,
      fst (ProcessImage E config req w) = Err e
      /\ media_files (snd (ProcessImage E config req w)) = media_files w
      /\ media_files_seq (snd (ProcessImage E config req w))
         = media_files_seq w)
  \/ (exists r bytes,
         fst (ProcessImage E config req w) = Ok r
         /\ media_files (snd (ProcessImage E config req w))
            = (media_files w ++ [ProcessResult.MediaFile r])%list
         /\ media_files_seq (snd (ProcessImage E config req w))
            = media_files_seq w + 1
         /\ MediaFile.ID (ProcessResult.MediaFile r) = media_files_seq w + 1
         /\ existsb (mediaRepository.has_hash
                       (MediaFile.Hash (ProcessResult.MediaFile r)))
              (media_files w) = false
         /\ disk (snd (ProcessImage E config req w))
            = <[MediaFile.StoragePath (ProcessResult.MediaFile r) := bytes]>
                (disk w)).
Proof.
  unfold ProcessImage. run.
  destruct (find _ _) as [media |]; [| left; eexists; repeat split].
  destruct (MediaFile.IsImage media); cbn [negb];
    [| left; eexists; repeat split].
  destruct (disk w !! MediaFile.StoragePath media) as [bytes |];
    [| left; eexists; repeat split].
  destruct (image_Decode E bytes) as [[img format] |];
    [| left; eexists; repeat split].
  destruct (applyProcess req img format) as [[[processedImg | e] format'] | e];
    try (left; eexists; repeat split; fail).
  unfold saveProcessedImage. run.
  destruct (fs_writable E _); [| left; eexists; repeat split].
  match goal with
  | |- context [match ?enc with Ok _ => _ | Err _ => _ end] =>
      destruct enc as [encoded | e]; [| left; eexists; repeat split]
  end.
  cbn [media_files media_files_seq clock with_disk disk].
  destruct (existsb _ _) eqn:Hex; [left; eexists; repeat split |].
  right. exists
    {| ProcessResult.MediaFile :=
         MediaFile.set_ID
           (processedRecord media req processedImg
              (generateProcessedImagePath (MediaFile.StoragePath media)
                 (ProcessRequest.ProcessType req)
                 (if String.eqb (ProcessRequest.OutputFormat req) ""
                  then format' else ProcessRequest.OutputFormat req))
              (if String.eqb (ProcessRequest.OutputFormat req) ""
               then format' else ProcessRequest.OutputFormat req) (clock w))
           (media_files_seq w + 1);
       ProcessResult.URL :=
         generateFileURL config
           (generateProcessedImagePath (MediaFile.StoragePath media)
              (ProcessRequest.ProcessType req)
              (if String.eqb (ProcessRequest.OutputFormat req) ""
               then format' else ProcessRequest.OutputFormat req));
       ProcessResult.Message := msg_processed |}, encoded.
  cbn [fst snd media_files media_files_seq with_media_files disk
       ProcessResult.MediaFile MediaFile.set_ID MediaFile.ID MediaFile.Hash
       MediaFile.StoragePath].
  repeat split; try assumption.
  cbn. apply insert_insert_eq.
Qed.

End RegistryEffects.

(** ** Well-formed registries are kept *)

Section RegistryInvariant.

Lemma registry_ok_same (w w' : World) :
  registry_ok w ->
  media_files w' = media_files w ->
  media_files_seq w' = media_files_seq w ->
  registry_ok w'.
Proof. unfold registry_ok. intros H -> ->. exact H. Qed.

Lemma registry_ok_snoc (w w' : World) (row : MediaFile.t) :
  registry_ok w ->
  media_files w' = (media_files w ++ [row])%list ->
  media_files_seq w' = media_files_seq w + 1 ->
  MediaFile.ID row = media_files_seq w + 1 ->
  existsb (mediaRepository.has_hash (MediaFile.Hash row)) (media_files w)
    = false ->
  registry_ok w'.
Proof.
  unfold registry_ok. intros (Hids & Hseq & Hrange & Hhashes) -> -> Hid Hfresh.
  rewrite !map_app. cbn [map]. repeat split.
  - apply NoDup_app. repeat split; [exact Hids | | apply NoDup_singleton].
    intros id Hin Hin'. apply list_elem_of_singleton in Hin'. subst id.
    apply list_elem_of_fmap in Hin as (other & Heq & Hother).
    rewrite Forall_forall in Hrange. specialize (Hrange other Hother).
    cbn beta in Hrange. lia.
  - lia.
  - apply Forall_app. split.
    + eapply Forall_impl; [exact Hrange |]. cbn. intros m Hm. lia.
    + apply Forall_cons_2; [lia | apply Forall_nil_2].
  - apply NoDup_app. repeat split; [exact Hhashes | | apply NoDup_singleton].
    intros h Hin Hin'. apply list_elem_of_singleton in Hin'. subst h.
    apply list_elem_of_fmap in Hin as (other & Heq & Hother).
    assert (existsb (mediaRepository.has_hash (MediaFile.Hash row))
              (media_files w) = true) as Htrue.
    { apply existsb_exists. exists other. split.
      - apply list_elem_of_In. exact Hother.
      - unfold mediaRepository.has_hash. rewrite <- Heq. apply String.eqb_refl. }
    congruence.
Qed.

Lemma find_map_keeping {A} (p : A -> bool) (f : A -> A) (l : list A) :
  (forall x, p (f x) = p x) ->
  find p (map f l) = option_map f (find p l).
Proof.
  intros Hp. induction l as [| x l IH]; cbn; [reflexivity |].
  rewrite Hp. destruct (p x); [reflexivity | exact IH].
Qed.

Lemma find_filter_out {A} (p q : A -> bool) (l : list A) :
  (forall x, p x = true -> q x = false) ->
  find p (List.filter q l) = None.
Proof.
  intros Hpq. induction l as [| x l IH]; cbn; [reflexivity |].
  destruct (q x) eqn:Hq; [| exact IH].
  cbn. destruct (p x) eqn:Hp; [| exact IH].
  rewrite (Hpq x Hp) in Hq. discriminate.
Qed.

Lemma find_filter_kept {A} (p q : A -> bool) (l : list A) :
  (forall x, p x = true -> q x = true) ->
  find p (List.filter q l) = find p l.
Proof.
  intros Hpq. induction l as [| x l IH]; cbn; [reflexivity |].
  destruct (q x) eqn:Hq; cbn.
  - destruct (p x); [reflexivity | exact IH].
  - destruct (p x) eqn:Hp; [| exact IH].
    rewrite (Hpq x Hp) in Hq. discriminate.
Qed.

Lemma registry_ok_filter (w w' : World) (q : MediaFile.t -> bool) :
  registry_ok w ->
  media_files w' = List.filter q (media_files w) ->
  media_files_seq w' = media_files_seq w ->
  registry_ok w'.
Proof.
  unfold registry_ok. intros (Hids & Hseq & Hrange & Hhashes) -> ->.
  split; [| split; [exact Hseq |]]; revert Hids Hrange Hhashes.
  - intros Hids _ _.
    induction (media_files w) as [| m rows IH]; cbn; [constructor |].
    cbn in Hids. apply NoDup_cons in Hids as [Hid Hids].
    destruct (q m); [| exact (IH Hids)].
    cbn. apply NoDup_cons. split; [| exact (IH Hids)].
    intros Hin. apply Hid. apply list_elem_of_fmap in Hin as (x & -> & Hx).
    apply list_elem_of_fmap. exists x. split; [reflexivity |].
    apply list_elem_of_In in Hx. apply filter_In in Hx as [Hx _].
    apply list_elem_of_In. exact Hx.
  - intros _ Hrange Hhashes. split.
    + induction (media_files w) as [| m rows IH]; cbn; [constructor |].
      apply Forall_cons_1 in Hrange as [Hm Hrange].
      cbn in Hhashes. apply NoDup_cons in Hhashes as [_ Hhashes].
      destruct (q m); [apply Forall_cons_2; [exact Hm |] |]; auto.
    + clear Hrange.
      induction (media_files w) as [| m rows IH]; cbn; [constructor |].
      cbn in Hhashes. apply NoDup_cons in Hhashes as [Hh Hhashes].
      destruct (q m); [| exact (IH Hhashes)].
      cbn. apply NoDup_cons. split; [| exact (IH Hhashes)].
      intros Hin. apply Hh. apply list_elem_of_fmap in Hin as (x & -> & Hx).
      apply list_elem_of_fmap. exists x. split; [reflexivity |].
      apply list_elem_of_In in Hx. apply filter_In in Hx as [Hx _].
      apply list_elem_of_In. exact Hx.
Qed.

Lemma registry_ok_set_status (id : Z) (status : string) (w : World) :
  registry_ok w -> registry_ok (snd (mediaRepository.set_status id status w)).
Proof.
  unfold registry_ok, mediaRepository.set_status.
  cbn [snd media_files media_files_seq with_media_files].
  intros (Hids & Hseq & Hrange & Hhashes).
  rewrite !map_map.
  assert (Hid : map (fun r => MediaFile.ID
                        (if mediaRepository.has_id id r
                         then MediaFile.set_UpdatedAt
                                (MediaFile.set_Status r status) (clock w)
                         else r)) (media_files w)
                = map MediaFile.ID (media_files w)).
  { apply map_ext. intros r. destruct (mediaRepository.has_id id r);
      reflexivity. }
  assert (Hh : map (fun r => MediaFile.Hash
                       (if mediaRepository.has_id id r
                        then MediaFile.set_UpdatedAt
                               (MediaFile.set_Status r status) (clock w)
                        else r)) (media_files w)
               = map MediaFile.Hash (media_files w)).
  { apply map_ext. intros r. destruct (mediaRepository.has_id id r);
      reflexivity. }
  rewrite Hid, Hh. repeat split; try assumption.
  apply Forall_map. eapply Forall_impl; [exact Hrange |].
  intros r Hr. destruct (mediaRepository.has_id id r); exact Hr.
Qed.

End RegistryInvariant.

Section RegistryTheorems.

Variable E : Env.
Variable config : UploadConfig.t.

(** X3. A well-formed registry (distinct positive keys not above the
    counter, distinct fingerprints) stays well-formed under every call of
    [UploadFile], [ProcessImage], [DeleteMedia] and [UpdateMedia], and under
    the repository's [Create], [Delete], [SoftDelete] and [Restore],
    whether the call succeeds or fails. *)
Theorem registry_ok_is_kept (w : World) :
  registry_ok w ->
  (forall file filename uploaderID req,
      registry_ok (snd (UploadFile E config file filename uploaderID req w)))
  /\ (forall req, registry_ok (snd (ProcessImage E config req w)))
  /\ (forall id userID, registry_ok (snd (DeleteMedia id userID w)))
  /\ (forall id req userID, registry_ok (snd (UpdateMedia id req userID w)))
  /\ (forall media, registry_ok (snd (mediaRepository.Create media w)))
  /\ (forall id, registry_ok (snd (mediaRepository.Delete id w)))
  /\ (forall id, registry_ok (snd (mediaRepository.SoftDelete id w)))
  /\ (forall id, registry_ok (snd (mediaRepository.Restore id w))).
Proof.
  intros Hok.
  refine (conj _ (conj _ (conj _ (conj _ (conj _ (conj _ (conj _ _))))))).
  - intros file filename uploaderID req.
    destruct (UploadFile_cases E config file filename uploaderID req w)
      as [(e & ->) | [(res & w' & -> & _ & _ & Hrows & Hseq & _)
                     | (res & w' & data & -> & _ & _ & Hrows & Hseq & Hid
                        & Hfresh & _)]]; cbn [snd].
    + exact Hok.
    + exact (registry_ok_same w w' Hok Hrows Hseq).
    + exact (registry_ok_snoc w w' _ Hok Hrows Hseq Hid Hfresh).
  - intros req.
    destruct (ProcessImage_effect E config req w)
      as [(e & _ & Hrows & Hseq)
         | (r & bytes & _ & Hrows & Hseq & Hid & Hfresh & _)].
    + exact (registry_ok_same w _ Hok Hrows Hseq).
    + exact (registry_ok_snoc w _ _ Hok Hrows Hseq Hid Hfresh).
  - intros id userID. rewrite DeleteMedia_world. exact Hok.
  - intros id req userID. rewrite UpdateMedia_world. exact Hok.
  - intros media. unfold mediaRepository.Create.
    destruct (existsb _ _) eqn:Hfresh; cbn [snd]; [exact Hok |].
    eapply registry_ok_snoc; [exact Hok | reflexivity .. | exact Hfresh].
  - intros id.
    eapply registry_ok_filter; [exact Hok | reflexivity | reflexivity].
  - intros id. apply registry_ok_set_status, Hok.
  - intros id. apply registry_ok_set_status, Hok.
Qed.

(** X4. In a well-formed registry a successful [Create] can be read back:
    [GetByID] on the new key and [GetByHash] on the record's fingerprint both
    return the new row, and every row that [GetByID] found before is still
    found under its key. *)
Theorem Create_then_lookup (media row : MediaFile.t) (w w' : World) :
  registry_ok w ->
  mediaRepository.Create media w = (Ok row, w') ->
  mediaRepository.GetByID (MediaFile.ID row) w' = (Ok row, w')
  /\ mediaRepository.GetByHash (MediaFile.Hash media) w' = (Ok (Some row), w')
  /\ (forall id m,
        mediaRepository.GetByID id w = (Ok m, w) ->
        mediaRepository.GetByID id w' = (Ok m, w')).
Proof.
  intros (Hids & Hseq & Hrange & Hhashes). unfold mediaRepository.Create.
  destruct (existsb _ _) eqn:Hfresh; [discriminate |].
  intros [= <- <-].
  unfold mediaRepository.GetByID, mediaRepository.GetByHash.
  cbn [media_files with_media_files MediaFile.ID MediaFile.set_ID].
  repeat split.
  - rewrite find_snoc_fresh; [reflexivity | |].
    + destruct (find _ (media_files w)) as [other |] eqn:Hfind;
        [| reflexivity].
      apply find_some in Hfind as [Hin Hid].
      unfold mediaRepository.has_id in Hid. apply Z.eqb_eq in Hid.
      rewrite Forall_forall in Hrange.
      apply list_elem_of_In in Hin. specialize (Hrange other Hin).
      cbn beta in Hrange. lia.
    + unfold mediaRepository.has_id. cbn [MediaFile.ID]. apply Z.eqb_refl.
  - rewrite find_snoc_fresh; [reflexivity | |].
    + destruct (find _ (media_files w)) as [other |] eqn:Hfind;
        [| reflexivity].
      apply find_some_existsb in Hfind. congruence.
    + unfold mediaRepository.has_hash. cbn [MediaFile.Hash].
      apply String.eqb_refl.
  - intros id m.
    destruct (find (mediaRepository.has_id id) (media_files w)) as [m' |]
      eqn:Hfind; [| discriminate].
    intros [= <-].
    assert (Hlater : find (mediaRepository.has_id id)
                       (media_files w ++ [MediaFile.set_ID media
                                            (media_files_seq w + 1)])
                     = Some m').
    { clear - Hfind. induction (media_files w) as [| x l IH]; cbn in *;
        [discriminate |].
      destruct (mediaRepository.has_id id x); [exact Hfind | auto]. }
    rewrite Hlater. reflexivity.
Qed.


Lemma GetByID_set_status (id : Z) (status : string) (w : World)
    (m : MediaFile.t) :
  mediaRepository.GetByID id w = (Ok m, w) ->
  mediaRepository.GetByID id (snd (mediaRepository.set_status id status w))
  = (Ok (MediaFile.set_UpdatedAt (MediaFile.set_Status m status) (clock w)),
     snd (mediaRepository.set_status id status w)).
Proof.
  unfold mediaRepository.GetByID, mediaRepository.set_status.
  destruct (find (mediaRepository.has_id id) (media_files w)) as [m' |]
    eqn:Hfind; [| discriminate].
  intros [= ->].
  cbn [snd media_files with_media_files].
  rewrite find_map_keeping, Hfind.
  - cbn [option_map]. apply find_some in Hfind as [_ Hid].
    rewrite Hid. reflexivity.
  - intros x. destruct (mediaRepository.has_id id x) eqn:Hx; exact Hx.
Qed.

(** X6. A soft delete keeps the row readable: after [SoftDelete] the row is
    still returned by [GetByID], with status [deleted]; after [Restore] it
    is returned with status [active]; apart from the status and the update
    stamp the row is the one that was stored, and files and usage records
    are untouched. *)
Theorem SoftDelete_then_Restore (id : Z) (w : World) (m : MediaFile.t) :
  mediaRepository.GetByID id w = (Ok m, w) ->
  let w1 := snd (mediaRepository.SoftDelete id w) in
  let w2 := snd (mediaRepository.Restore id w1) in
  mediaRepository.GetByID id w1
  = (Ok (MediaFile.set_UpdatedAt (MediaFile.set_Status m "deleted") (clock w)),
     w1)
  /\ mediaRepository.GetByID id w2
     = (Ok (MediaFile.set_UpdatedAt (MediaFile.set_Status m "active")
              (clock w)), w2)
  /\ disk w2 = disk w
  /\ media_usages w2 = media_usages w
  /\ length (media_files w2) = length (media_files w).
Proof.
  intros Hget w1 w2.
  pose proof (GetByID_set_status id "deleted" w m Hget) as H1.
  fold (mediaRepository.SoftDelete id) in H1. fold w1 in H1.
  pose proof (GetByID_set_status id "active" w1 _ H1) as H2.
  fold (mediaRepository.Restore id) in H2. fold w2 in H2.
  repeat split.
  - exact H1.
  - exact H2.
  - unfold w2, w1, mediaRepository.Restore, mediaRepository.SoftDelete,
      mediaRepository.set_status. cbn. rewrite !length_map. reflexivity.
Qed.

(** X7. After [Delete] the key is gone: [GetByID] answers that the media
    file does not exist, while every other key gives what it gave before. *)
Theorem Delete_then_GetByID (id : Z) (w : World) :
  fst (mediaRepository.GetByID id (snd (mediaRepository.Delete id w)))
  = Err MediaNotFound
  /\ (forall other,
        other <> id ->
        fst (mediaRepository.GetByID other (snd (mediaRepository.Delete id w)))
        = fst (mediaRepository.GetByID other w)).
Proof.
  unfold mediaRepository.GetByID, mediaRepository.Delete.
  cbn [snd media_files with_media_files]. split.
  - rewrite find_filter_out; [reflexivity |].
    intros x Hx. rewrite Hx. reflexivity.
  - intros other Hne. rewrite find_filter_kept.
    + destruct (find _ _); reflexivity.
    + intros x Hx. unfold mediaRepository.has_id in *.
      apply Z.eqb_eq in Hx. apply negb_true_iff, Z.eqb_neq. lia.
Qed.

End RegistryTheorems.

(** ** Reading a media file *)

Section Visibility.

(** X8. For an existing media file, [GetMediaByID] returns the row exactly
    when the file is public or the caller is its uploader, and the
    no-permission error otherwise; a private file without uploader is
    returned to nobody.  The status of the row is not looked at, and the
    world is never changed. *)
Theorem GetMediaByID_visibility (id : Z) (userID : option Z) (w : World)
    (media : MediaFile.t) :
  mediaRepository.GetByID id w = (Ok media, w) ->
  let visible :=
    MediaFile.IsPublic media = true
    \/ exists u, userID = Some u /\ MediaFile.UploaderID media = Some u in
  (visible -> GetMediaByID id userID w = (Ok media, w))
  /\ (~ visible -> GetMediaByID id userID w = (Err NoPermissionToAccess, w))
  /\ (MediaFile.IsPublic media = false -> MediaFile.UploaderID media = None ->
      GetMediaByID id userID w = (Err NoPermissionToAccess, w)).
Proof.
  intros Hget visible. unfold GetMediaByID, bind, try. rewrite Hget.
  subst visible. repeat split.
  - intros [Hpub | (u & -> & Hup)].
    + rewrite Hpub. reflexivity.
    + rewrite Hup, Z.eqb_refl, andb_false_r. reflexivity.
  - intros Hnot.
    destruct (MediaFile.IsPublic media); [exfalso; apply Hnot; left; reflexivity |].
    destruct userID as [u |], (MediaFile.UploaderID media) as [up |];
      try reflexivity.
    destruct (Z.eqb_spec u up) as [-> | Hne]; [| reflexivity].
    exfalso. apply Hnot. right. exists up. split; reflexivity.
  - intros -> ->. destruct userID; reflexivity.
Qed.

(** X9. A soft-deleted file stays readable: after [SoftDelete], [GetMediaByID]
    still returns a public file to every caller, now with status
    [deleted]. *)
Theorem GetMediaByID_after_SoftDelete (id : Z) (userID : option Z) (w : World)
    (media : MediaFile.t) :
  mediaRepository.GetByID id w = (Ok media, w) ->
  MediaFile.IsPublic media = true ->
  exists served,
    fst (GetMediaByID id userID (snd (mediaRepository.SoftDelete id w)))
    = Ok served
    /\ MediaFile.Status served = "deleted"
    /\ MediaFile.ID served = MediaFile.ID media
    /\ MediaFile.StoragePath served = MediaFile.StoragePath media.
Proof.
  intros Hget Hpub.
  pose proof (GetByID_set_status id "deleted" w media Hget) as Hdel.
  fold (mediaRepository.SoftDelete id) in Hdel.
  unfold GetMediaByID, bind, try. rewrite Hdel.
  cbn [MediaFile.IsPublic MediaFile.set_UpdatedAt MediaFile.set_Status].
  rewrite Hpub. cbn. eexists. repeat split.
Qed.

End Visibility.

(** ** Statistics *)

Section Statistics.

Lemma group_count_step (ft ft' : string) (g : list (string * Z)) :
  group_count ft (mediaRepository.count_in_group ft' g)
  = group_count ft g + (if String.eqb ft' ft then 1 else 0).
Proof.
  unfold group_count. induction g as [| [k n] g IH].
  - cbn. destruct (String.eqb ft' ft); reflexivity.
  - cbn [mediaRepository.count_in_group].
    destruct (String.eqb_spec k ft') as [-> | Hne]; cbn [find fst snd].
    + destruct (String.eqb ft' ft); cbn [snd]; lia.
    + destruct (String.eqb_spec k ft) as [-> | Hne']; cbn [snd].
      * destruct (String.eqb_spec ft' ft) as [-> | _]; [congruence | lia].
      * exact IH.
Qed.

Lemma sum_other_step (ft' : string) (g : list (string * Z)) :
  sum_counts (List.filter other_key (mediaRepository.count_in_group ft' g))
  = sum_counts (List.filter other_key g)
    + (if other_name ft' then 1 else 0).
Proof.
  unfold sum_counts, other_key. induction g as [| [k n] g IH].
  - cbn. destruct (other_name ft'); reflexivity.
  - cbn [mediaRepository.count_in_group].
    destruct (String.eqb_spec k ft') as [-> | Hne];
      cbn [List.filter fst].
    + destruct (other_name ft'); cbn [map snd fold_right]; lia.
    + destruct (other_name k); cbn [map snd fold_right]; rewrite IH; lia.
Qed.

Lemma keys_of_step (ft' k : string) (g : list (string * Z)) :
  In k (map fst (mediaRepository.count_in_group ft' g)) ->
  k = ft' \/ In k (map fst g).
Proof.
  induction g as [| [k0 n] g IH]; cbn [mediaRepository.count_in_group].
  - cbn. intros [<- | []]. left. reflexivity.
  - destruct (String.eqb k0 ft'); cbn [map fst In].
    + intros H. right. exact H.
    + intros [<- | H]; [right; left; reflexivity |].
      destruct (IH H) as [-> | Hin]; [left; reflexivity | right; right; exact Hin].
Qed.

Lemma keys_step (ft' : string) (g : list (string * Z)) :
  List.NoDup (map fst g) ->
  List.NoDup (map fst (mediaRepository.count_in_group ft' g)).
Proof.
  induction g as [| [k0 n] g IH]; cbn [mediaRepository.count_in_group].
  - intros _. cbn. constructor; [intros [] | constructor].
  - cbn [map fst]. intros Hnodup.
    apply List.NoDup_cons_iff in Hnodup as [Hnotin Hnodup].
    destruct (String.eqb_spec k0 ft') as [-> | Hne]; cbn [map fst].
    + constructor; assumption.
    + constructor; [| exact (IH Hnodup)].
      intros Hin. apply keys_of_step in Hin as [-> | Hin];
        [congruence | exact (Hnotin Hin)].
Qed.

(** The grouped counts of a table: distinct file types, each with the number
    of its rows. *)
Lemma group_by_file_type_spec (rows : list MediaFile.t) :
  List.NoDup (map fst (mediaRepository.group_by_file_type rows))
  /\ (forall ft,
        group_count ft (mediaRepository.group_by_file_type rows)
        = Z.of_nat (length (List.filter (of_type ft) rows)))
  /\ sum_counts (List.filter other_key
                   (mediaRepository.group_by_file_type rows))
     = Z.of_nat (length (List.filter of_other_type rows)).
Proof.
  unfold mediaRepository.group_by_file_type.
  assert (Hgen : forall g0,
            List.NoDup (map fst g0) ->
            let g := fold_left
                       (fun groups m =>
                          mediaRepository.count_in_group
                            (MediaFile.FileType m) groups) rows g0 in
            List.NoDup (map fst g)
            /\ (forall ft,
                  group_count ft g
                  = group_count ft g0
                    + Z.of_nat (length (List.filter (of_type ft) rows)))
            /\ sum_counts (List.filter other_key g)
               = sum_counts (List.filter other_key g0)
                 + Z.of_nat (length (List.filter of_other_type rows))).
  { induction rows as [| m rows IH]; intros g0 Hg0.
    - cbn [fold_left List.filter length].
      repeat split;
        [exact Hg0 | intros; symmetry; apply Z.add_0_r
        | symmetry; apply Z.add_0_r].
    - cbn [fold_left].
      destruct (IH _ (keys_step (MediaFile.FileType m) g0 Hg0))
        as (Hnodup & Hcount & Hother).
      repeat split; [exact Hnodup | |].
      + intros ft. rewrite Hcount, group_count_step.
        cbn [List.filter]. unfold of_type at 2.
        destruct (String.eqb (MediaFile.FileType m) ft); cbn [length]; lia.
      + rewrite Hother, sum_other_step.
        cbn [List.filter]. unfold of_other_type at 2, of_type, other_name.
        destruct (negb (String.eqb (MediaFile.FileType m) "image")
                  && negb (String.eqb (MediaFile.FileType m) "video")
                  && negb (String.eqb (MediaFile.FileType m) "document"));
          cbn [length]; lia. }
  destruct (Hgen [] (List.NoDup_nil _)) as (Hnodup & Hcount & Hother).
  repeat split; [exact Hnodup | | exact Hother].
  intros ft. rewrite Hcount. reflexivity.
Qed.

Lemma find_key_absent (k : string) (g : list (string * Z)) :
  ~ In k (map fst g) -> find (fun kv => String.eqb (fst kv) k) g = None.
Proof.
  induction g as [| [k0 n] g IH]; cbn; [reflexivity |].
  intros Hnotin. destruct (String.eqb_spec k0 k) as [-> | Hne].
  - exfalso. apply Hnotin. left. reflexivity.
  - apply IH. intros Hin. apply Hnotin. right. exact Hin.
Qed.

(** The loop over distinct groups: each of the three named counters ends as
    the count of its group (or stays), the rest is summed into
    [OtherCount]. *)
Lemma tally_fold (g : list (string * Z)) (s : mediaRepository.MediaStats) :
  List.NoDup (map fst g) ->
  let s' := fold_left mediaRepository.tally g s in
  let pick ft (old : Z) :=
    match find (fun kv => String.eqb (fst kv) ft) g with
    | Some kv => snd kv
    | None => old
    end in
  mediaRepository.TotalCount s' = mediaRepository.TotalCount s
  /\ mediaRepository.TotalSize s' = mediaRepository.TotalSize s
  /\ mediaRepository.ImageCount s'
     = pick "image" (mediaRepository.ImageCount s)
  /\ mediaRepository.VideoCount s'
     = pick "video" (mediaRepository.VideoCount s)
  /\ mediaRepository.DocumentCount s'
     = pick "document" (mediaRepository.DocumentCount s)
  /\ mediaRepository.OtherCount s'
     = mediaRepository.OtherCount s + sum_counts (List.filter other_key g).
Proof.
  revert s. induction g as [| [k n] g IH]; intros s Hnodup.
  - cbn. repeat split. lia.
  - cbn [map fst] in Hnodup.
    apply List.NoDup_cons_iff in Hnodup as [Hnotin Hnodup].
    cbn [fold_left]. cbv zeta.
    destruct (IH (mediaRepository.tally s (k, n)) Hnodup)
      as (H1 & H2 & H3 & H4 & H5 & H6).
    rewrite H1, H2, H3, H4, H5, H6. clear H1 H2 H3 H4 H5 H6 IH.
    unfold sum_counts, other_key, other_name.
    cbn [find List.filter fst snd mediaRepository.tally].
    destruct (String.eqb_spec k "image") as [-> | Himage].
    { rewrite (find_key_absent _ _ Hnotin). cbn. repeat split. }
    destruct (String.eqb_spec k "video") as [-> | Hvideo].
    { rewrite (find_key_absent _ _ Hnotin). cbn. repeat split. }
    destruct (String.eqb_spec k "document") as [-> | Hdocument].
    { rewrite (find_key_absent _ _ Hnotin). cbn. repeat split. }
    cbn. repeat split. lia.
Qed.

(** The counters computed over a list of selected rows: the number of rows,
    the sum of their sizes, the numbers of rows by file type; the four counts
    by type add up to the total. *)
Lemma stats_of_counts (rows : list MediaFile.t) :
  let s := mediaRepository.stats_of rows in
  mediaRepository.TotalCount s = Z.of_nat (length rows)
  /\ mediaRepository.TotalSize s
     = fold_right Z.add 0 (map MediaFile.FileSize rows)
  /\ mediaRepository.ImageCount s
     = Z.of_nat (length (List.filter (of_type "image") rows))
  /\ mediaRepository.VideoCount s
     = Z.of_nat (length (List.filter (of_type "video") rows))
  /\ mediaRepository.DocumentCount s
     = Z.of_nat (length (List.filter (of_type "document") rows))
  /\ mediaRepository.OtherCount s
     = Z.of_nat (length (List.filter of_other_type rows))
  /\ mediaRepository.ImageCount s + mediaRepository.VideoCount s
     + mediaRepository.DocumentCount s + mediaRepository.OtherCount s
     = mediaRepository.TotalCount s.
Proof.
  intros s. subst s. unfold mediaRepository.stats_of.
  destruct (group_by_file_type_spec rows) as (Hnodup & Hcount & Hother).
  match goal with
  | |- context [fold_left mediaRepository.tally ?g ?s0] =>
      destruct (tally_fold g s0 Hnodup) as (H1 & H2 & H3 & H4 & H5 & H6)
  end.
  rewrite H1, H2, H3, H4, H5, H6.
  cbn [mediaRepository.TotalCount mediaRepository.TotalSize
       mediaRepository.ImageCount mediaRepository.VideoCount
       mediaRepository.DocumentCount mediaRepository.OtherCount].
  pose proof (Hcount "image") as Hi. pose proof (Hcount "video") as Hv.
  pose proof (Hcount "document") as Hd. unfold group_count in Hi, Hv, Hd.
  rewrite Hi, Hv, Hd, Hother.
  assert (Hpart : Z.of_nat (length (List.filter (of_type "image") rows))
                  + Z.of_nat (length (List.filter (of_type "video") rows))
                  + Z.of_nat (length (List.filter (of_type "document") rows))
                  + Z.of_nat (length (List.filter of_other_type rows))
                  = Z.of_nat (length rows)).
  { clear. induction rows as [| m rows IH]; [reflexivity |].
    cbn [List.filter]. unfold of_other_type at 1.
    destruct (of_type "image" m) eqn:Ei; destruct (of_type "video" m) eqn:Ev;
      destruct (of_type "document" m) eqn:Ed; cbn [negb andb length];
      unfold of_type in Ei, Ev, Ed;
      try apply String.eqb_eq in Ei; try apply String.eqb_eq in Ev;
      try apply String.eqb_eq in Ed; try congruence; lia. }
  repeat split; try reflexivity. lia.
Qed.


Lemma filter_and_length {A} (f g : A -> bool) (l : list A) :
  (length (List.filter (fun x => f x && g x) l)
   <= length (List.filter g l))%nat.
Proof.
  induction l as [| x l IH]; [reflexivity |].
  cbn [List.filter]. destruct (f x), (g x); cbn [andb length]; lia.
Qed.

Lemma filter_filter_and {A} (f g : A -> bool) (l : list A) :
  List.filter f (List.filter g l) = List.filter (fun x => g x && f x) l.
Proof.
  induction l as [| x l IH]; [reflexivity |].
  cbn [List.filter]. destruct (g x); cbn [andb List.filter];
    [destruct (f x) |]; rewrite IH; reflexivity.
Qed.

(** X10. [GetStats], and [GetMediaStats] without uploader, count the active
    rows and only them: [TotalCount] is their number, [TotalSize] the sum of
    their sizes, [ImageCount], [VideoCount] and [DocumentCount] the numbers
    of active rows of these file types and [OtherCount] the number of active
    rows of any other type; the four counts by type add up to [TotalCount];
    the world is not changed. *)
Theorem GetStats_counts_active_rows (w : World) :
  let rows := List.filter MediaFile.IsActive (media_files w) in
  exists s,
    mediaRepository.GetStats w = (Ok s, w)
    /\ GetMediaStats None w = (Ok s, w)
    /\ mediaRepository.TotalCount s = Z.of_nat (length rows)
    /\ mediaRepository.TotalSize s
       = fold_right Z.add 0 (map MediaFile.FileSize rows)
    /\ mediaRepository.ImageCount s
       = Z.of_nat (length (List.filter (of_type "image") rows))
    /\ mediaRepository.VideoCount s
       = Z.of_nat (length (List.filter (of_type "video") rows))
    /\ mediaRepository.DocumentCount s
       = Z.of_nat (length (List.filter (of_type "document") rows))
    /\ mediaRepository.OtherCount s
       = Z.of_nat (length (List.filter of_other_type rows))
    /\ mediaRepository.ImageCount s + mediaRepository.VideoCount s
       + mediaRepository.DocumentCount s + mediaRepository.OtherCount s
       = mediaRepository.TotalCount s.
Proof.
  intros rows. eexists. split; [reflexivity |]. split; [reflexivity |].
  exact (stats_of_counts rows).
Qed.

(** X11. [GetUploaderStats], and [GetMediaStats] for an uploader, count the
    active rows of the one uploader: a row of another uploader, a row
    without uploader and a deleted row count nowhere; its counts by type add
    up to its total, and its total never exceeds the total of [GetStats]. *)
Theorem GetUploaderStats_within_GetStats (uploaderID : Z) (w : World) :
  let mine m := match MediaFile.UploaderID m with
                | Some up => Z.eqb up uploaderID
                | None => false
                end in
  let rows := List.filter mine
                (List.filter MediaFile.IsActive (media_files w)) in
  exists s total,
    mediaRepository.GetUploaderStats uploaderID w = (Ok s, w)
    /\ GetMediaStats (Some uploaderID) w = (Ok s, w)
    /\ mediaRepository.GetStats w = (Ok total, w)
    /\ mediaRepository.TotalCount s = Z.of_nat (length rows)
    /\ mediaRepository.TotalSize s
       = fold_right Z.add 0 (map MediaFile.FileSize rows)
    /\ mediaRepository.ImageCount s + mediaRepository.VideoCount s
       + mediaRepository.DocumentCount s + mediaRepository.OtherCount s
       = mediaRepository.TotalCount s
    /\ 0 <= mediaRepository.TotalCount s
       <= mediaRepository.TotalCount total.
Proof.
  intros mine rows. eexists _, _.
  split; [reflexivity |]. split; [reflexivity |]. split; [reflexivity |].
  assert (Hrows : List.filter
                    (fun m => match MediaFile.UploaderID m with
                              | Some up => Z.eqb up uploaderID
                              | None => false
                              end && MediaFile.IsActive m) (media_files w)
                  = rows).
  { subst rows mine. rewrite filter_filter_and.
    apply List.filter_ext. intros m. apply andb_comm. }
  rewrite Hrows.
  destruct (stats_of_counts rows) as (Hn & Hsize & _ & _ & _ & _ & Hsum).
  destruct (stats_of_counts (List.filter MediaFile.IsActive (media_files w)))
    as (Hall & _).
  cbv zeta in Hn, Hsize, Hsum, Hall.
  rewrite Hsum, Hn, Hsize, Hall.
  repeat split; try lia.
  apply Nat2Z.inj_le. subst rows. rewrite filter_filter_and.
  rewrite <- (List.filter_ext _ _ (fun m => andb_comm (mine m) _)).
  apply filter_and_length.
Qed.

Lemma sum_sizes_app (l l' : list MediaFile.t) :
  fold_right Z.add 0 (map MediaFile.FileSize (l ++ l'))
  = fold_right Z.add 0 (map MediaFile.FileSize l)
    + fold_right Z.add 0 (map MediaFile.FileSize l').
Proof.
  induction l as [| m l IH]; cbn [app map fold_right]; [reflexivity |].
  rewrite IH. lia.
Qed.

End Statistics.

Section StatisticsOfUploads.

Variable E : Env.
Variable config : UploadConfig.t.

(** X12. What one [UploadFile] does to the statistics of [GetStats]: an
    upload that fails or that returns an existing record leaves [TotalCount]
    and [TotalSize] as they were; an upload that stores new content adds one
    to [TotalCount] and the length of the content to [TotalSize]. *)
Theorem UploadFile_moves_GetStats file filename uploaderID req w :
  let before := mediaRepository.stats_of
                  (List.filter MediaFile.IsActive (media_files w)) in
  let after w' := mediaRepository.stats_of
                    (List.filter MediaFile.IsActive (media_files w')) in
  let out := UploadFile E config file filename uploaderID req w in
  match fst out with
  | Err _ =>
      after (snd out) = before
  | Ok res =>
      if String.eqb (UploadResult.Message res) msg_uploaded then
        mediaRepository.TotalCount (after (snd out))
        = mediaRepository.TotalCount before + 1
        /\ mediaRepository.TotalSize (after (snd out))
           = mediaRepository.TotalSize before
             + match file with
               | Some data => Z.of_nat (length data)
               | None => 0
               end
      else after (snd out) = before
  end.
Proof.
  cbv zeta.
  destruct (UploadFile_cases E config file filename uploaderID req w)
    as [(e & ->) | [(res & w' & -> & Hmsg & _ & Hrows & _)
                   | (res & w' & data & -> & -> & Hmsg & Hrows & _ & _ & _
                      & _ & Hsize & _ & _ & Hactive & _)]];
    cbn [fst snd].
  - reflexivity.
  - rewrite Hmsg, Hrows. reflexivity.
  - rewrite Hmsg, Hrows. cbn [String.eqb].
    change (String.eqb msg_uploaded msg_uploaded) with true. cbv iota.
    assert (Hrow : MediaFile.IsActive (UploadResult.MediaFile res) = true)
      by (unfold MediaFile.IsActive; rewrite Hactive; reflexivity).
    rewrite List.filter_app. cbn [List.filter]. rewrite Hrow.
    destruct (stats_of_counts
                (List.filter MediaFile.IsActive (media_files w)
                 ++ [UploadResult.MediaFile res])) as (Hn & Hs & _).
    destruct (stats_of_counts
                (List.filter MediaFile.IsActive (media_files w)))
      as (Hn0 & Hs0 & _).
    cbv zeta in Hn, Hs, Hn0, Hs0. rewrite Hn, Hs, Hn0, Hs0.
    rewrite sum_sizes_app, List.length_app. cbn [length map fold_right].
    rewrite Hsize. split; lia.
Qed.

End StatisticsOfUploads.

Section RoundTrips.

Variable E : Env.
Variable config : UploadConfig.t.

Lemma find_has_id_In (l : list MediaFile.t) (m : MediaFile.t) :
  NoDup (map MediaFile.ID l) -> In m l ->
  find (mediaRepository.has_id (MediaFile.ID m)) l = Some m.
Proof.
  induction l as [| x l IH]; intros Hnodup Hin; [destruct Hin |].
  cbn [map] in Hnodup. apply NoDup_cons in Hnodup as [Hx Hnodup].
  cbn [find]. unfold mediaRepository.has_id at 1.
  destruct (Z.eqb_spec (MediaFile.ID x) (MediaFile.ID m)) as [Heq | Hne].
  - destruct Hin as [-> | Hin]; [reflexivity |].
    exfalso. apply Hx. rewrite Heq. apply list_elem_of_In, in_map, Hin.
  - destruct Hin as [-> | Hin]; [congruence | auto].
Qed.

Lemma find_has_hash_In (l : list MediaFile.t) (m : MediaFile.t) :
  NoDup (map MediaFile.Hash l) -> In m l ->
  find (mediaRepository.has_hash (MediaFile.Hash m)) l = Some m.
Proof.
  induction l as [| x l IH]; intros Hnodup Hin; [destruct Hin |].
  cbn [map] in Hnodup. apply NoDup_cons in Hnodup as [Hx Hnodup].
  cbn [find]. unfold mediaRepository.has_hash at 1.
  destruct (String.eqb_spec (MediaFile.Hash x) (MediaFile.Hash m))
    as [Heq | Hne].
  - destruct Hin as [-> | Hin]; [reflexivity |].
    exfalso. apply Hx. rewrite Heq. apply list_elem_of_In, in_map, Hin.
  - destruct Hin as [-> | Hin]; [congruence | auto].
Qed.

(** X13. In a well-formed registry, what a successful [UploadFile] returns
    can be read back: [GetByID] on the returned key and [GetByHash] on the
    fingerprint of the uploaded bytes both give the returned record, and
    when the content was new the file at the record's storage path holds
    exactly the uploaded bytes. *)
Theorem UploadFile_then_read_back file filename uploaderID req w res w' :
  registry_ok w ->
  UploadFile E config file filename uploaderID req w = (Ok res, w') ->
  let row := UploadResult.MediaFile res in
  mediaRepository.GetByID (MediaFile.ID row) w' = (Ok row, w')
  /\ exists data,
       file = Some data
       /\ mediaRepository.GetByHash (calculateHash E data) w'
          = (Ok (Some row), w')
       /\ (UploadResult.Message res = msg_uploaded ->
           os.ReadFile (MediaFile.StoragePath row) w' = (Ok data, w')).
Proof.
  intros (Hids & Hseq0 & Hrange & Hhashes) Hrun. cbv zeta.
  destruct (UploadFile_cases E config file filename uploaderID req w)
    as [(e & Herr) | [(res0 & w0 & Hok & Hmsg & Hin & Hrows & _ & _ & _
                       & _ & data & -> & Hhash)
                     | (res0 & w0 & data & Hok & -> & Hmsg & Hrows & _ & Hid
                        & Hfresh & Hhash & _ & _ & _ & _ & Hdisk & _)]];
    [congruence | |]; rewrite Hok in Hrun; injection Hrun as <- <-.
  - split; [| exists data; split; [reflexivity | split]].
    + unfold mediaRepository.GetByID. rewrite Hrows.
      rewrite (find_has_id_In _ _ Hids Hin). reflexivity.
    + unfold mediaRepository.GetByHash. rewrite Hrows, <- Hhash.
      rewrite (find_has_hash_In _ _ Hhashes Hin). reflexivity.
    + rewrite Hmsg. discriminate.
  - split; [| exists data; split; [reflexivity | split]].
    + unfold mediaRepository.GetByID. rewrite Hrows.
      rewrite find_snoc_fresh; [reflexivity | |].
      * destruct (find _ (media_files w)) as [other |] eqn:Hfind;
          [| reflexivity].
        apply find_some in Hfind as [Hin Hsame].
        unfold mediaRepository.has_id in Hsame. apply Z.eqb_eq in Hsame.
        rewrite Forall_forall in Hrange.
        apply list_elem_of_In in Hin. specialize (Hrange other Hin).
        cbn beta in Hrange. lia.
      * unfold mediaRepository.has_id. apply Z.eqb_refl.
    + unfold mediaRepository.GetByHash. rewrite Hrows, <- Hhash.
      rewrite find_snoc_fresh; [reflexivity | |].
      * destruct (find _ (media_files w)) as [other |] eqn:Hfind;
          [| reflexivity].
        apply find_some_existsb in Hfind. congruence.
      * unfold mediaRepository.has_hash. apply String.eqb_refl.
    + intros _. unfold os.ReadFile.
      rewrite Hdisk, lookup_insert_eq. reflexivity.
Qed.

End RoundTrips.

Section ProcessorEffects.

Variable E : Env.
Variable config : UploadConfig.t.

(** The formats [saveProcessedImage] has an encoder for. *)
Lemma saveProcessedImage_cases img path format quality w :
  (fs_writable E path = false
   /\ saveProcessedImage E img path format quality w
      = (Err (Wrapped "创建文件失败" WriteFailed), w))
  \/ (fs_writable E path = true
      /\ exists e,
           saveProcessedImage E img path format quality w
           = (Err e, with_disk w (<[path := []]> (disk w))
                       (disk_writes w ++ [path]))
           /\ (e = EncodeFailed
               \/ (e = UnsupportedOutputFormat format
                   /\ encodable format = false)))
  \/ (fs_writable E path = true
      /\ encodable format = true
      /\ exists bytes,
           saveProcessedImage E img path format quality w
           = (Ok tt, with_disk w (<[path := bytes]> (disk w))
                       (disk_writes w ++ [path]))).
Proof.
  unfold saveProcessedImage, encodable. run.
  destruct (fs_writable E path); [| left; split; reflexivity].
  right. cbn [disk disk_writes with_disk].
  destruct (String.eqb format "jpeg" || String.eqb format "jpg").
  - destruct (jpeg_Encode E img _) as [bytes |].
    + right. repeat split. exists bytes.
      unfold with_disk. cbn. rewrite insert_insert_eq. reflexivity.
    + left. split; [reflexivity |]. eexists. split; [reflexivity |].
      left. reflexivity.
  - destruct (String.eqb format "png").
    + destruct (png_Encode E img) as [bytes |].
      * right. repeat split. exists bytes.
        unfold with_disk. cbn. rewrite insert_insert_eq. reflexivity.
      * left. split; [reflexivity |]. eexists. split; [reflexivity |].
        left. reflexivity.
    + left. split; [reflexivity |]. eexists. split; [reflexivity |].
      right. split; reflexivity.
Qed.


(** Whether [saveProcessedImage] succeeds, and with which bytes, does not
    depend on the world it runs in. *)
Lemma saveProcessedImage_ok_any_world img path format quality w bytes log :
  saveProcessedImage E img path format quality w
  = (Ok tt, with_disk w (<[path := bytes]> (disk w)) log) ->
  forall w2,
    saveProcessedImage E img path format quality w2
    = (Ok tt, with_disk w2 (<[path := bytes]> (disk w2))
                (disk_writes w2 ++ [path])).
Proof.
  unfold saveProcessedImage. run.
  destruct (fs_writable E path); [| discriminate].
  cbn [disk disk_writes with_disk].
  match goal with
  | |- context [match ?enc with Ok _ => _ | Err _ => _ end] =>
      destruct enc as [encoded | e]; [| discriminate]
  end.
  unfold with_disk. cbn. rewrite insert_insert_eq.
  intros [= Hdisk _] w2. rewrite insert_insert_eq.
  assert (Hsame : encoded = bytes).
  { assert (Hlook : (<[path := encoded]> (disk w) : gmap string (list byte))
                    !! path
                    = (<[path := bytes]> (disk w) : gmap string (list byte))
                      !! path) by (rewrite Hdisk; reflexivity).
    rewrite !lookup_insert_eq in Hlook. congruence. }
  rewrite Hsame. reflexivity.
Qed.

(** Everything a successful [ProcessImage] went through, and what it left. *)
Lemma ProcessImage_ok_full (req : ProcessRequest.t) (w w' : World)
    (r : ProcessResult.t) :
  ProcessImage E config req w = (Ok r, w') ->
  exists media bytes img format processedImg format' encoded,
    find (mediaRepository.has_id (ProcessRequest.MediaID req)) (media_files w)
    = Some media
    /\ MediaFile.IsImage media = true
    /\ disk w !! MediaFile.StoragePath media = Some bytes
    /\ image_Decode E bytes = Some (img, format)
    /\ applyProcess req img format = Ok (Ok processedImg, format')
    /\ let outputFormat :=
         if String.eqb (ProcessRequest.OutputFormat req) "" then format'
         else ProcessRequest.OutputFormat req in
       let processedPath :=
         generateProcessedImagePath (MediaFile.StoragePath media)
           (ProcessRequest.ProcessType req) outputFormat in
       let row :=
         MediaFile.set_ID
           (processedRecord media req processedImg processedPath
              outputFormat (clock w))
           (media_files_seq w + 1) in
       encodable outputFormat = true
       /\ saveProcessedImage E processedImg processedPath outputFormat
            (ProcessRequest.Quality req) w
          = (Ok tt, with_disk w (<[processedPath := encoded]> (disk w))
                      (disk_writes w ++ [processedPath]))
       /\ existsb (mediaRepository.has_hash
                     (calculateFileHash processedPath)) (media_files w)
          = false
       /\ r = {| ProcessResult.MediaFile := row;
                 ProcessResult.URL := generateFileURL config processedPath;
                 ProcessResult.Message := msg_processed |}
       /\ w' = with_media_files
                 (with_disk w (<[processedPath := encoded]> (disk w))
                    (disk_writes w ++ [processedPath]))
                 (media_files w ++ [row]) (media_files_seq w + 1).
Proof.
  unfold ProcessImage. run.
  destruct (find _ _) as [media |] eqn:Hfind; [| discriminate].
  destruct (MediaFile.IsImage media) eqn:Himage; [| discriminate].
  cbn [negb].
  destruct (disk w !! MediaFile.StoragePath media) as [bytes |] eqn:Hfile;
    [| discriminate].
  destruct (image_Decode E bytes) as [[img format] |] eqn:Hdecode;
    [| discriminate].
  destruct (applyProcess req img format) as [[[processedImg | e] format'] | e]
    eqn:Hstep; try discriminate.
  set (outputFormat := if String.eqb (ProcessRequest.OutputFormat req) ""
                       then format' else ProcessRequest.OutputFormat req).
  set (processedPath := generateProcessedImagePath
                          (MediaFile.StoragePath media)
                          (ProcessRequest.ProcessType req) outputFormat).
  destruct (saveProcessedImage_cases processedImg processedPath outputFormat
              (ProcessRequest.Quality req) w)
    as [(_ & Hsave) | [(_ & e & Hsave & _)
                      | (_ & Hformat & encoded & Hsave)]];
    rewrite Hsave; try discriminate.
  cbn [media_files media_files_seq clock with_disk].
  unfold processedRecord at 1. cbn [MediaFile.Hash MediaFile.set_IsPublic
    MediaFile.set_Caption MediaFile.set_Alt MediaFile.SetDimensions
    MediaFile.NewMediaFile].
  destruct (existsb _ _) eqn:Hfresh; [discriminate |].
  intros [= <- <-].
  exists media, bytes, img, format, processedImg, format', encoded.
  cbv zeta. fold outputFormat. fold processedPath.
  rewrite Hsave.
  repeat split; assumption.
Qed.



Lemma find_app_found {A} (f : A -> bool) (l l' : list A) (x : A) :
  find f l = Some x -> find f (l ++ l') = Some x.
Proof.
  induction l as [| a l IH]; cbn; [discriminate |].
  destruct (f a); [trivial | exact IH].
Qed.


(** X15. Running the same successful [ProcessImage] request a second time
    fails at the insert (the fingerprint is that of the same path), and the
    clean-up of the second run deletes the file the first run stored: the
    first result's row stays registered, with no file at its storage path.
    The output path is assumed to differ from the source's path. *)
Theorem ProcessImage_again_removes_first_output (req : ProcessRequest.t)
    (w w1 : World) (r : ProcessResult.t) (media : MediaFile.t) :
  ProcessImage E config req w = (Ok r, w1) ->
  mediaRepository.GetByID (ProcessRequest.MediaID req) w = (Ok media, w) ->
  MediaFile.StoragePath (ProcessResult.MediaFile r)
  <> MediaFile.StoragePath media ->
  exists w2,
    ProcessImage E config req w1
    = (Err (Wrapped "创建处理后媒体文件记录失败"
              (Wrapped "创建媒体文件失败" UniqueViolation)), w2)
    /\ media_files w2 = media_files w1
    /\ In (ProcessResult.MediaFile r) (media_files w2)
    /\ (exists stored,
          os.ReadFile (MediaFile.StoragePath (ProcessResult.MediaFile r)) w1
          = (Ok stored, w1))
    /\ os.ReadFile (MediaFile.StoragePath (ProcessResult.MediaFile r)) w2
       = (Err OpenFailed, w2).
Proof.
  intros Hrun Hget Hpath.
  destruct (ProcessImage_ok_full req w w1 r Hrun)
    as (media' & bytes & img & format & processedImg & format' & encoded
        & Hfind & Himage & Hfile & Hdecode & Hstep & Hformat & Hsave
        & Hfresh & -> & ->).
  unfold mediaRepository.GetByID in Hget. rewrite Hfind in Hget.
  injection Hget as <-.
  cbv zeta in Hpath, Hsave, Hfresh, Hformat |- *.
  set (outputFormat := if String.eqb (ProcessRequest.OutputFormat req) ""
                       then format' else ProcessRequest.OutputFormat req)
    in *.
  set (processedPath := generateProcessedImagePath
                          (MediaFile.StoragePath media')
                          (ProcessRequest.ProcessType req) outputFormat) in *.
  set (row := MediaFile.set_ID
                (processedRecord media' req processedImg processedPath
                   outputFormat (clock w)) (media_files_seq w + 1)) in *.
  assert (Hrowpath : MediaFile.StoragePath row = processedPath)
    by reflexivity.
  assert (Hrowhash : MediaFile.Hash row = calculateFileHash processedPath)
    by reflexivity.
  cbn [ProcessResult.MediaFile] in *. rewrite Hrowpath in *.
  set (w1 := with_media_files
               (with_disk w (<[processedPath := encoded]> (disk w))
                  (disk_writes w ++ [processedPath]))
               (media_files w ++ [row]) (media_files_seq w + 1)).
  assert (Hrows1 : media_files w1 = (media_files w ++ [row])%list)
    by reflexivity.
  assert (Hdisk1 : disk w1 = <[processedPath := encoded]> (disk w))
    by reflexivity.
  pose proof (saveProcessedImage_ok_any_world _ _ _ _ _ _ _ Hsave w1)
    as Hsave1.
  unfold ProcessImage. run.
  rewrite Hrows1, (find_app_found _ _ _ _ Hfind), Himage. cbn [negb].
  rewrite Hdisk1, lookup_insert_ne, Hfile, Hdecode, Hstep by exact Hpath.
  fold outputFormat. fold processedPath.
  rewrite <- Hdisk1, Hsave1.
  cbn [media_files with_disk].
  rewrite Hrows1.
  assert (Hknown : existsb (mediaRepository.has_hash
                              (calculateFileHash processedPath))
                     (media_files w ++ [row]) = true).
  { rewrite existsb_app. apply orb_true_iff. right. cbn [existsb].
    unfold mediaRepository.has_hash. rewrite Hrowhash, String.eqb_refl.
    reflexivity. }
  unfold processedRecord at 1. cbn [MediaFile.Hash MediaFile.set_IsPublic
    MediaFile.set_Caption MediaFile.set_Alt MediaFile.SetDimensions
    MediaFile.NewMediaFile].
  rewrite Hknown.
  eexists. split; [reflexivity |].
  cbn [media_files with_disk disk]. unfold os.ReadFile.
  cbn [disk with_disk]. rewrite Hdisk1.
  rewrite lookup_delete_eq, lookup_insert_eq.
  refine (conj eq_refl (conj _ (conj _ eq_refl))).
  - rewrite Hrows1. apply in_or_app. right. left. reflexivity.
  - exists encoded. reflexivity.
Qed.

(** X16. A request whose output format has no encoder (anything but [jpeg],
    [jpg] and [png]; [gif] for one) fails only after [saveProcessedImage]
    has created its file: the call reports the unsupported format, no row
    is added, and an empty file is left at the output path. *)
Theorem ProcessImage_unsupported_format_leaves_empty_file
    (req : ProcessRequest.t) (w : World) (media : MediaFile.t)
    (bytes : list byte) (img processedImg : image.Image)
    (format format' : string) :
  mediaRepository.GetByID (ProcessRequest.MediaID req) w = (Ok media, w) ->
  MediaFile.IsImage media = true ->
  os.ReadFile (MediaFile.StoragePath media) w = (Ok bytes, w) ->
  image_Decode E bytes = Some (img, format) ->
  applyProcess req img format = Ok (Ok processedImg, format') ->
  let outputFormat :=
    if String.eqb (ProcessRequest.OutputFormat req) "" then format'
    else ProcessRequest.OutputFormat req in
  let processedPath :=
    generateProcessedImagePath (MediaFile.StoragePath media)
      (ProcessRequest.ProcessType req) outputFormat in
  encodable outputFormat = false ->
  fs_writable E processedPath = true ->
  exists w',
    ProcessImage E config req w
    = (Err (Wrapped "保存处理后图片失败"
              (UnsupportedOutputFormat outputFormat)), w')
    /\ media_files w' = media_files w
    /\ media_files_seq w' = media_files_seq w
    /\ disk w' = <[processedPath := []]> (disk w)
    /\ os.ReadFile processedPath w' = (Ok [], w').
Proof.
  intros Hget Himage Hfile Hdecode Hstep outputFormat processedPath
    Hformat Hwritable.
  unfold mediaRepository.GetByID in Hget.
  destruct (find _ _) as [media' |] eqn:Hfind; [| discriminate].
  injection Hget as ->.
  unfold os.ReadFile in Hfile.
  destruct (disk w !! MediaFile.StoragePath media) as [bytes' |] eqn:Hbytes;
    [| discriminate].
  injection Hfile as ->.
  unfold ProcessImage. run.
  rewrite Hfind, Himage. cbn [negb]. rewrite Hbytes, Hdecode, Hstep.
  fold outputFormat. fold processedPath.
  destruct (saveProcessedImage_cases processedImg processedPath outputFormat
              (ProcessRequest.Quality req) w)
    as [(Hno & _) | [(_ & e & Hsave & [-> | [-> _]])
                    | (_ & Hyes & _)]]; try congruence.
  - exfalso. revert Hsave. unfold saveProcessedImage. run.
    rewrite Hwritable. unfold encodable in Hformat.
    apply orb_false_iff in Hformat as [Hjpeg ->]. rewrite Hjpeg.
    discriminate.
  - rewrite Hsave. eexists. split; [reflexivity |].
    unfold os.ReadFile. cbn [media_files media_files_seq disk with_disk].
    rewrite lookup_insert_eq. repeat split.
Qed.

(** X17. With [png] as the requested output format the [Quality] of a
    request has no effect on anything: two requests that differ in it only
    give the same result and leave the same world. *)
Theorem ProcessImage_png_ignores_Quality (mediaID : Z)
    (processType watermarkText : string) (width height q1 q2 : option Z)
    (w : World) :
  let request q :=
    {| ProcessRequest.MediaID := mediaID;
       ProcessRequest.ProcessType := processType;
       ProcessRequest.Width := width;
       ProcessRequest.Height := height;
       ProcessRequest.Quality := q;
       ProcessRequest.WatermarkText := watermarkText;
       ProcessRequest.OutputFormat := "png" |} in
  ProcessImage E config (request q1) w = ProcessImage E config (request q2) w.
Proof.
  cbv zeta. unfold ProcessImage. run.
  destruct (find _ _) as [media |]; [| reflexivity].
  destruct (negb (MediaFile.IsImage media)); [reflexivity |].
  destruct (disk w !! MediaFile.StoragePath media) as [bytes |];
    [| reflexivity].
  destruct (image_Decode E bytes) as [[img format] |]; [| reflexivity].
  unfold applyProcess, compressImage.
  cbn [ProcessRequest.ProcessType ProcessRequest.Width ProcessRequest.Height
       ProcessRequest.Quality ProcessRequest.WatermarkText
       ProcessRequest.OutputFormat ProcessRequest.MediaID].
  reflexivity.
Qed.

End ProcessorEffects.

Section BatchEffects.

Variable E : Env.
Variable config : UploadConfig.t.



(** The loop of [BatchProcessImages]: every ID ends in the results or in the
    errors, and the registry gains exactly the rows of the new results, in
    their order. *)
Lemma processEach_spec mediaIDs req results errors w :
  let out := processEach E config mediaIDs req results errors w in
  let results' := fst (fst out) in
  let errors' := snd (fst out) in
  let w' := snd out in
  (length results' + length errors'
   = length results + length errors + length mediaIDs)%nat
  /\ exists new,
       results' = (results ++ new)%list
       /\ media_files w'
          = (media_files w ++ map ProcessResult.MediaFile new)%list.
Proof.
  cbv zeta. revert results errors w.
  induction mediaIDs as [| mediaID mediaIDs IH]; intros results errors w.
  - cbn. split; [lia |]. exists []. cbn. rewrite !app_nil_r. split; reflexivity.
  - cbn [processEach length].
    destruct (ProcessImage_effect E config (with_MediaID req mediaID) w)
      as [(e & Hfst & Hrows & _) | (r & bytes & Hfst & Hrows & _)];
      destruct (ProcessImage E config (with_MediaID req mediaID) w)
        as [[r' | e'] w1]; cbn [fst snd] in Hfst, Hrows; try discriminate.
    + destruct (IH results (errors ++ [(mediaID, e')])%list w1)
        as (Hn & new & Hres & Hgrow).
      rewrite length_app in Hn. cbn [length] in Hn.
      split; [lia |]. exists new. rewrite Hgrow, Hrows. split; trivial.
    + injection Hfst as ->.
      destruct (IH (results ++ [r])%list errors w1)
        as (Hn & new & Hres & Hgrow).
      rewrite length_app in Hn. cbn [length] in Hn.
      split; [lia |]. exists (r :: new).
      rewrite Hres, Hgrow, Hrows, <- !app_assoc. split; reflexivity.
Qed.

(** X19. [BatchProcessImages]: a batch without IDs or with more than ten is
    refused with the world untouched; when every item fails the registry is
    as it was; when results are returned there are between one and
    [len(mediaIDs)] of them and the registry has gained exactly their
    records, in order, after the rows it had. *)
Theorem BatchProcessImages_registers_its_results mediaIDs req w :
  match BatchProcessImages E config mediaIDs req w with
  | (inl BatchEmpty, w') => mediaIDs = [] /\ w' = w
  | (inl BatchTooLarge, w') => (10 < length mediaIDs)%nat /\ w' = w
  | (inl (BatchAllFailed errors), w') =>
      length errors = length mediaIDs
      /\ media_files w' = media_files w
  | (inr results, w') =>
      (1 <= length results <= length mediaIDs)%nat
      /\ (length mediaIDs <= 10)%nat
      /\ media_files w'
         = (media_files w ++ map ProcessResult.MediaFile results)%list
  end.
Proof.
  unfold BatchProcessImages.
  destruct (Nat.eqb_spec (length mediaIDs) 0) as [Hempty | Hsome].
  { split; [| reflexivity]. destruct mediaIDs; [reflexivity | discriminate]. }
  destruct (Nat.ltb_spec 10 (length mediaIDs)) as [Hmany | Hfew].
  { split; [exact Hmany | reflexivity]. }
  pose proof (processEach_spec mediaIDs req [] [] w) as Hspec.
  cbv zeta in Hspec.
  destruct (processEach E config mediaIDs req [] [] w)
    as [[results errors] w'].
  cbn [fst snd length app] in Hspec.
  destruct Hspec as (Hn & new & -> & Hrows).
  destruct (Nat.ltb_spec 0 (length errors)) as [Herrors | Hnone];
    destruct (Nat.eqb_spec (length new) 0) as [Hnothing | Hresults];
    cbn [andb].
  - destruct new; [| discriminate]. cbn in Hrows, Hn.
    rewrite app_nil_r in Hrows. split; [lia | exact Hrows].
  - repeat split; try lia. exact Hrows.
  - lia.
  - repeat split; try lia. exact Hrows.
Qed.

(** X20. [OptimizeImage]: a successful call registers its output as
    [image/jpeg] whatever the source was, under the source's size (the
    registered size never shows a gain), and keeps the source row; a source
    record without a known width -- every record [UploadFile] stores -- is
    recompressed, never resized; a source of at most 5 MB whose known width
    is above 2048 comes out 2048 wide. *)
Theorem OptimizeImage_outcome mediaID w r w' :
  OptimizeImage E config mediaID w = (inr r, w') ->
  let row := ProcessResult.MediaFile r in
  exists media,
    mediaRepository.GetByID mediaID w = (Ok media, w)
    /\ mediaRepository.GetByID mediaID w' = (Ok media, w')
    /\ MediaFile.MimeType row = "image/jpeg"
    /\ MediaFile.FileSize row = MediaFile.FileSize media
    /\ (MediaFile.Width media = None ->
        MediaFile.Caption row = MediaFile.Caption media ++ " (compress)")
    /\ (forall width,
          MediaFile.FileSize media <= 5 * 1024 * 1024 ->
          MediaFile.Width media = Some width -> 2048 < width ->
          MediaFile.Caption row = MediaFile.Caption media ++ " (resize)"
          /\ MediaFile.Width row = Some 2048).
Proof.
  unfold OptimizeImage, mediaRepository.GetByID at 1.
  destruct (find _ _) as [media |] eqn:Hfind; [| discriminate].
  destruct (MediaFile.IsImage media); cbn [negb]; [| discriminate].
  destruct (ProcessImage E config (optimizeRequest mediaID media) w)
    as [[r0 | e] w0] eqn:Hrun; [| discriminate].
  intros [= <- <-]. cbv zeta.
  assert (Hid : ProcessRequest.MediaID (optimizeRequest mediaID media)
                = mediaID).
  { unfold optimizeRequest.
    destruct (_ <? MediaFile.FileSize media); [reflexivity |].
    destruct (match MediaFile.Width media with
              | Some width => 2048 <? width | None => false end);
      reflexivity. }
  assert (Hout : ProcessRequest.OutputFormat (optimizeRequest mediaID media)
                 = "jpeg").
  { unfold optimizeRequest.
    destruct (_ <? MediaFile.FileSize media); [reflexivity |].
    destruct (match MediaFile.Width media with
              | Some width => 2048 <? width | None => false end);
      reflexivity. }
  destruct (ProcessImage_ok_full E config _ _ _ _ Hrun)
    as (media' & bytes & img & format & processedImg & format' & encoded
        & Hfind' & _ & _ & _ & Hstep & _ & _ & _ & -> & ->).
  rewrite Hid, Hfind in Hfind'. injection Hfind' as <-.
  rewrite Hout in *. change (String.eqb "jpeg" "") with false in *.
  cbv iota in *.
  exists media. unfold mediaRepository.GetByID.
  cbn [media_files with_media_files ProcessResult.MediaFile].
  rewrite Hfind, (find_app_found _ _ _ _ Hfind).
  refine (conj eq_refl (conj eq_refl (conj eq_refl (conj eq_refl
            (conj _ _))))).
  - intros Hwidth. unfold processedRecord, optimizeRequest.
    rewrite Hwidth.
    destruct (_ <? MediaFile.FileSize media); reflexivity.
  - intros width Hsize Hwidth Hwide.
    revert Hstep. unfold processedRecord, optimizeRequest.
    rewrite Hwidth.
    destruct (Z.ltb_spec (5 * 1024 * 1024) (MediaFile.FileSize media));
      [lia |].
    destruct (Z.ltb_spec 2048 width); [| lia].
    unfold applyProcess, resizeImage.
    cbn [ProcessRequest.ProcessType ProcessRequest.Width
         ProcessRequest.Height String.eqb Ascii.eqb Bool.eqb].
    intros [= <- _].
    cbn [MediaFile.Caption MediaFile.Width MediaFile.set_ID
         MediaFile.set_IsPublic MediaFile.set_Caption MediaFile.set_Alt
         MediaFile.SetDimensions image.Bounds].
    split; [reflexivity |]. rewrite Rect_origin_Dx; [reflexivity | lia].
Qed.

End BatchEffects.

Section Transforms.

(** X21. The nearest-neighbour copy of [resizeImage] reads inside the
    source: for a source anchored at the origin with positive width and
    height, the pixel at [(x, y)] of the result is the source pixel at
    [(x * w0 / tw, y * h0 / th)], a point of the source bounds; when the
    result has the size of the source, it has the pixels of the source. *)
Theorem resizeImage_samples_inside_source (img out : image.Image)
    (width height : option Z) (x y : Z) :
  image.MinX (image.Bounds img) = 0 ->
  image.MinY (image.Bounds img) = 0 ->
  0 < image.Dx (image.Bounds img) ->
  0 < image.Dy (image.Bounds img) ->
  resizeImage img width height = Ok out ->
  0 <= x < image.MaxX (image.Bounds out) ->
  0 <= y < image.MaxY (image.Bounds out) ->
  let sx := x * image.Dx (image.Bounds img) / image.MaxX (image.Bounds out) in
  let sy := y * image.Dy (image.Bounds img) / image.MaxY (image.Bounds out) in
  image.At out x y = image.At img sx sy
  /\ image.inside (image.Bounds img) sx sy = true
  /\ (image.Dx (image.Bounds out) = image.Dx (image.Bounds img) ->
      image.Dy (image.Bounds out) = image.Dy (image.Bounds img) ->
      image.At out x y = image.At img x y).
Proof.
  intros Hx0 Hy0 Hw0 Hh0 Hrun Hx Hy.
  set (w0 := image.Dx (image.Bounds img)) in *.
  set (h0 := image.Dy (image.Bounds img)) in *.
  assert (Hout : exists tw th,
             out = {| image.Bounds := image.Rect 0 0 tw th;
                      image.At := fun x y =>
                        if (0 <=? x) && (x <? tw) && (0 <=? y) && (y <? th)
                        then image.At img (Z.quot (x * w0) tw)
                                           (Z.quot (y * h0) th)
                        else 0 |}).
  { revert Hrun. unfold resizeImage.
    destruct width as [tw |], height as [th |]; cbv zeta;
      try discriminate; intros [= <-]; eauto. }
  destruct Hout as (tw & th & ->).
  cbn [image.Bounds image.MaxX image.MaxY image.Rect image.At image.Dx
       image.Dy image.MinX image.MinY] in *.
  assert (Htw : Z.max 0 tw = tw) by lia.
  assert (Hth : Z.max 0 th = th) by lia.
  rewrite Htw, Hth in *.
  assert (Hin : (0 <=? x) && (x <? tw) && (0 <=? y) && (y <? th) = true).
  { rewrite !andb_true_iff, !Z.leb_le, !Z.ltb_lt. lia. }
  rewrite Hin.
  rewrite !Z.quot_div_nonneg by nia.
  assert (Hsx : 0 <= x * w0 / tw < w0).
  { split; [apply Z.div_pos; nia |].
    apply Z.div_lt_upper_bound; nia. }
  assert (Hsy : 0 <= y * h0 / th < h0).
  { split; [apply Z.div_pos; nia |].
    apply Z.div_lt_upper_bound; nia. }
  split; [reflexivity |]. split.
  - assert (Hmaxx : image.MaxX (image.Bounds img) = w0)
      by (unfold w0, image.Dx; lia).
    assert (Hmaxy : image.MaxY (image.Bounds img) = h0)
      by (unfold h0, image.Dy; lia).
    unfold image.inside. rewrite Hx0, Hy0, Hmaxx, Hmaxy.
    rewrite !andb_true_iff, !Z.leb_le, !Z.ltb_lt. lia.
  - intros Hsamew Hsameh.
    rewrite Rect_origin_Dx in Hsamew by lia.
    rewrite Rect_origin_Dy in Hsameh by lia. subst tw th.
    rewrite !Z.div_mul by lia. reflexivity.
Qed.


End Transforms.

Section Usages.

Variable E : Env.
Variable config : UploadConfig.t.

(** The usages of one media among the rows of the usage table. *)
Lemma usage_count_snoc (mediaID : Z) (rows : list MediaUsage.t)
    (u : MediaUsage.t) :
  Z.of_nat (length (List.filter
                      (fun u => Z.eqb (MediaUsage.MediaID u) mediaID)
                      (rows ++ [u])))
  = Z.of_nat (length (List.filter
                        (fun u => Z.eqb (MediaUsage.MediaID u) mediaID) rows))
    + (if Z.eqb (MediaUsage.MediaID u) mediaID then 1 else 0).
Proof.
  rewrite List.filter_app, length_app. cbn [List.filter].
  destruct (Z.eqb (MediaUsage.MediaID u) mediaID); cbn [length]; lia.
Qed.

(** X23. Every successful [UploadFile] whose request names a usage type is
    counted as one more usage of the record it returns -- also when the
    content was already stored and nothing was written -- and changes the
    usage count of no other media; without a usage type no count changes. *)
Theorem UploadFile_counts_one_usage file filename uploaderID req w res w'
    (mediaID : Z) :
  UploadFile E config file filename uploaderID req w = (Ok res, w') ->
  exists before,
    mediaUsageRepository.GetUsageCountByMedia mediaID w = (Ok before, w)
    /\ mediaUsageRepository.GetUsageCountByMedia mediaID w'
       = (Ok (before
              + if String.eqb (FileUploadRequest.UsageType req) "" then 0
                else if Z.eqb (MediaFile.ID (UploadResult.MediaFile res))
                          mediaID
                     then 1 else 0), w').
Proof.
  intros Hrun. eexists. split; [reflexivity |].
  unfold mediaUsageRepository.GetUsageCountByMedia.
  assert (Husage : media_usages w'
            = (if String.eqb (FileUploadRequest.UsageType req) ""
               then media_usages w
               else (media_usages w
                     ++ [MediaUsage.set_ID
                           (MediaUsage.NewMediaUsage
                              (MediaFile.ID (UploadResult.MediaFile res))
                              (FileUploadRequest.UsageType req)
                              (FileUploadRequest.TargetID req) uploaderID
                              (clock w))
                           (media_usages_seq w + 1)])%list)).
  { destruct (UploadFile_cases E config file filename uploaderID req w)
      as [(e & Herr) | [(res0 & w0 & Hok & _ & _ & _ & _ & _ & _ & Husage & _)
                       | (res0 & w0 & data & Hok & _ & _ & _ & _ & _ & _ & _
                          & _ & _ & _ & _ & _ & Husage)]];
      [congruence | |]; rewrite Hok in Hrun; injection Hrun as <- <-;
      exact Husage. }
  rewrite Husage.
  destruct (String.eqb (FileUploadRequest.UsageType req) "").
  - rewrite Z.add_0_r. reflexivity.
  - rewrite usage_count_snoc. reflexivity.
Qed.

End Usages.

Section UsageRepository.

Lemma filter_filter_none {A} (f : A -> bool) (l : list A) :
  List.filter f (List.filter (fun x => negb (f x)) l) = [].
Proof.
  induction l as [| x l IH]; [reflexivity |].
  cbn [List.filter]. destruct (f x) eqn:Hx; cbn [negb List.filter];
    [exact IH | rewrite Hx; exact IH].
Qed.

Lemma filter_filter_other {A} (f g : A -> bool) (l : list A) :
  (forall x, f x = true -> g x = false) ->
  List.filter f (List.filter (fun x => negb (g x)) l) = List.filter f l.
Proof.
  intros Hfg. induction l as [| x l IH]; [reflexivity |].
  cbn [List.filter]. destruct (f x) eqn:Hf.
  - rewrite (Hfg x Hf). cbn [negb List.filter]. rewrite Hf, IH. reflexivity.
  - destruct (g x); cbn [negb List.filter]; [| rewrite Hf]; exact IH.
Qed.

(** X24. The usage table under its deletes: after [DeleteByMediaID] the
    media has no usage left ([GetByMediaID] is empty, the count is 0) and
    the usages of every other media are what they were; after
    [DeleteByTarget] the target has no usage left and the usages of every
    media and of every other target of the same usage type are kept when
    they are not on that target; the count [GetUsageCountByMedia] reports
    is always the number of rows [GetByMediaID] returns. *)
Theorem usage_deletes_are_exact (w : World) (mediaID : Z)
    (usageType : string) (targetID : Z) :
  let afterMedia := snd (mediaUsageRepository.DeleteByMediaID mediaID w) in
  let afterTarget :=
    snd (mediaUsageRepository.DeleteByTarget usageType targetID w) in
  fst (mediaUsageRepository.GetByMediaID mediaID afterMedia) = Ok []
  /\ fst (mediaUsageRepository.GetUsageCountByMedia mediaID afterMedia)
     = Ok 0
  /\ (forall other,
        other <> mediaID ->
        fst (mediaUsageRepository.GetByMediaID other afterMedia)
        = fst (mediaUsageRepository.GetByMediaID other w))
  /\ fst (mediaUsageRepository.GetByTarget usageType targetID afterTarget)
     = Ok []
  /\ (forall otherTarget,
        otherTarget <> targetID ->
        fst (mediaUsageRepository.GetByTarget usageType otherTarget
               afterTarget)
        = fst (mediaUsageRepository.GetByTarget usageType otherTarget w))
  /\ (forall id w0,
        exists rows,
          fst (mediaUsageRepository.GetByMediaID id w0) = Ok rows
          /\ fst (mediaUsageRepository.GetUsageCountByMedia id w0)
             = Ok (Z.of_nat (length rows)))
  /\ media_files afterMedia = media_files w
  /\ media_files afterTarget = media_files w.
Proof.
  cbv zeta.
  unfold mediaUsageRepository.DeleteByMediaID,
    mediaUsageRepository.DeleteByTarget, mediaUsageRepository.GetByMediaID,
    mediaUsageRepository.GetUsageCountByMedia,
    mediaUsageRepository.GetByTarget.
  cbn [fst snd media_usages with_media_usages media_files].
  refine (conj _ (conj _ (conj _ (conj _ (conj _ (conj _
            (conj eq_refl eq_refl))))))).
  - rewrite (filter_filter_none
               (fun u => Z.eqb (MediaUsage.MediaID u) mediaID)).
    reflexivity.
  - rewrite (filter_filter_none
               (fun u => Z.eqb (MediaUsage.MediaID u) mediaID)).
    reflexivity.
  - intros other Hother.
    rewrite (filter_filter_other
               (fun u => Z.eqb (MediaUsage.MediaID u) other)
               (fun u => Z.eqb (MediaUsage.MediaID u) mediaID));
      [reflexivity |].
    intros u Hu. apply Z.eqb_eq in Hu. apply Z.eqb_neq. congruence.
  - rewrite (filter_filter_none
               (mediaUsageRepository.on_target usageType targetID)).
    reflexivity.
  - intros otherTarget Hother.
    rewrite (filter_filter_other
               (mediaUsageRepository.on_target usageType otherTarget)
               (mediaUsageRepository.on_target usageType targetID));
      [reflexivity |].
    intros u. unfold mediaUsageRepository.on_target.
    destruct (String.eqb (MediaUsage.UsageType u) usageType); cbn [andb];
      [| discriminate].
    destruct (MediaUsage.TargetID u) as [t |]; [| discriminate].
    intros Ht. apply Z.eqb_eq in Ht. apply Z.eqb_neq. congruence.
  - intros id w0. eexists. split; [reflexivity |].
    rewrite length_rev. reflexivity.
Qed.

End UsageRepository.

Section FileExtension.

Lemma after_last_dot_spec (s : string) :
  match MediaFile.after_last_dot s with
  | Some ext =>
      (exists stem, s = stem ++ String "." ext)
      /\ ~ In "."%char (list_ascii_of_string ext)
      /\ In "."%char (list_ascii_of_string s)
      /\ filepath.from_last_dot s = String "." ext
  | None =>
      ~ In "."%char (list_ascii_of_string s)
      /\ filepath.from_last_dot s = ""
  end.
Proof.
  induction s as [| c s IH]; [cbn; split; [tauto | reflexivity] |].
  cbn [MediaFile.after_last_dot filepath.from_last_dot list_ascii_of_string].
  destruct (MediaFile.after_last_dot s) as [ext |].
  - destruct IH as ((stem & Hstem) & Hnodot & Hdot & ->).
    refine (conj _ (conj Hnodot (conj _ eq_refl))).
    + exists (String c stem). rewrite Hstem at 1. reflexivity.
    + right. exact Hdot.
  - destruct IH as (Hnodot & ->).
    destruct (Ascii.eqb_spec c "."%char) as [-> | Hc].
    + refine (conj _ (conj Hnodot (conj _ eq_refl))).
      * exists "". reflexivity.
      * left. reflexivity.
    + split; [| reflexivity]. intros [Hin | Hin]; [congruence | tauto].
Qed.

Lemma cut_last_sep_no_sep (s : string) :
  filepath.no_sep s = true -> filepath.cut_last_sep s = ("", s).
Proof.
  induction s as [| c s IH]; [reflexivity |].
  cbn [filepath.no_sep filepath.cut_last_sep].
  intros Hs. apply andb_true_iff in Hs as [Hc Hs].
  rewrite (IH Hs). apply negb_true_iff in Hc. rewrite Hc. reflexivity.
Qed.

(** X25. [GetFileExtension] returns what follows the last dot of the
    filename: the result holds no dot, the filename is a stem, a dot and
    the result when it has a dot, and the result is empty when it has none;
    for a filename without path separator this is [filepath.Ext] minus its
    leading dot. *)
Theorem GetFileExtension_after_last_dot (m : MediaFile.t) :
  let name := MediaFile.Filename m in
  let ext := MediaFile.GetFileExtension m in
  ~ In "."%char (list_ascii_of_string ext)
  /\ (In "."%char (list_ascii_of_string name) ->
      (exists stem, name = stem ++ "." ++ ext)
      /\ (filepath.no_sep name = true -> filepath.Ext name = "." ++ ext))
  /\ (~ In "."%char (list_ascii_of_string name) ->
      ext = ""
      /\ (filepath.no_sep name = true -> filepath.Ext name = "")).
Proof.
  cbv zeta. unfold MediaFile.GetFileExtension, filepath.Ext.
  pose proof (after_last_dot_spec (MediaFile.Filename m)) as Hspec.
  destruct (MediaFile.after_last_dot (MediaFile.Filename m)) as [ext |].
  - destruct Hspec as (Hstem & Hnodot & Hdot & Hfrom).
    refine (conj Hnodot (conj _ _)).
    + intros _. split; [exact Hstem |].
      intros Hname. rewrite (cut_last_sep_no_sep _ Hname). exact Hfrom.
    + intros Hnone. contradiction.
  - destruct Hspec as (Hnodot & Hfrom).
    refine (conj _ (conj _ _)).
    + intros [].
    + intros Hdot. contradiction.
    + intros _. split; [reflexivity |].
      intros Hname. rewrite (cut_last_sep_no_sep _ Hname). exact Hfrom.
Qed.

End FileExtension.

(** ** The properties above on the sample installation *)

Lemma registry_ok_uploaded : registry_ok Sample.uploaded.
Proof.
  unfold registry_ok.
  assert (Hrows : media_files Sample.uploaded = [Sample.cat_row])
    by (vm_compute; reflexivity).
  assert (Hseq : media_files_seq Sample.uploaded = 1)
    by (vm_compute; reflexivity).
  rewrite Hrows, Hseq. cbn [map].
  refine (conj _ (conj _ (conj _ _))).
  - apply NoDup_singleton.
  - lia.
  - apply Forall_cons_2; [cbn; lia | apply Forall_nil_2].
  - apply NoDup_singleton.
Qed.


Lemma UploadFile_existing_returned_as_stored_witness :
  exists w',
    UploadFile Sample.env (Sample.config "/srv/media") (Some Sample.picture)
      "copy.png" 8 (Sample.request "post_content") Sample.uploaded
    = (Ok {| UploadResult.MediaFile := Sample.cat_row;
             UploadResult.URL :=
               generateFileURL (Sample.config "/srv/media")
                 (MediaFile.StoragePath Sample.cat_row);
             UploadResult.Message := msg_already_exists |}, w')
    /\ media_files w' = media_files Sample.uploaded
    /\ disk w' = disk Sample.uploaded.
Proof.
  destruct (UploadFile_existing_returned_as_stored Sample.env
              (Sample.config "/srv/media") Sample.picture "copy.png" 8
              (Sample.request "post_content") Sample.uploaded Sample.cat_row)
    as (w' & Hrun & Hrows & Hdisk & _).
  - vm_compute. reflexivity.
  - vm_compute. discriminate.
  - vm_compute. reflexivity.
  - vm_compute. reflexivity.
  - exists w'. repeat split; assumption.
Defined.

Lemma registry_ok_is_kept_witness : registry_ok Sample.uploaded.
Proof.
  assert (Hempty : registry_ok Sample.empty).
  { unfold registry_ok. cbn.
    refine (conj _ (conj _ (conj _ _)));
      [apply NoDup_nil_2 | lia | apply Forall_nil_2 | apply NoDup_nil_2]. }
  exact (proj1 (registry_ok_is_kept Sample.env (Sample.config "/srv/media")
                  Sample.empty Hempty)
           (Some Sample.picture) "cat.png" 7 (Sample.request "post_cover")).
Defined.

Lemma Create_then_lookup_witness :
  match mediaRepository.Create
          (MediaFile.NewMediaFile "dog.png" "/srv/media/dog.png" "image/png"
             "image" "0506" 2 (Some 8) Sample.today) Sample.uploaded with
  | (Ok row, w') =>
      mediaRepository.GetByID (MediaFile.ID row) w' = (Ok row, w')
      /\ mediaRepository.GetByHash "0506" w' = (Ok (Some row), w')
      /\ mediaRepository.GetByID 1 w' = (Ok Sample.cat_row, w')
  | (Err _, _) => False
  end.
Proof.
  destruct (mediaRepository.Create _ Sample.uploaded)
    as [[row | e] w'] eqn:Hrun.
  - destruct (Create_then_lookup _ row Sample.uploaded w'
                registry_ok_uploaded Hrun) as (Hid & Hhash & Hold).
    refine (conj Hid (conj Hhash _)).
    apply Hold. vm_compute. reflexivity.
  - vm_compute in Hrun. discriminate.
Defined.

Lemma SoftDelete_then_Restore_witness :
  fst (mediaRepository.GetByID 1
         (snd (mediaRepository.SoftDelete 1 Sample.uploaded)))
  = Ok (MediaFile.set_UpdatedAt (MediaFile.set_Status Sample.cat_row "deleted")
          (clock Sample.uploaded))
  /\ fst (mediaRepository.GetByID 1
            (snd (mediaRepository.Restore 1
                    (snd (mediaRepository.SoftDelete 1 Sample.uploaded)))))
     = Ok (MediaFile.set_UpdatedAt (MediaFile.set_Status Sample.cat_row "active")
             (clock Sample.uploaded)).
Proof.
  pose proof (SoftDelete_then_Restore 1 Sample.uploaded Sample.cat_row
                ltac:(vm_compute; reflexivity)) as H.
  cbv zeta in H. destruct H as (H1 & H2 & _).
  rewrite H1, H2. split; reflexivity.
Defined.

Lemma GetMediaByID_visibility_witness :
  GetMediaByID 1 None Sample.uploaded = (Ok Sample.cat_row, Sample.uploaded).
Proof.
  pose proof (GetMediaByID_visibility 1 None Sample.uploaded Sample.cat_row
                ltac:(vm_compute; reflexivity)) as H.
  cbv zeta in H. destruct H as (Hvisible & _).
  apply Hvisible. left. reflexivity.
Defined.

Lemma GetMediaByID_after_SoftDelete_witness :
  exists served,
    fst (GetMediaByID 1 None
           (snd (mediaRepository.SoftDelete 1 Sample.uploaded)))
    = Ok served
    /\ MediaFile.Status served = "deleted"
    /\ MediaFile.StoragePath served = Sample.picture_path.
Proof.
  destruct (GetMediaByID_after_SoftDelete 1 None Sample.uploaded
              Sample.cat_row ltac:(vm_compute; reflexivity) eq_refl)
    as (served & Hget & Hstatus & _ & Hpath).
  exists served. repeat split; assumption.
Defined.

Lemma UploadFile_then_read_back_witness :
  match UploadFile Sample.env (Sample.config "/srv/media")
          (Some Sample.picture2) "dog.png" 8 (Sample.request "post_content")
          Sample.uploaded with
  | (Ok res, w') =>
      mediaRepository.GetByID (MediaFile.ID (UploadResult.MediaFile res)) w'
      = (Ok (UploadResult.MediaFile res), w')
      /\ os.ReadFile (MediaFile.StoragePath (UploadResult.MediaFile res)) w'
         = (Ok Sample.picture2, w')
  | (Err _, _) => False
  end.
Proof.
  destruct (UploadFile Sample.env (Sample.config "/srv/media")
              (Some Sample.picture2) "dog.png" 8
              (Sample.request "post_content") Sample.uploaded)
    as [[res | e] w'] eqn:Hrun.
  - assert (Hmsg : UploadResult.Message res = msg_uploaded)
      by (vm_compute in Hrun; injection Hrun as <- _; reflexivity).
    destruct (UploadFile_then_read_back Sample.env
                (Sample.config "/srv/media") _ _ _ _ _ res w'
                registry_ok_uploaded Hrun)
      as (Hget & data & Hfile & _ & Hread).
    injection Hfile as <-. split; [exact Hget | exact (Hread Hmsg)].
  - vm_compute in Hrun. discriminate.
Defined.


Lemma ProcessImage_again_removes_first_output_witness :
  match ProcessImage Sample.env (Sample.config "/srv/media")
          (Sample.process "resize" "" (Some 2)) Sample.uploaded with
  | (Ok r, w1) =>
      exists w2,
        ProcessImage Sample.env (Sample.config "/srv/media")
          (Sample.process "resize" "" (Some 2)) w1
        = (Err (Wrapped "创建处理后媒体文件记录失败"
                  (Wrapped "创建媒体文件失败" UniqueViolation)), w2)
        /\ In (ProcessResult.MediaFile r) (media_files w2)
        /\ os.ReadFile (MediaFile.StoragePath (ProcessResult.MediaFile r)) w2
           = (Err OpenFailed, w2)
  | (Err _, _) => False
  end.
Proof.
  destruct (ProcessImage Sample.env (Sample.config "/srv/media")
              (Sample.process "resize" "" (Some 2)) Sample.uploaded)
    as [[r | e] w1] eqn:Hrun.
  - assert (Hpath : MediaFile.StoragePath (ProcessResult.MediaFile r)
                    <> MediaFile.StoragePath Sample.cat_row).
    { vm_compute in Hrun. injection Hrun as <- _.
      intros Heq. vm_compute in Heq. discriminate Heq. }
    destruct (ProcessImage_again_removes_first_output Sample.env
                (Sample.config "/srv/media") _ _ _ _ Sample.cat_row Hrun
                ltac:(vm_compute; reflexivity) Hpath)
      as (w2 & Hagain & _ & Hin & _ & Hgone).
    exists w2. repeat split; assumption.
  - vm_compute in Hrun. discriminate.
Defined.

Lemma ProcessImage_unsupported_format_leaves_empty_file_witness :
  exists w',
    ProcessImage Sample.env (Sample.config "/srv/media")
      {| ProcessRequest.MediaID := 1;
         ProcessRequest.ProcessType := "compress";
         ProcessRequest.Width := None;
         ProcessRequest.Height := None;
         ProcessRequest.Quality := None;
         ProcessRequest.WatermarkText := "";
         ProcessRequest.OutputFormat := "gif" |} Sample.uploaded
    = (Err (Wrapped "保存处理后图片失败" (UnsupportedOutputFormat "gif")), w')
    /\ media_files w' = media_files Sample.uploaded
    /\ os.ReadFile
         (generateProcessedImagePath Sample.picture_path "compress" "gif") w'
       = (Ok [], w').
Proof.
  destruct (ProcessImage_unsupported_format_leaves_empty_file Sample.env
              (Sample.config "/srv/media")
              {| ProcessRequest.MediaID := 1;
                 ProcessRequest.ProcessType := "compress";
                 ProcessRequest.Width := None;
                 ProcessRequest.Height := None;
                 ProcessRequest.Quality := None;
                 ProcessRequest.WatermarkText := "";
                 ProcessRequest.OutputFormat := "gif" |}
              Sample.uploaded Sample.cat_row Sample.picture Sample.decoded
              Sample.decoded "png" "png")
    as (w' & Hrun & Hrows & _ & _ & Hfile).
  - vm_compute. reflexivity.
  - reflexivity.
  - vm_compute. reflexivity.
  - reflexivity.
  - reflexivity.
  - reflexivity.
  - reflexivity.
  - exists w'. repeat split; assumption.
Defined.

Lemma OptimizeImage_outcome_witness :
  match OptimizeImage Sample.env (Sample.config "/srv/media") 1
          Sample.uploaded with
  | (inr r, w') =>
      MediaFile.MimeType (ProcessResult.MediaFile r) = "image/jpeg"
      /\ MediaFile.FileSize (ProcessResult.MediaFile r) = 2
      /\ MediaFile.Caption (ProcessResult.MediaFile r) = " (compress)"
  | (inl _, _) => False
  end.
Proof.
  destruct (OptimizeImage Sample.env (Sample.config "/srv/media") 1
              Sample.uploaded) as [[e | r] w'] eqn:Hrun.
  - vm_compute in Hrun. discriminate.
  - pose proof (OptimizeImage_outcome Sample.env
                  (Sample.config "/srv/media") _ _ _ _ Hrun) as H.
    cbv zeta in H.
    destruct H as (media & Hget & _ & Hmime & Hsize & Hcompress & _).
    assert (Hmedia : media = Sample.cat_row)
      by (vm_compute in Hget; injection Hget as <-; reflexivity).
    subst media.
    refine (conj Hmime (conj Hsize (Hcompress eq_refl))).
Defined.

Lemma resizeImage_samples_inside_source_witness :
  match resizeImage Sample.decoded (Some 2) None with
  | Ok out =>
      image.At out 1 1 = image.At Sample.decoded (1 * 3 / 2) (1 * 4 / 2)
      /\ image.At out 1 1 = 21
  | Err _ => False
  end.
Proof.
  destruct (resizeImage Sample.decoded (Some 2) None) as [out | e] eqn:Hrun.
  - assert (Hbounds : image.Bounds out = image.Rect 0 0 2 2)
      by (cbv in Hrun; injection Hrun as <-; reflexivity).
    pose proof (resizeImage_samples_inside_source Sample.decoded out
                  (Some 2) None 1 1 eq_refl eq_refl eq_refl eq_refl Hrun)
      as H.
    rewrite Hbounds in H. cbv zeta in H.
    destruct H as (Hat & _); [cbn; lia | cbn; lia |].
    split; [exact Hat |]. rewrite Hat. reflexivity.
  - cbv in Hrun. discriminate.
Defined.


Lemma UploadFile_counts_one_usage_witness :
  match UploadFile Sample.env (Sample.config "/srv/media")
          (Some Sample.picture) "copy.png" 8 (Sample.request "post_content")
          Sample.uploaded with
  | (Ok res, w') =>
      mediaUsageRepository.GetUsageCountByMedia 1 Sample.uploaded
      = (Ok 1, Sample.uploaded)
      /\ mediaUsageRepository.GetUsageCountByMedia 1 w' = (Ok 2, w')
  | (Err _, _) => False
  end.
Proof.
  destruct (UploadFile Sample.env (Sample.config "/srv/media")
              (Some Sample.picture) "copy.png" 8
              (Sample.request "post_content") Sample.uploaded)
    as [[res | e] w'] eqn:Hrun.
  - destruct (UploadFile_counts_one_usage Sample.env
                (Sample.config "/srv/media") _ _ _ _ _ res w' 1 Hrun)
      as (before & Hbefore & Hafter).
    assert (Hone : before = 1)
      by (vm_compute in Hbefore; injection Hbefore as <-; reflexivity).
    assert (Hid : MediaFile.ID (UploadResult.MediaFile res) = 1)
      by (vm_compute in Hrun; injection Hrun as <- _; reflexivity).
    subst before. rewrite Hid in Hafter.
    split; [vm_compute; reflexivity | exact Hafter].
  - vm_compute in Hrun. discriminate.
Defined.
